(** * MXLIMS data model: the pydantic record types of [mxlims.pydantic]

    The repository is a set of pydantic (v2) model declarations,
    [src/mxlims/pydantic/core.py] and [src/mxlims/pydantic/crystallography.py],
    and a schema-export loop.  This development embeds

    - the declarations themselves, field by field, as data (section
      "Class table"): annotation, default, [frozen], numeric bounds,
      [discriminator], [description] and [json_schema_extra] as written;
    - the names the two modules bind when they are run (section "Module
      execution");
    - what the declarations mean when pydantic runs them, as functions over
      that data: validation on construction, attribute assignment,
      serialisation to a JSON tree, JSON-Schema generation;
    - the export loop at the end of [crystallography.py], which a run of
      the module as a script reaches after the statements of the module.

    Two names that [crystallography.py] uses are bound nowhere in the
    repository: [MxlimsObjectRef], which it imports from [core.py], and
    [MxlimsReference], the second member of every union annotation of
    [MXExperiment] and [MXProcessing] (lemma [crystallography_does_not_load]).
    The first is never used.  The class the second stands for is a
    parameter, [MxlimsReference], of every function and theorem that
    resolves names: what is proved holds whatever class is put there.

    Scope of the pydantic semantics that is modelled, which is that of
    pydantic 2.8 (later versions refuse the class statements of
    [MXExperiment] and [MXProcessing] for their [discriminator]):
    fields are taken in declaration order (inherited ones first, an
    overriding declaration keeping the inherited position); a missing key
    takes the default, which is not validated; unknown keys are ignored;
    every error of every field is collected with its location.  Validation
    is lax, as it is by default: a float field takes an int, rounded to the
    nearest double, an int field takes a whole float that fits 64 bits,
    both take a bool and a numeral, and so on.  What Python makes of the
    text of a numeral, an identifier or a timestamp is left to a parameter,
    the runtime, and so is the member that pydantic's smart mode prefers
    when several members of a plain union accept an input.  Python floats
    are modelled as rationals: these are the finite floats, compared
    exactly; infinities and NaN are not represented.  A [discriminator]
    given on a field annotated [List[Union[...]]] does not reach the union
    of the items, which is validated as a plain union. *)

From Stdlib Require Import String Ascii List Bool ZArith NArith QArith Lia
  Permutation.
Import ListNotations.
Set Warnings "-register-all".
Open Scope string_scope.
Open Scope list_scope.

(** ** Values *)

(** Python values as the models hold them and as JSON carries them.  A JSON
    document is a value built from [VNone], [VBool], [VInt], [VFloat],
    [VStr], [VList] and [VDict]; the other constructors are Python objects:
    tuples, members of a [str]-valued enum (by the member's value),
    [uuid.UUID], [datetime.datetime], and model instances with their
    attribute dictionary in field order. *)
Inductive value : Type :=
| VNone
| VBool (b : bool)
| VInt (n : Z)
| VFloat (x : Q)
| VStr (s : string)
| VList (vs : list value)
| VTuple (vs : list value)
| VDict (kvs : list (string * value))
| VEnum (enum : string) (member_value : string)
| VUuid (u : N)
| VDatetime (t : Z)
| VObj (cls : string) (attrs : list (string * value)).

(** Lookup in a dictionary kept as an association list (keys of a Python
    dict are distinct; the first binding is the binding). *)
Fixpoint lookup {A : Type} (k : string) (kvs : list (string * A)) : option A :=
  match kvs with
  | [] => None
  | (k', a) :: rest => if String.eqb k k' then Some a else lookup k rest
  end.

(** [d[k] = v] on a dictionary: the binding is replaced where it stands, or
    appended. *)
Fixpoint assign {A : Type} (k : string) (a : A) (kvs : list (string * A))
  : list (string * A) :=
  match kvs with
  | [] => [(k, a)]
  | (k', a') :: rest =>
      if String.eqb k k' then (k', a) :: rest else (k', a') :: assign k a rest
  end.

(** ** Annotations and field declarations *)

(** The annotations the two files use.  A class or enum is referred to by
    name ([TRef]), whether the source writes the name or a string forward
    reference: pydantic resolves both against the module namespace. *)
Inductive ftype : Type :=
| TAny
| TStr
| TInt
| TFloat
| TBool
| TUuid                         (* uuid.UUID *)
| TDatetime                     (* datetime.datetime *)
| TLiteral (s : string)         (* Literal["..."] *)
| TRef (name : string)          (* a model class or an enum, by name *)
| TOptional (t : ftype)
| TList (t : ftype)
| TDict (t : ftype)             (* Dict[str, t] *)
| TTuple (ts : list ftype)
| TUnion (ts : list ftype).

(** The default factories the two files pass. *)
Inductive factory : Type :=
| factory_list                  (* default_factory=list *)
| factory_dict                  (* default_factory=dict *)
| factory_uuid4_hex.            (* default_factory=lambda: uuid.uuid4().hex *)

(** The keyword arguments of [Field(...)] that the two files use, under the
    names the source gives them. *)
Inductive kwarg : Type :=
| default (v : value)
| default_factory (f : factory)
| frozen (b : bool)
| ge (bound : Q)
| le (bound : Q)
| gt (bound : Q)
| discriminator (key : string)
| description (text : string)
| json_schema_extra (extra : list (string * value)).

Inductive default_spec : Type :=
| PydanticUndefined             (* no default: the field is required *)
| Default (v : value)
| DefaultFactory (f : factory).

(** What pydantic keeps of a [Field(...)] call. *)
Record FieldInfo : Type := {
  the_default : default_spec;
  is_frozen : bool;
  bound_ge : option Q;
  bound_le : option Q;
  bound_gt : option Q;
  the_discriminator : option string;
  the_description : option string;
  schema_extra : list (string * value)
}.

Definition set_kwarg (i : FieldInfo) (k : kwarg) : FieldInfo :=
  let '{| the_default := d; is_frozen := fz; bound_ge := a; bound_le := b;
          bound_gt := c; the_discriminator := dk; the_description := ds;
          schema_extra := ex |} := i in
  match k with
  | default v => Build_FieldInfo (Default v) fz a b c dk ds ex
  | default_factory f => Build_FieldInfo (DefaultFactory f) fz a b c dk ds ex
  | frozen z => Build_FieldInfo d z a b c dk ds ex
  | ge q => Build_FieldInfo d fz (Some q) b c dk ds ex
  | le q => Build_FieldInfo d fz a (Some q) c dk ds ex
  | gt q => Build_FieldInfo d fz a b (Some q) dk ds ex
  | discriminator key => Build_FieldInfo d fz a b c (Some key) ds ex
  | description text => Build_FieldInfo d fz a b c dk (Some text) ex
  | json_schema_extra e => Build_FieldInfo d fz a b c dk ds e
  end.

(** [Field(...)] applied to keyword arguments; [Field []] is what a bare
    annotation gets. *)
Definition Field (kwargs : list kwarg) : FieldInfo :=
  fold_left set_kwarg kwargs
    {| the_default := PydanticUndefined; is_frozen := false;
       bound_ge := None; bound_le := None; bound_gt := None;
       the_discriminator := None; the_description := None;
       schema_extra := [] |}.

Record field : Type := {
  fname : string;
  annotation : ftype;
  info : FieldInfo
}.

(** [name: annotation = Field(...)] *)
Definition attr (name : string) (t : ftype) (i : FieldInfo) : field :=
  {| fname := name; annotation := t; info := i |}.

(** [name: annotation] *)
Definition bare (name : string) (t : ftype) : field :=
  {| fname := name; annotation := t; info := Field [] |}.

(** A class statement: its name, its base class (all classes of the two
    files have one base; Python has evaluated it when the statement runs,
    so it is held by value), its docstring as [inspect.cleandoc] leaves it,
    and the fields its body declares. *)
Inductive model_class : Type :=
| Class (name : string) (base : option model_class) (doc : string)
        (body : list field).

Definition class_name (c : model_class) : string :=
  match c with Class n _ _ _ => n end.

Definition class_doc (c : model_class) : string :=
  match c with Class _ _ d _ => d end.

(** A [str]-valued [enum.Enum]: members as (name, value). *)
Record enum_class : Type := {
  enum_name : string;
  members : list (string * string)
}.

(** A declaration of a subclass replaces the inherited one of the same name
    where it stands; a new name goes last. *)
Fixpoint override (f : field) (fs : list field) : list field :=
  match fs with
  | [] => [f]
  | g :: rest =>
      if String.eqb (fname f) (fname g) then f :: rest else g :: override f rest
  end.

(** [cls.model_fields], in order. *)
Fixpoint model_fields (c : model_class) : list field :=
  match c with
  | Class _ None _ body => fold_left (fun acc f => override f acc) body []
  | Class _ (Some b) _ body =>
      fold_left (fun acc f => override f acc) body (model_fields b)
  end.

Fixpoint find_field (k : string) (fs : list field) : option field :=
  match fs with
  | [] => None
  | f :: rest => if String.eqb k (fname f) then Some f else find_field k rest
  end.

(** [issubclass(c, name)], along the chain of bases. *)
Fixpoint issubclass (c : model_class) (name : string) : bool :=
  match c with
  | Class n b _ _ =>
      String.eqb n name
      || match b with Some b' => issubclass b' name | None => false end
  end.

(** ** Class table

    The class statements of the two files, in source order.  [BaseModel] is
    pydantic's root class; it declares no field. *)

Definition BaseModel : model_class := Class "BaseModel" None EmptyString [].

(** *** core.py *)

Definition JobStatus : enum_class :=
  {| enum_name := "JobStatus";
     members := [
       ("Template", "Template");
       ("Ready", "Ready");
       ("Running", "Running");
       ("Completed", "Completed");
       ("Failed", String "009"%char "Failed");   (* the source literal starts with a tab *)
       ("Aborted", "Aborted") ] |}.

Definition MxlimsObject : model_class :=
  Class "MxlimsObject" (Some BaseModel)
    "Basic abstract MXLIMS object, with attributes shared by all MXLIMS objects" [
    attr "uuid" TStr (Field [
        default_factory factory_uuid4_hex;
        frozen true;
        json_schema_extra [("description", VStr "Permanent unique identifier string")]]);
    attr "extensions" (TDict TAny) (Field [
        default_factory factory_dict;
        json_schema_extra [("description", VStr "Keyword-value extensions; use is accepted but discouraged")]]);
    attr "namespace_extensions" (TDict (TRef "BaseModel")) (Field [
        default_factory factory_dict;
        json_schema_extra [("description", VStr "Namespaced extension. Key is an organisation identifier (e.g. 'GPhL), value is a Pydantic model defined by this organisation.")]])
  ].

Definition Dataset : model_class :=
  Class "Dataset" (Some MxlimsObject)
    "Base class for MXLIMS Datasets" [
    attr "source" (TOptional (TRef "Job")) (Field [
        default VNone;
        frozen true;
        json_schema_extra [("description", VStr "Job that created this Dataset. return link for job.results")]]);
    attr "role" (TOptional TStr) (Field [
        default VNone;
        frozen true;
        json_schema_extra [("description", VStr "Role of Dataset realtive to the source Job.Intended for filtering of Datasets");
          ("examples", VList [VStr "Result"; VStr "Intermediate"; VStr "Characterisation"; VStr "Centring"])]]);
    attr "logistical_sample" (TOptional (TRef "LogisticalSample")) (Field [
        default VNone;
        frozen true;
        json_schema_extra [("description", VStr "Logistical Sample or Sample location relevant to Dataset.Overrides Job.logistical_sample; return link for Logisticalsample.datasets")]]);
    attr "derived_from_id" (TOptional TUuid) (Field [
        default VNone;
        frozen true;
        json_schema_extra [("description", VStr "UUID for Dataset from which this Dataset was derived. Used for modified Datasets without a 'source' link, e.g. when removing images from a sweep before processing.")]])
  ].

Definition Job : model_class :=
  Class "Job" (Some MxlimsObject)
    "Base class for MXLIMS Jobs - an experiment or calculation producing Datasets" [
    attr "sample" (TOptional (TRef "PreparedSample")) (Field [
        default VNone;
        frozen true;
        json_schema_extra [("description", VStr "Prepared sample relevant to Job.return link for PreparedSample.jobs")]]);
    attr "logistical_sample" (TOptional (TRef "LogisticalSample")) (Field [
        default VNone;
        frozen true;
        json_schema_extra [("description", VStr "Logistical Sample or Sample location relevant to Job.Overridden by Dataset.logistical_sample; return link for Logisticalsample.jobs")]]);
    attr "templates" (TList (TRef "Dataset")) (Field [
        default_factory factory_list;
        json_schema_extra [("description", VStr "Templates with parameters for output datasets – e.g. diffraction plan, processing plan")]]);
    attr "input_data" (TList (TRef "Dataset")) (Field [
        default_factory factory_list;
        json_schema_extra [("description", VStr "Input data sets (pre-existing), used for calculation")]]);
    attr "reference_data" (TList (TRef "Dataset")) (Field [
        default_factory factory_list;
        json_schema_extra [("description", VStr "Reference data sets, e.g. reference mtz file, ")]]);
    attr "results" (TList (TRef "Dataset")) (Field [
        default_factory factory_list;
        json_schema_extra [("description", VStr "Datasets produced by Job")]]);
    attr "start_time" (TOptional TDatetime) (Field [
        default VNone;
        json_schema_extra [("description", VStr "Actual starting time for job or calculation, ")]]);
    attr "end_time" (TOptional TDatetime) (Field [
        default VNone;
        json_schema_extra [("description", VStr "Actual finishing time for job or calculation, ")]]);
    attr "job_status" (TOptional (TRef "JobStatus")) (Field [
        default VNone;
        json_schema_extra [("description", VStr "Status of job - enumerated, ");
          ("examples", VList [VStr "Template"; VStr "Ready"; VStr "Running"; VStr "Completed"; VStr (String (ascii_of_nat 9) EmptyString ++ "Failed"); VStr "Aborted"])]])
  ].

Definition LogisticalSample : model_class :=
  Class "LogisticalSample" (Some MxlimsObject)
    "Base class for MXLIMS Logistical Samples

describing Sample containers and locations
(from Dewars and Plates to drops, pins and crystals)" [
    attr "sample" (TOptional (TRef "PreparedSample")) (Field [
        default VNone;
        json_schema_extra [("description", VStr "The sample preparation that applies to this LogisticalSample and all its contents")]]);
    attr "container" (TOptional (TRef "LogisticalSample")) (Field [
        default VNone;
        json_schema_extra [("description", VStr "The LogisticalSample containing this one")]]);
    attr "contents" (TList (TRef "LogisticalSample")) (Field [
        default_factory factory_list;
        json_schema_extra [("description", VStr "LogisticalSamples contained in this one")]]);
    attr "jobs" (TList (TRef "Job")) (Field [
        default_factory factory_list;
        json_schema_extra [("description", VStr "Jobs (templates, planned, initiated or completed)for this LogisticalSample")]]);
    attr "datasets" (TList (TRef "Dataset")) (Field [
        default_factory factory_list;
        json_schema_extra [("description", VStr "Datasets (templates, planned, initiated or completed)for this LogisticalSample")]])
  ].

Definition PreparedSample : model_class :=
  Class "PreparedSample" (Some MxlimsObject)
    "Base class for MXLIMS Prepared Samples, describing sample content" [
    attr "logistical_samples" (TList (TRef "LogisticalSample")) (Field [
        default_factory factory_list;
        json_schema_extra [("description", VStr "LogisticalSamples with contents from this LogisticalSample")]]);
    attr "jobs" (TList (TRef "Job")) (Field [
        default_factory factory_list;
        json_schema_extra [("description", VStr "Jobs (templates, planned, initiated or completed)for this PreparedSample")]])
  ].

(** *** crystallography.py *)

Definition PdbxSignalType : enum_class :=
  {| enum_name := "PdbxSignalType";
     members := [
       ("I_over_sigma", "local <I/sigmaI>");
       ("wCC_half", "local wCC_half") ] |}.

Definition QualityFactorType : enum_class :=
  {| enum_name := "QualityFactorType";
     members := [
       ("R_merge", "R(merge)");
       ("R_meas", "R(meas)");
       ("R_pim", "R(pim)");
       ("I_over_SigI", "I/SigI");
       ("CC_half", "CC(1/2)");
       ("CC_ano", "CC(ano)");
       ("SigAno", "SigAno");
       ("Completeness", "Completeness");
       ("Redundancy", "Redundancy") ] |}.

Definition ReflectionBinningMode : enum_class :=
  {| enum_name := "ReflectionBinningMode";
     members := [
       ("equal_volume", "equal_volume");
       ("equal_number", "equal_number");
       ("dstar_equidistant", "dstar_equidistant");
       ("dstar2_equidistant", "dstar2_equidistant") ] |}.

Definition UnitCell : model_class :=
  Class "UnitCell" (Some BaseModel)
    "Crystallographic unit cell" [
    attr "a" TFloat (Field [
        frozen true;
        json_schema_extra [(EmptyString, VStr "A axis length (A)")]]);
    attr "b" TFloat (Field [
        frozen true;
        description "B axis length (A)"]);
    attr "c" TFloat (Field [
        frozen true;
        description "C axis length (A)"]);
    attr "alpha" TFloat (Field [
        frozen true;
        description "alpha angle (degres)"]);
    attr "beta" TFloat (Field [
        frozen true;
        description "beta angle (degres)"]);
    attr "gamma" TFloat (Field [
        frozen true;
        description "gamma angle (degres)"])
  ].

Definition Tensor : model_class :=
  Class "Tensor" (Some BaseModel)
    "Tensor" [
    attr "eigenvalues" (TTuple [TFloat; TFloat; TFloat]) (Field [
        description "Eigenvalues of tensor"]);
    attr "eigenvectors" (TList (TTuple [TFloat; TFloat; TFloat])) (Field [
        description "Eigenvectors (unit vectors) of tensor, in same order as eigenvalues"])
  ].

Definition QualityFactor : model_class :=
  Class "QualityFactor" (Some BaseModel)
    "Reflection shell quality factor. Enumerated type with associated value" [
    attr "type" (TRef "QualityFactorType") (Field [
        description "Quality factor type"]);
    attr "value" TFloat (Field [
        description "Quality factor value"])
  ].

Definition Macromolecule : model_class :=
  Class "Macromolecule" (Some BaseModel)
    "Macromolecule - main molecule under investigation

#NB model still incomplete" [
    attr "acronym" TStr (Field [
        description "Acronynm - short synonym of macromolecule"]);
    attr "name" (TOptional TStr) (Field [
        default VNone;
        description "Human readable name of macromolecule"]);
    attr "identifiers" (TDict TStr) (Field [
        default_factory factory_dict;
        description "Dictionary str:str  of contextName: identifier.contextName could refer to a LIMS, database, or web site but could also be e.g. 'sequence'"])
  ].

Definition Component : model_class :=
  Class "Component" (Some BaseModel)
    "Additional component of sample ('ligand')

#NB model still incomplete" [
    attr "acronym" TStr (Field [
        description "Acronynm - short synonym of component (e.g. 'lig1'"]);
    attr "name" (TOptional TStr) (Field [
        default VNone;
        description "Human readable name of component"]);
    attr "identifiers" (TDict TStr) (Field [
        default_factory factory_dict;
        description "Dictionary str:str of contextName: identifier.contectName will typically refer to a LIMS, database, or web site but could also be e.g. 'smiles'"])
  ].

Definition MXExperiment : model_class :=
  Class "MXExperiment" (Some Job)
    "MX Crystallographic data acquisition experiment." [
    bare "mxlims_type" (TLiteral "MXExperiment");
    attr "experiment_strategy" TStr (Field [
        default VNone;
        description "Experiment strategy indicator";
        json_schema_extra [("examples", VList [VStr "OSC"; VStr "Helical"; VStr "MXPressE"; VStr "GPhL_native_basic"; VStr "GPhL_SAD_advanced"; VStr "GPhL_2wvl_basic"])]]);
    attr "expected_resolution" (TOptional TFloat) (Field [
        default VNone;
        description "The resolution expected in the experiment – for positioning the detector and setting up the experiment"]);
    attr "target_completeness" (TOptional TFloat) (Field [
        default VNone;
        description "Minimal completeness expected from experiment"]);
    attr "target_multiplicity" (TOptional TFloat) (Field [
        default VNone;
        description "Minimal multiplicity expected from experiment"]);
    attr "dose_budget" (TOptional TFloat) (Field [
        default VNone;
        description "Dose (MGy) to be used in experiment"]);
    attr "snapshot_count" (TOptional TInt) (Field [
        default VNone;
        description "Number of snapshots to acquire after each (re)centring"]);
    attr "wedge_width" (TOptional TFloat) (Field [
        default VNone;
        description "Wedge width (in degrees) to use for interleaving"]);
    attr "measured_flux" (TOptional TFloat) (Field [
        default VNone;
        description "Measured value of beam flux in photons/s"]);
    attr "radiation_dose" (TOptional TFloat) (Field [
        default VNone;
        description "Total radiation dose absorbed during experiment"]);
    attr "unit_cell" (TOptional (TRef "UnitCell")) (Field [
        default VNone;
        description "Crystallographic unit cell, as determined during charaterisation"]);
    attr "space_group_name" (TOptional TStr) (Field [
        default VNone;
        description "Name of space group, as determined during characterisation. Names may include alternative settings."]);
    attr "sample" (TOptional (TRef "MXSample")) (Field [
        default VNone;
        frozen true;
        description "MX Crystallographic sample relevant to Job."]);
    attr "templates" (TList (TUnion [TRef "CollectionSweep"; TRef "MxlimsReference"])) (Field [
        default_factory factory_list;
        discriminator "mxlims_type";
        description "Templates with parameters for output datasets "]);
    attr "reference_data" (TList (TUnion [TRef "ReflectionSet"; TRef "MxlimsReference"])) (Field [
        default_factory factory_list;
        discriminator "mxlims_type";
        description "Reference data sets, e.g. reference mtz file, "]);
    attr "results" (TList (TUnion [TRef "CollectionSweep"; TRef "MxlimsReference"])) (Field [
        default_factory factory_list;
        discriminator "mxlims_type";
        description "Datasets produced by Job (match Dataset.source_id"])
  ].

Definition MXExperimentRef : model_class :=
  Class "MXExperimentRef" (Some BaseModel)
    "Reference to MXExperiment object, for use in JSON files." [
    bare "target_type" (TLiteral "MXExperiment")
  ].

Definition CollectionSweep : model_class :=
  Class "CollectionSweep" (Some Dataset)
    "MX  Crystallographic data collection sweep, may be subdivided for acquisition

 Note that the CollectionSweep specifies a single, continuous sweep range,
 with equidistant images given by image_width, and all starting motor positions
 in axis_position_start. axis_positions_end contain the end point of the sweep,
 and must have at least the value for the scan_axis; sweeps changing more than
 one motor (e.g. helical scan) can be represented by adding more values
 to axis_positions_end. The default number of images can be calculated from the
 sweep range and image_width. The actual number of images, the image numbering,
 and the order of acquisition (including interleaving) follows from the list of
 Scans. The role should be set to ‘Result’ for those sweeps that are deemed to
 be the desired result of the experiment; in templates you would prefer to use
 Acquisition for the Dataset that gives the acquisition parameters.
 " [
    bare "mxlims_type" (TLiteral "CollectionSweep");
    attr "annotation" (TOptional TStr) (Field [
        default VNone;
        description "Annotation string for sweep"]);
    attr "exposure_time" (TOptional TFloat) (Field [
        default VNone;
        description "Exposure time in seconds"]);
    attr "image_width" (TOptional TFloat) (Field [
        default VNone;
        description "Width of a single image, along scan_axis. For rotational axes in degrees, for translations in m."]);
    attr "energy" (TOptional TFloat) (Field [
        default VNone;
        description "Energy of the beam in eV"]);
    attr "transmission" (TOptional TFloat) (Field [
        default VNone;
        ge 0;
        le 100;
        description "Transmission setting in %"]);
    attr "detector_type" (TOptional TStr) (Field [
        default VNone;
        description "Type of detector, using enumeration of mmCIF Items/_diffrn_detector.type.html"]);
    attr "detector_binning_mode" (TOptional TStr) (Field [
        default VNone;
        description "Binning mode of detector. Should be made into an enumeration"]);
    attr "detector_roi_mode" (TOptional TStr) (Field [
        default VNone;
        description "Region-of-interest mode of detector. Should be made into an enumeration"]);
    attr "beam_position" (TOptional (TTuple [TFloat; TFloat])) (Field [
        default VNone;
        description "x,y position of the beam on the detector in pixels"]);
    attr "beam_size" (TOptional (TTuple [TFloat; TFloat])) (Field [
        default VNone;
        description "x,y size of the beam on the detector in m"]);
    attr "beam_shape" (TOptional TStr) (Field [
        default VNone;
        description "Shape of the beam. NBNB Should be an enumeration";
        json_schema_extra [("examples", VList [VStr "unknown"; VStr "rectangular"; VStr "ellipsoid"])]]);
    attr "axis_positions_start" (TDict TFloat) (Field [
        default_factory factory_dict;
        description "Dictionary string:float with starting position of all axes, rotations or translations, including detector distance, by name. Units are m for distances, degrees for angles"]);
    attr "axis_positions_end" (TDict TFloat) (Field [
        default_factory factory_dict;
        description "Dictionary string:float with final position of scanned axes as for axis_positions_start,NB scans may be acquired out of order, so this determines the limits of the sweep, not the temporal start and end points"]);
    attr "scan_axis" TStr (Field [
        description "Name of main scanned axis. Other axes may be scanned in parallel.";
        json_schema_extra [("examples", VList [VStr "Omega"; VStr "Kappa"; VStr "Phi"; VStr "Chi"; VStr "TwoTheta"; VStr "SampleX"; VStr "SampleY"; VStr "SampleZ"; VStr "DetectorX"; VStr "DetectorY"])]]);
    attr "overlap" (TOptional TFloat) (Field [
        default VNone;
        description "Overlap between successivce images, in degrees. May be negtive for non-contiguous images."]);
    attr "num_triggers" (TOptional TInt) (Field [
        default VNone;
        description "Number of triggers. Instruction to detector - does not modify effect of other parameters."]);
    attr "num_images_per_trigger" (TOptional TInt) (Field [
        default VNone;
        description "Number of images per trigger. Instruction to detector - does not modify effect of other parameters."]);
    attr "scans" (TList (TRef "Scan")) (Field [
        default_factory factory_list;
        description "List of Snas i.e. subdivisions of CollectionSweepNB Scans need not be contiguous or in order or add up to entire sweep"]);
    attr "file_type" (TOptional TStr) (Field [
        default VNone;
        description "Type of file.";
        json_schema_extra [("examples", VList [VStr "mini-cbf"; VStr "imgCIF"; VStr "FullCBF"; VStr "HDF5"; VStr "MarCCD"])]]);
    attr "prefix" (TOptional TStr) (Field [
        default VNone;
        description "Input parameter - used to build the fine name template."]);
    attr "filename_template" (TOptional TStr) (Field [
        default VNone;
        description "File name template,  includes prefix, suffix, run number, and a slot where image number can be filled in."]);
    attr "path" (TOptional TStr) (Field [
        default VNone;
        description "Path to directory containing image files."])
  ].

Definition CollectionSweepRef : model_class :=
  Class "CollectionSweepRef" (Some BaseModel)
    "Reference to CollectionSweep object, for use in JSON files." [
    bare "target_type" (TLiteral "CollectionSweep")
  ].

Definition Scan : model_class :=
  Class "Scan" (Some BaseModel)
    "Subdivision of CollectionSweep.

The Scan describes a continuously acquired set of images that forms a subset of the
CollectionSweep of which they form part. The ordinal gives the acquisition order of
sweeps across an entire multi-sweep experiment; this allows you to describe
out-of-order acquisition and interleaving." [
    attr "scan_position_start" TFloat (Field [
        description "Value of scan axis for the first image, in units matching axis type"]);
    attr "first_image_no" TInt (Field [
        description "Image number to use for first image"]);
    attr "num_images" TInt (Field [
        description "Number of images to acquire as part of the Scan."]);
    attr "ordinal" TInt (Field [
        description "Ordinal defining the ordering of all scans within the experiment (not just within the scan)"])
  ].

Definition MXProcessing : model_class :=
  Class "MXProcessing" (Some Job)
    "MX Crystallographic processing calculation, going from images to reflection sets" [
    bare "mxlims_type" (TLiteral "MXProcessing");
    attr "unit_cell" (TOptional (TRef "UnitCell")) (Field [
        default VNone;
        description "Expected unit cell for processing."]);
    attr "space_group_name" (TOptional TStr) (Field [
        default VNone;
        description "Name of expected space group, for processing. Names may include alternative settings."]);
    attr "sample" (TOptional (TRef "MXSample")) (Field [
        default VNone;
        frozen true;
        description "MX Crystallographic sample relevant to Job. "]);
    attr "input_data" (TList (TUnion [TRef "CollectionSweep"; TRef "MxlimsReference"])) (Field [
        default_factory factory_list;
        discriminator "mxlims_type";
        description "List of pre-existing Input data sets used for calculation, or of their String UUID"]);
    attr "templates" (TList (TUnion [TRef "ReflectionSet"; TRef "MxlimsReference"])) (Field [
        default_factory factory_list;
        discriminator "mxlims_type";
        description "Templates with parameters for output datasets "]);
    attr "reference_data" (TList (TUnion [TRef "ReflectionSet"; TRef "MxlimsReference"])) (Field [
        default_factory factory_list;
        discriminator "mxlims_type";
        description "Reference data sets, e.g. reference mtz file, "]);
    attr "results" (TList (TUnion [TRef "ReflectionSet"; TRef "MxlimsReference"])) (Field [
        default_factory factory_list;
        discriminator "mxlims_type";
        description "Datasets produced by Job (match Dataset.source_id"])
  ].

Definition MXProcessingRef : model_class :=
  Class "MXProcessingRef" (Some BaseModel)
    "Reference to MXProcessing object, for use in JSON files." [
    bare "target_type" (TLiteral "MXProcessing")
  ].

Definition ReflectionStatistics : model_class :=
  Class "ReflectionStatistics" (Some BaseModel)
    "Reflection statistics for a shell (or all) of reflections" [
    attr "resolution_limits" (TTuple [TFloat; TFloat]) (Field [
        description "lower, higher resolution limit fo shell – matches mmCIF d_res_high, d_res_low."]);
    attr "number_observations" TInt (Field [
        description "total number of observations, – NBNB matches WHICH mmCIF parameter?"]);
    attr "number_unique_observations" TInt (Field [
        description "total number of unique observations, – NBNB matches WHICH mmCIF parameter?"]);
    attr "quality_factors" (TList (TRef "QualityFactor")) (Field [
        default_factory factory_list;
        description "Quality factors for reflection shell, "]);
    attr "completeness" TFloat (Field [
        ge 0;
        le 100;
        description "Completeness for reflection shell in %, matches mmCIF percent_possible_all. NBNB What about ...._obs??"]);
    attr "chi_squared" (TOptional TFloat) (Field [
        default VNone;
        ge 0;
        description "Chi-squared statistic for reflection shell, matches mmCIF pdbx_chi_squared"]);
    attr "number_rejected_reflns" (TOptional TInt) (Field [
        default VNone;
        description "Number of rejected reflns for reflection shell, matches pdbx_rejects"]);
    attr "redundancy" TFloat (Field [
        ge 0;
        description "Redundancy of data collected in this shell – matches mmCIF pdbx_redundancy"]);
    attr "redundancy_anomalous" TFloat (Field [
        ge 0;
        description "Redundancy of anomalous data collected in this shell – matches mmCIF pdbx_redundancy_anomalous"])
  ].

Definition ReflectionSet : model_class :=
  Class "ReflectionSet" (Some Dataset)
    "Processed  reflections, possibly merged or scaled
as might be stored within an MTZ file or as mmCIF.refln" [
    bare "mxlims_type" (TLiteral "ReflectionSet");
    attr "anisotropic_diffraction" TBool (Field [
        default (VBool false);
        description "Is diffraction limit analysis aniosotropic? True/False "]);
    attr "resolution_rings_detected" (TList (TTuple [TFloat; TFloat])) (Field [
        default_factory factory_list;
        description "Resolution rings detected as originating from ice, powder diffraction etc."]);
    attr "resolution_rings_excluded" (TList (TTuple [TFloat; TFloat])) (Field [
        default_factory factory_list;
        description "Resolution rings excluded from calculation"]);
    attr "unit_cell" (TOptional (TRef "UnitCell")) (Field [
        default VNone;
        description "Unit cell determined."]);
    attr "space_group_name" (TOptional TStr) (Field [
        default VNone;
        description "Name of detected space group. Names may include alternative settings."]);
    attr "operational_resolution" (TOptional TFloat) (Field [
        default VNone;
        description "Operation resolution in A matchingobserved_criteria."]);
    attr "B_iso_Wilson_estimate" (TOptional TFloat) (Field [
        default VNone;
        description "matches mmCIF reflns.B_iso_Wilson_estimate"]);
    attr "h_index_range" (TTuple [TInt; TInt]) (Field [
        description "lowest and higherst h index - matches mCIF reflens.limit_h_*"]);
    attr "k_index_range" (TTuple [TInt; TInt]) (Field [
        description "lowest and higherst k index - matches mCIF reflens.limit_h_*"]);
    attr "l_index_range" (TTuple [TInt; TInt]) (Field [
        description "lowest and higherst l index - matches mCIF reflens.limit_h_*"]);
    attr "num_reflections" TInt (Field [
        description "Total number of reflections - matches mmCIF ???? "]);
    attr "num_unique_reflections" TInt (Field [
        description "Total number of unique reflections - matches mmCIF ???? "]);
    attr "aniso_B_tensor" (TOptional (TRef "Tensor")) (Field [
        default VNone;
        description "Anisotropic B tensor, matching mmCIF reflns.pdbx_aniso_B_tensor"]);
    attr "diffraction_limits_estimated" (TOptional (TRef "Tensor")) (Field [
        default VNone;
        description "Ellipsoid of observable reflections (unit:A), regardless whether all have actually been observed. Matches mmCIF reflns.pdbx_anisodiffraction_limit"]);
    attr "overall_refln_statistics" (TOptional (TRef "ReflectionStatistics")) (Field [
        default VNone;
        description "Reflection statistics for all measured reflections"]);
    attr "refln_shells" (TList (TRef "ReflectionStatistics")) (Field [
        default_factory factory_list;
        description "Reflection statistics per reflection shell"]);
    attr "observed_criterion_sigma_F" (TOptional TFloat) (Field [
        default VNone;
        description "Criterion for when a reflection counts as observed, as a multiple of sigma(F) – matches mmCIF reflns.observed_criterion_sigma_F"]);
    attr "observed_criterion_sigma_I" (TOptional TFloat) (Field [
        default VNone;
        description "Criterion for when a reflection counts as observed, as a multiple of sigma(I) – matches mmCIF reflns.observed_criterion_sigma_I"]);
    attr "signal_type" (TOptional (TRef "PdbxSignalType")) (Field [
        default VNone;
        description "local <I/sigmaI>’, ‘local wCC_half'; matches reflns.pdbx_signal_type. Criterion for observability, as used in mmCIF revln.pdbx_signal_status"]);
    attr "signal_cutoff" (TOptional TFloat) (Field [
        default VNone;
        description "Limiting value for signal calculation; matches reflns.pdbx_observed_signal_threshold. Cutoff for observability, as used in mmCIF refln.pdbx_signal_status"]);
    attr "resolution_cutoffs" (TList (TRef "QualityFactor")) (Field [
        default_factory factory_list;
        description "MRFANA resolution cutoff criteria"]);
    attr "binning_mode" (TOptional (TRef "ReflectionBinningMode")) (Field [
        default VNone;
        description "Binning mode for reflection binning"]);
    attr "number_bins" (TOptional TInt) (Field [
        default VNone;
        gt 0;
        description "Number of equal volume bins for reflection binning"]);
    attr "refln_per_bin" (TOptional TInt) (Field [
        default VNone;
        gt 0;
        description "Number of reflections per bin"]);
    attr "refln_per_bin_per_sweep" (TOptional TInt) (Field [
        default VNone;
        gt 0;
        description "Number of reflections per bin for per-run statistics"]);
    attr "file_type" (TOptional TStr) (Field [
        default VNone;
        description "Type of file NBNB Should be enum What values??"]);
    attr "filename" (TOptional TStr) (Field [
        default VNone;
        description "File name NBNB What about multiple files?."]);
    attr "path" (TOptional TStr) (Field [
        default VNone;
        description "Path to directory containing reflection set files."])
  ].

Definition ReflectionSetRef : model_class :=
  Class "ReflectionSetRef" (Some BaseModel)
    "Reference to ReflectionSet object, for use in JSON files." [
    bare "target_type" (TLiteral "ReflectionSet")
  ].

Definition MXSample : model_class :=
  Class "MXSample" (Some PreparedSample)
    "Prepared Sample with MX crystallography-specific additions

NB this class is still unfinished" [
    bare "mxlims_type" (TLiteral "MXSample");
    attr "macromolecule" (TRef "Macromolecule") (Field [
        default VNone;
        description "Macromolecule formingt crystal(s) in sample"]);
    attr "components" (TList (TRef "Component")) (Field [
        default_factory factory_list;
        description "List of components in sample"]);
    attr "unit_cell" (TOptional (TRef "UnitCell")) (Field [
        default VNone;
        description "Unit cell expected in sample."]);
    attr "space_group_name" (TOptional TStr) (Field [
        default VNone;
        description "Name of space group expected in Sample. Names may include alternative settings."]);
    attr "radiation_sensitivity" (TOptional TFloat) (Field [
        default VNone;
        ge 0;
        le 1;
        description "Relative radiation sensitivity of sample."]);
    attr "identifiers" (TDict TStr) (Field [
        default_factory factory_dict;
        description "Dictionary str:str of contextName: identifier.contectName will typically refer to a LIMS, database, or web site and the identifier will point to the ample within thie context";
        json_schema_extra [("examples", VList [VDict [("sendersId", VStr "29174"); ("receiversUrl", VStr "http://lims.synchrotron.org/crystal/54321")]])]]);
    attr "jobs" (TList (TUnion [TRef "MXExperiment"; TRef "MXProcessing"])) (Field [
        default_factory factory_list;
        description "Jobs (templates, planned, initiated or completed)for this PreparedSample"])
  ].

Definition MXSampleRef : model_class :=
  Class "MXSampleRef" (Some BaseModel)
    "Reference to MXSample object, for use in JSON files." [
    bare "target_type" (TLiteral "MXSample")
  ].


(** ** Module execution: the names that are bound

    What running the two files binds, statement by statement.  A class
    statement evaluates its bases and every name its body uses outside
    string literals and lambda bodies (annotations are evaluated when the
    statement runs; a quoted forward reference such as ["Job"] is a string
    and evaluates no name). *)

Inductive statement : Type :=
| import_ (names : list string)
    (* import m, from typing import ..., from pydantic import ... *)
| from_import (exports : list string) (names : list string)
    (* from <a module of this repository> import names *)
| class_ (name : string) (evaluates : list string).

Inductive exception : Type :=
| ImportError (name : string)
| NameError (name : string).

Definition builtins : list string :=
  ["str"; "int"; "float"; "bool"; "dict"; "list"].

Definition bound (globals : list string) (name : string) : bool :=
  existsb (String.eqb name) (globals ++ builtins).

Definition first_unbound (globals names : list string) : option string :=
  find (fun name => negb (bound globals name)) names.

(** Run the statements in order from the given globals: the globals at the
    end, or the exception that stops the module. *)
Fixpoint exec (stmts : list statement) (globals : list string)
  : exception + list string :=
  match stmts with
  | [] => inr globals
  | import_ names :: rest => exec rest (globals ++ names)
  | from_import exports names :: rest =>
      match find (fun name => negb (existsb (String.eqb name) exports)) names with
      | Some name => inl (ImportError name)
      | None => exec rest (globals ++ names)
      end
  | class_ name evaluates :: rest =>
      match first_unbound globals evaluates with
      | Some missing_name => inl (NameError missing_name)
      | None => exec rest (globals ++ [name])
      end
  end.

Definition core_py : list statement :=
  [ import_ ["uuid"];
    import_ ["datetime"];
    import_ ["enum"];
    import_ ["Optional"; "Dict"; "List"; "Any"];
    import_ ["BaseModel"; "Field"];
    class_ "JobStatus" ["str"; "enum"];
    class_ "MxlimsObject" ["BaseModel"; "str"; "Field"; "Dict"; "Any"; "dict"];
    class_ "Dataset" ["MxlimsObject"; "Optional"; "Field"; "str"; "uuid"];
    class_ "Job" ["MxlimsObject"; "Optional"; "Field"; "List"; "Dataset"; "list";
                  "datetime"; "JobStatus"];
    class_ "LogisticalSample" ["MxlimsObject"; "Optional"; "Field"; "List"; "list";
                               "Job"; "Dataset"];
    class_ "PreparedSample" ["MxlimsObject"; "List"; "LogisticalSample"; "Field";
                             "list"; "Job"] ].

Definition core_globals : list string :=
  [ "uuid"; "datetime"; "enum"; "Optional"; "Dict"; "List"; "Any";
    "BaseModel"; "Field"; "JobStatus"; "MxlimsObject"; "Dataset"; "Job";
    "LogisticalSample"; "PreparedSample" ].

(** [crystallography.py], with the names its fourth import statement asks
    of [mxlims.pydantic.core] left open. *)
Definition crystallography_py (from_core : list string) : list statement :=
  [ import_ ["enum"];
    import_ ["Optional"; "Dict"; "List"; "Tuple"; "Union"; "Literal"];
    import_ ["BaseModel"; "Field"];
    from_import core_globals from_core;
    class_ "PdbxSignalType" ["str"; "enum"];
    class_ "QualityFactorType" ["str"; "enum"];
    class_ "ReflectionBinningMode" ["str"; "enum"];
    class_ "UnitCell" ["BaseModel"; "float"; "Field"];
    class_ "Tensor" ["BaseModel"; "Tuple"; "float"; "Field"; "List"];
    class_ "QualityFactor" ["BaseModel"; "QualityFactorType"; "Field"; "float"];
    class_ "Macromolecule" ["BaseModel"; "str"; "Field"; "Optional"; "Dict"; "dict"];
    class_ "Component" ["BaseModel"; "str"; "Field"; "Optional"; "Dict"; "dict"];
    class_ "MXExperiment" ["Job"; "Literal"; "str"; "Field"; "Optional"; "float";
                           "int"; "UnitCell"; "List"; "Union"; "MxlimsReference";
                           "list"];
    class_ "MXExperimentRef" ["BaseModel"; "Literal"];
    class_ "CollectionSweep" ["Dataset"; "Literal"; "Optional"; "str"; "Field";
                              "float"; "Tuple"; "Dict"; "dict"; "int"; "List"; "list"];
    class_ "CollectionSweepRef" ["BaseModel"; "Literal"];
    class_ "Scan" ["BaseModel"; "float"; "Field"; "int"];
    class_ "MXProcessing" ["Job"; "Literal"; "Optional"; "UnitCell"; "Field"; "str";
                           "List"; "Union"; "MxlimsReference"; "list"];
    class_ "MXProcessingRef" ["BaseModel"; "Literal"];
    class_ "ReflectionStatistics" ["BaseModel"; "Tuple"; "float"; "Field"; "int";
                                   "List"; "QualityFactor"; "list"; "Optional"];
    class_ "ReflectionSet" ["Dataset"; "Literal"; "bool"; "Field"; "List"; "Tuple";
                            "float"; "list"; "Optional"; "UnitCell"; "str"; "int";
                            "Tensor"; "ReflectionStatistics"; "PdbxSignalType";
                            "QualityFactor"; "ReflectionBinningMode"];
    class_ "ReflectionSetRef" ["BaseModel"; "Literal"];
    class_ "MXSample" ["PreparedSample"; "Literal"; "Macromolecule"; "Field"; "List";
                       "Component"; "list"; "Optional"; "UnitCell"; "str"; "float";
                       "Dict"; "dict"; "Union"; "MXExperiment"; "MXProcessing"];
    class_ "MXSampleRef" ["BaseModel"; "Literal"] ].

(** The import statement of [crystallography.py], lines 34 to 40. *)
Definition imported_from_core : list string :=
  ["Job"; "Dataset"; "PreparedSample"; "LogisticalSample"; "MxlimsObjectRef"].

(** The model classes and the enums of the two modules, by the names the
    class statements bind.  [MxlimsReference] is not among them: the class
    of that name is a parameter of everything below that resolves names. *)
Definition classes : list model_class :=
  [ BaseModel; MxlimsObject; Dataset; Job; LogisticalSample; PreparedSample;
    UnitCell; Tensor; QualityFactor; Macromolecule; Component;
    MXExperiment; MXExperimentRef; CollectionSweep; CollectionSweepRef; Scan;
    MXProcessing; MXProcessingRef; ReflectionStatistics; ReflectionSet;
    ReflectionSetRef; MXSample; MXSampleRef ].

Definition enums : list enum_class :=
  [ JobStatus; PdbxSignalType; QualityFactorType; ReflectionBinningMode ].

Definition find_enum (name : string) : option enum_class :=
  find (fun e => String.eqb (enum_name e) name) enums.

(** ** Errors *)

(** A location inside the input, as pydantic reports it: keys and indexes
    from the root. *)
Inductive loc_item : Type :=
| Key (k : string)
| Idx (i : nat).

Definition loc : Type := list loc_item.

(** pydantic's error types, by their identifiers; [no_such_field] is the
    [ValueError] that assignment to an undeclared attribute raises,
    [attribute_error] and [type_error] are the [AttributeError] and the
    [TypeError] of an assignment Python itself refuses, and
    [class_not_fully_defined] is the [PydanticUserError] of an annotation that
    names no class. *)
Inductive error_type : Type :=
| missing
| string_type
| int_type | int_from_float | int_parsing | int_parsing_size
| float_type | float_parsing
| bool_type | bool_parsing
| list_type | tuple_type | dict_type | model_type
| uuid_type | uuid_parsing | datetime_type | datetime_parsing
| too_long
| literal_error | enum
| greater_than_equal | less_than_equal | greater_than
| union_tag_not_found | union_tag_invalid
| frozen_field
| no_such_field
| attribute_error
| type_error
| class_not_fully_defined.

Record error : Type := { eloc : loc; etype : error_type }.

(** The kinds of failure of the specification's error taxonomy, under
    which the claims name pydantic's error types. *)
Inductive error_kind : Type :=
| missing_required_field
| wrong_type
| out_of_range
| invalid_enum_member
| unknown_variant
| immutable_field
| other_error.

Definition kind_of (t : error_type) : error_kind :=
  match t with
  | missing => missing_required_field
  | string_type
  | int_type | int_from_float | int_parsing | int_parsing_size
  | float_type | float_parsing
  | bool_type | bool_parsing
  | list_type | tuple_type | dict_type | model_type
  | uuid_type | uuid_parsing | datetime_type | datetime_parsing
  | too_long => wrong_type
  | literal_error | enum => invalid_enum_member
  | greater_than_equal | less_than_equal | greater_than => out_of_range
  | union_tag_not_found | union_tag_invalid => unknown_variant
  | frozen_field => immutable_field
  | no_such_field | attribute_error | type_error
  | class_not_fully_defined => other_error
  end.

(** The outcome of a validation: the validated value, or every error found
    (pydantic's [ValidationError] carries the whole list). *)
Inductive result (A : Type) : Type :=
| Ok (a : A)
| Err (es : list error).
Arguments Ok {A} a.
Arguments Err {A} es.

Definition fail {A : Type} (at_ : loc) (t : error_type) : result A :=
  Err [{| eloc := at_; etype := t |}].

Definition map_result {A B : Type} (f : A -> B) (r : result A) : result B :=
  match r with
  | Ok a => Ok (f a)
  | Err es => Err es
  end.

(** Two validations side by side: both values, or the errors of both. *)
Definition both {A B C : Type} (f : A -> B -> C)
           (ra : result A) (rb : result B) : result C :=
  match ra, rb with
  | Ok a, Ok b => Ok (f a b)
  | Ok _, Err es => Err es
  | Err es, Ok _ => Err es
  | Err es, Err es' => Err (es ++ es')
  end.

Definition is_ok {A : Type} (r : result A) : bool :=
  match r with Ok _ => true | Err _ => false end.

Definition errors {A : Type} (r : result A) : list error :=
  match r with Ok _ => [] | Err es => es end.

(** ** The Python runtime

    What validation takes from outside the two files: the random source
    behind [uuid.uuid4()], the parsers and printers of [uuid.UUID] and
    [datetime.datetime], the parsers pydantic applies to a string that
    stands where a number or a bool is expected, the timestamp a number
    stands for where a [datetime] is expected, and the preference of
    pydantic's smart mode among the members of a union that accept an
    input.  [uuid4_hex at_] is the identifier drawn for the object that is
    being built at location [at_] of the input.  [smart v successes] is
    the position, among the members that accept [v] (each with its label
    and the value it gives, leftmost first), of the one pydantic returns:
    it goes by how exactly the input matched and by how many fields the
    input set.  [all_of_references] tells how the installed pydantic
    writes, in a JSON schema, a reference that has sibling keys or stands
    at the top of the document: inside a single-case [allOf] (pydantic up
    to 2.8) or bare (later versions). *)
Record Runtime : Type := {
  uuid4_hex : loc -> string;
  uuid_of_str : string -> option N;
  str_of_uuid : N -> string;
  datetime_of_str : string -> option Z;
  str_of_datetime : Z -> string;
  datetime_of_timestamp : Q -> option Z;
  int_of_str : string -> option Z;
  float_of_str : string -> option Q;
  bool_of_str : string -> option bool;
  smart : value -> list (string * value) -> nat;
  all_of_references : bool
}.

(** ** Validation *)

Section Validation.

Context (py : Runtime) (MxlimsReference : model_class).

(** Name resolution in the namespace of [crystallography.py]. *)
Definition find_class (name : string) : option model_class :=
  if String.eqb name "MxlimsReference" then Some MxlimsReference
  else find (fun c => String.eqb (class_name c) name) classes.

(** [isinstance(obj, name)] for an instance whose class is [cls]. *)
Definition isinstance (cls name : string) : bool :=
  match find_class cls with
  | Some c => issubclass c name
  | None => false
  end.

(** A validator for one input value: given the annotation, the [Field] that
    constrains it and the location, the outcome. *)
Definition validator : Type := ftype -> FieldInfo -> loc -> result value.

Definition call_factory (f : factory) (at_ : loc) : value :=
  match f with
  | factory_list => VList []
  | factory_dict => VDict []
  | factory_uuid4_hex => VStr (uuid4_hex py at_)
  end.

(** One field of a model: the input's value under the field's name is
    validated; without one the default stands, unvalidated; without a
    default the field is missing. *)
Definition validate_field (entries : list (string * validator)) (at_ : loc)
           (f : field) : result value :=
  match lookup (fname f) entries with
  | Some validate_it => validate_it (annotation f) (info f) (at_ ++ [Key (fname f)])
  | None =>
      match the_default (info f) with
      | PydanticUndefined => fail (at_ ++ [Key (fname f)]) missing
      | Default v => Ok v
      | DefaultFactory g => Ok (call_factory g at_)
      end
  end.

(** All fields, in order; the errors of all of them. *)
Fixpoint validate_fields (entries : list (string * validator)) (at_ : loc)
         (fs : list field) : result (list (string * value)) :=
  match fs with
  | [] => Ok []
  | f :: rest =>
      both (fun v attrs => (fname f, v) :: attrs)
           (validate_field entries at_ f)
           (validate_fields entries at_ rest)
  end.

(** The items of a list against one annotation, from index [k] on. *)
Fixpoint validate_items (items : list validator) (t : ftype) (i : FieldInfo)
         (at_ : loc) (k : nat) : result (list value) :=
  match items with
  | [] => Ok []
  | validate_it :: rest =>
      both cons (validate_it t i (at_ ++ [Idx k]))
           (validate_items rest t i at_ (S k))
  end.

(** The values of a dict against one annotation. *)
Fixpoint validate_entries (entries : list (string * validator)) (t : ftype)
         (at_ : loc) : result (list (string * value)) :=
  match entries with
  | [] => Ok []
  | (k, validate_it) :: rest =>
      both (fun y ys => (k, y) :: ys)
           (validate_it t (Field []) (at_ ++ [Key k]))
           (validate_entries rest t at_)
  end.

Fixpoint missing_items (at_ : loc) (k : nat) (ts : list ftype) : list error :=
  match ts with
  | [] => []
  | _ :: rest =>
      {| eloc := at_ ++ [Idx k]; etype := missing |} :: missing_items at_ (S k) rest
  end.

(** The items of a tuple against the annotations of its positions.  An
    array with more items than positions is too long, and that is the one
    error reported for it; in a shorter one every position without an item
    is missing. *)
Fixpoint validate_positions (items : list validator) (ts : list ftype)
         (at_ : loc) (k : nat) : result (list value) :=
  match items, ts with
  | [], [] => Ok []
  | [], _ :: _ => Err (missing_items at_ k ts)
  | _ :: _, [] => fail at_ too_long
  | validate_it :: rest, t1 :: ts' =>
      if (length ts' <? length rest)%nat then fail at_ too_long
      else both cons (validate_it t1 (Field []) (at_ ++ [Idx k]))
                (validate_positions rest ts' at_ (S k))
  end.

(** The numeric bounds of a [Field], checked in pydantic's order
    ([le], [ge], [gt]); the first one violated is the error. *)
Definition check (bound : option Q) (holds : Q -> bool) (t : error_type)
  : option error_type :=
  match bound with
  | Some b => if holds b then None else Some t
  | None => None
  end.

Definition or_else (a b : option error_type) : option error_type :=
  match a with Some t => Some t | None => b end.

Definition bound_violation (i : FieldInfo) (x : Q) : option error_type :=
  or_else (check (bound_le i) (fun b => Qle_bool x b) less_than_equal)
 (or_else (check (bound_ge i) (fun a => Qle_bool a x) greater_than_equal)
          (check (bound_gt i) (fun c => negb (Qle_bool x c)) greater_than)).

Definition check_bounds (i : FieldInfo) (x : Q) (at_ : loc) (v : value)
  : result value :=
  match bound_violation i x with
  | Some t => fail at_ t
  | None => Ok v
  end.

(** What of a [Field] reaches the items of a list: nothing.  The source
    puts [discriminator="mxlims_type"] on fields annotated
    [List[Union[...]]]; pydantic applies a discriminator to a union that is
    the annotation itself (or stands under [Optional]), and leaves the
    union of the items of a list a plain one. *)
Definition item_info (i : FieldInfo) : FieldInfo := Field [].

(** The tag of an input under the discriminator key: an entry of a dict or
    an attribute of an instance. *)
Definition read_tag (d : string) (v : value) : option value :=
  match v with
  | VDict kvs => lookup d kvs
  | VObj _ attrs => lookup d attrs
  | _ => None
  end.

(** The tags a member of a discriminated union answers to: the literal its
    class declares for the discriminator field. *)
Definition member_tags (d : string) (m : ftype) : list string :=
  match m with
  | TRef c =>
      match find_class c with
      | Some cl =>
          match find_field d (model_fields cl) with
          | Some f =>
              match annotation f with
              | TLiteral s => [s]
              | _ => []
              end
          | None => []
          end
      | None => []
      end
  | _ => []
  end.

Definition has_tag (d : string) (m : ftype) (tag : value) : bool :=
  match tag with
  | VStr s => existsb (String.eqb s) (member_tags d m)
  | _ => false
  end.

(** The label of a union member in error locations: for a class its
    name. *)
Definition label (m : ftype) : string :=
  match m with
  | TRef c =>
      match find_enum c, find_class c with
      | None, Some cl => class_name cl
      | _, _ => c
      end
  | TStr => "str" | TInt => "int" | TFloat => "float" | TBool => "bool"
  | TLiteral s => s
  | _ => "member"
  end.

Definition tag_label (tag : value) : string :=
  match tag with VStr s => s | _ => "tag" end.

(** A discriminated union: the first member that answers to the tag. *)
Fixpoint pick (validate_as : validator) (d : string) (tag : value)
         (at_ : loc) (ms : list ftype) : result value :=
  match ms with
  | [] => fail at_ union_tag_invalid
  | m :: rest =>
      if has_tag d m tag
      then validate_as m (Field []) (at_ ++ [Key (tag_label tag)])
      else pick validate_as d tag at_ rest
  end.

(** The members of a union that accept the input, each with its label and
    the value it gives, leftmost first. *)
Definition successes (outcomes : list (string * result value))
  : list (string * value) :=
  flat_map (fun o => match snd o with
                     | Ok x => [(fst o, x)]
                     | Err _ => []
                     end) outcomes.

(** A plain union (pydantic's smart mode): the input is tried against
    every member.  When none accepts it, the errors of all of them are
    reported, each under the member's label; otherwise the result is that
    of the member the runtime prefers among those that accept it, the
    leftmost where it names none. *)
Definition try_each (choose : list (string * value) -> nat)
           (validate_as : validator) (at_ : loc) (ms : list ftype)
  : result value :=
  let outcomes :=
    map (fun m => (label m, validate_as m (Field []) (at_ ++ [Key (label m)])))
        ms in
  match successes outcomes with
  | [] => Err (flat_map (fun o => errors (snd o)) outcomes)
  | first :: others =>
      Ok (snd (nth (choose (first :: others)) (first :: others) first))
  end.

Definition integral (x : Q) : option Z :=
  if Z.eqb (Z.rem (Qnum x) (Zpos (Qden x))) 0
  then Some (Z.quot (Qnum x) (Zpos (Qden x))) else None.

Definition Z_of_bool (b : bool) : Z := if b then 1%Z else 0%Z.

(** pydantic keeps an int that comes from a float or that stands for a
    bool in 64 bits: a whole float converts when it lies strictly between
    -2^63 and 2^63. *)
Definition float_fits_int64 (n : Z) : bool :=
  ((- 2 ^ 63 <? n) && (n <? 2 ^ 63))%Z.

Definition fits_int64 (n : Z) : bool :=
  ((- 2 ^ 63 <=? n) && (n <? 2 ^ 63))%Z.

(** The double nearest to an int (ties to even), as an int. *)
Definition nearest_double (n : Z) : Z :=
  let a := Z.abs n in
  if (a <? 2 ^ 53)%Z then n
  else
    let e := (Z.log2 a - 52)%Z in
    let q := Z.shiftr a e in
    let r := (a - Z.shiftl q e)%Z in
    let half := Z.shiftl 1 (e - 1) in
    let q' := if (half <? r)%Z || ((r =? half)%Z && Z.odd q)
              then (q + 1)%Z else q in
    (Z.sgn n * Z.shiftl q' e)%Z.

(** [float(n)]: the nearest double, or [OverflowError] when the int rounds
    to no finite double. *)
Definition float_of_int (n : Z) : option Q :=
  if (Z.abs n <? 2 ^ 1024 - 2 ^ 970)%Z
  then Some (inject_Z (nearest_double n)) else None.

(** The longest numeral pydantic parses as an int. *)
Definition max_int_digits : nat := 4300.

Arguments float_fits_int64 : simpl never.
Arguments fits_int64 : simpl never.
Arguments nearest_double : simpl never.
Arguments float_of_int : simpl never.
Arguments max_int_digits : simpl never.

(** [validate v t i at_]: the value [v], found at location [at_] of the
    input, against the annotation [t] under the field constraints [i].
    Validation is lax, as pydantic's is by default: a numeral is taken
    where a number is expected, a whole float where an int is, an int where
    a float is, and so on; a member of a [str]-valued enum is a string
    where a string is expected. *)
Fixpoint validate (v : value) : validator :=
  let items : list validator :=
    match v with
    | VList vs | VTuple vs => map validate vs
    | _ => []
    end in
  let entries : list (string * validator) :=
    match v with
    | VDict kvs => map (fun kv => (fst kv, validate (snd kv))) kvs
    | _ => []
    end in
  fix at_type (t : ftype) : FieldInfo -> loc -> result value :=
    fun i at_ =>
    match t with
    | TAny => Ok v
    | TStr =>
        match v with
        | VStr _ => Ok v
        | VEnum _ s => Ok (VStr s)
        | _ => fail at_ string_type
        end
    | TInt =>
        match v with
        | VInt n => check_bounds i (inject_Z n) at_ v
        | VBool b => check_bounds i (inject_Z (Z_of_bool b)) at_ (VInt (Z_of_bool b))
        | VFloat x =>
            match integral x with
            | Some n =>
                if float_fits_int64 n
                then check_bounds i (inject_Z n) at_ (VInt n)
                else fail at_ int_parsing_size
            | None => fail at_ int_from_float
            end
        | VStr s | VEnum _ s =>
            if (max_int_digits <? String.length s)%nat
            then fail at_ int_parsing_size
            else
              match int_of_str py s with
              | Some n => check_bounds i (inject_Z n) at_ (VInt n)
              | None => fail at_ int_parsing
              end
        | _ => fail at_ int_type
        end
    | TFloat =>
        match v with
        | VFloat x => check_bounds i x at_ v
        | VInt n =>
            match float_of_int n with
            | Some x => check_bounds i x at_ (VFloat x)
            | None => fail at_ float_type
            end
        | VBool b =>
            check_bounds i (inject_Z (Z_of_bool b)) at_
                         (VFloat (inject_Z (Z_of_bool b)))
        | VStr s | VEnum _ s =>
            match float_of_str py s with
            | Some x => check_bounds i x at_ (VFloat x)
            | None => fail at_ float_parsing
            end
        | _ => fail at_ float_type
        end
    | TBool =>
        match v with
        | VBool _ => Ok v
        | VInt n =>
            if fits_int64 n
            then if (n =? 0)%Z then Ok (VBool false)
                 else if (n =? 1)%Z then Ok (VBool true)
                 else fail at_ bool_parsing
            else fail at_ bool_type
        | VFloat x =>
            match integral x with
            | Some n =>
                if float_fits_int64 n
                then if (n =? 0)%Z then Ok (VBool false)
                     else if (n =? 1)%Z then Ok (VBool true)
                     else fail at_ bool_parsing
                else fail at_ bool_type
            | None => fail at_ bool_type
            end
        | VStr s | VEnum _ s =>
            match bool_of_str py s with
            | Some b => Ok (VBool b)
            | None => fail at_ bool_parsing
            end
        | _ => fail at_ bool_type
        end
    | TUuid =>
        match v with
        | VUuid _ => Ok v
        | VStr s =>
            match uuid_of_str py s with
            | Some u => Ok (VUuid u)
            | None => fail at_ uuid_parsing
            end
        | _ => fail at_ uuid_type
        end
    | TDatetime =>
        match v with
        | VDatetime _ => Ok v
        | VStr s | VEnum _ s =>
            match datetime_of_str py s with
            | Some d => Ok (VDatetime d)
            | None => fail at_ datetime_parsing
            end
        | VInt n =>
            match datetime_of_timestamp py (inject_Z n) with
            | Some d => Ok (VDatetime d)
            | None => fail at_ datetime_parsing
            end
        | VFloat x =>
            match datetime_of_timestamp py x with
            | Some d => Ok (VDatetime d)
            | None => fail at_ datetime_parsing
            end
        | _ => fail at_ datetime_type
        end
    | TLiteral s =>
        match v with
        | VStr s' | VEnum _ s' =>
            if String.eqb s' s then Ok (VStr s) else fail at_ literal_error
        | _ => fail at_ literal_error
        end
    | TRef name =>
        match find_enum name with
        | Some e =>
            match v with
            | VStr s =>
                if existsb (String.eqb s) (map snd (members e))
                then Ok (VEnum name s) else fail at_ enum
            | VEnum n s =>
                if String.eqb n name then Ok v
                else if existsb (String.eqb s) (map snd (members e))
                     then Ok (VEnum name s) else fail at_ enum
            | _ => fail at_ enum
            end
        | None =>
            match find_class name with
            | Some c =>
                match v with
                | VDict _ =>
                    map_result (VObj (class_name c))
                               (validate_fields entries at_ (model_fields c))
                | VObj cls _ =>
                    if isinstance cls name then Ok v else fail at_ model_type
                | _ => fail at_ model_type
                end
            | None => fail at_ class_not_fully_defined
            end
        end
    | TOptional t' =>
        match v with
        | VNone => Ok VNone
        | _ => at_type t' i at_
        end
    | TList t' =>
        match v with
        | VList _ | VTuple _ =>
            map_result VList (validate_items items t' (item_info i) at_ 0%nat)
        | _ => fail at_ list_type
        end
    | TDict t' =>
        match v with
        | VDict _ => map_result VDict (validate_entries entries t' at_)
        | _ => fail at_ dict_type
        end
    | TTuple ts =>
        match v with
        | VList _ | VTuple _ =>
            map_result VTuple (validate_positions items ts at_ 0%nat)
        | _ => fail at_ tuple_type
        end
    | TUnion ms =>
        match the_discriminator i with
        | Some d =>
            match read_tag d v with
            | None => fail at_ union_tag_not_found
            | Some tag => pick at_type d tag at_ ms
            end
        | None =>
            match ms with
            | [] => fail at_ class_not_fully_defined
            | _ :: _ => try_each (smart py v) at_type at_ ms
            end
        end
    end.

(** The entries of a dict, each with the validator of its value. *)
Definition entries_of (kvs : list (string * value))
  : list (string * validator) :=
  map (fun kv => (fst kv, validate (snd kv))) kvs.

(** The outcome of one field of a model built from the keyword arguments
    [kwargs]. *)
Definition field_outcome (kwargs : list (string * value)) (f : field)
  : result value :=
  validate_field (entries_of kwargs) [] f.

(** [cls(kwargs)] with keyword arguments, and equally [cls.model_validate(kwargs)]. *)
Definition construct (cls : string) (kwargs : list (string * value))
  : result value :=
  validate (VDict kwargs) (TRef cls) (Field []) [].

End Validation.

(** ** Attribute access *)

Definition getattr (obj : value) (name : string) : option value :=
  match obj with
  | VObj _ attrs => lookup name attrs
  | _ => None
  end.

Section Assignment.

Context (MxlimsReference : model_class).

(** A name that starts with an underscore: pydantic declares no field
    under such a name. *)
Definition is_private (name : string) : bool :=
  match name with
  | String "_"%char _ => true
  | _ => false
  end.

(** The slots of [BaseModel] besides [__dict__]. *)
Definition slots : list string :=
  ["__pydantic_fields_set__"; "__pydantic_extra__"; "__pydantic_private__"].

(** The properties of [BaseModel] without a setter. *)
Definition properties_of_BaseModel : list string :=
  ["model_extra"; "model_fields_set"; "__fields_set__"].

(** [object.__setattr__(obj, name, v)] on an instance whose attribute
    dictionary is [attrs]: [__dict__] is replaced by a dict and by nothing
    else, [__class__] takes a class only (a value is none), a property
    without a setter raises, a slot is set beside the dictionary, and any
    other name is bound in the dictionary. *)
Definition object_setattr (cls : string) (attrs : list (string * value))
           (name : string) (v : value) : result unit * value :=
  if String.eqb name "__dict__" then
    match v with
    | VDict d => (Ok tt, VObj cls d)
    | _ => (fail [Key name] type_error, VObj cls attrs)
    end
  else if String.eqb name "__class__" then
    (fail [Key name] type_error, VObj cls attrs)
  else if existsb (String.eqb name) properties_of_BaseModel then
    (fail [Key name] attribute_error, VObj cls attrs)
  else if existsb (String.eqb name) slots then
    (Ok tt, VObj cls attrs)
  else (Ok tt, VObj cls (assign name v attrs)).

(** [obj.name = v], that is [BaseModel.__setattr__]: the outcome and the
    object as it is afterwards.  A name that starts with an underscore is
    handed to [object.__setattr__].  Of the other names, a frozen field
    raises and leaves the object as it was; an undeclared name raises
    ([extra] is not allowed); any other field is bound to [v] as it is
    ([validate_assignment] is off). *)
Definition setattr (obj : value) (name : string) (v : value)
  : result unit * value :=
  match obj with
  | VObj cls attrs =>
      match find_class MxlimsReference cls with
      | Some c =>
          if is_private name then object_setattr cls attrs name v
          else
            match find_field name (model_fields c) with
            | Some f =>
                if is_frozen (info f)
                then (fail [Key name] frozen_field, obj)
                else if existsb (String.eqb name) properties_of_BaseModel
                     then (fail [Key name] attribute_error, obj)
                     else (Ok tt, VObj cls (assign name v attrs))
            | None =>
                if existsb (String.eqb name) properties_of_BaseModel
                then (fail [Key name] attribute_error, obj)
                else (fail [Key name] no_such_field, obj)
            end
      | None => (fail [] class_not_fully_defined, obj)
      end
  | _ => (fail [] model_type, obj)
  end.

End Assignment.

(** ** Serialisation *)

Section Serialisation.

Context (py : Runtime) (MxlimsReference : model_class).

(** [model_dump(mode="json")]: the JSON tree of a value.  Instances become
    objects keyed by field name, tuples arrays, enum members their values,
    identifiers and timestamps their text.  (The tree is taken from the
    value; for a value that has the type of its field this is the tree
    pydantic's serialiser, which goes by the annotation, produces.) *)
Fixpoint to_json (v : value) : value :=
  match v with
  | VNone | VBool _ | VInt _ | VFloat _ | VStr _ => v
  | VList vs | VTuple vs =>
      VList ((fix items (vs : list value) : list value :=
                match vs with
                | [] => []
                | x :: rest => to_json x :: items rest
                end) vs)
  | VDict kvs | VObj _ kvs =>
      VDict ((fix items (kvs : list (string * value)) : list (string * value) :=
                match kvs with
                | [] => []
                | (k, x) :: rest => (k, to_json x) :: items rest
                end) kvs)
  | VEnum _ s => VStr s
  | VUuid u => VStr (str_of_uuid py u)
  | VDatetime t => VStr (str_of_datetime py t)
  end.

(** [obj.model_dump_json()], as the JSON document it denotes. *)
Definition model_dump_json (obj : value) : value := to_json obj.

(** [cls.model_validate_json(document)]. *)
Definition model_validate_json (cls : string) (document : value)
  : result value :=
  validate py MxlimsReference document (TRef cls) (Field []) [].

(** Serialise, then rebuild an entity of the same class. *)
Definition round_trip (obj : value) : result value :=
  match obj with
  | VObj cls _ => model_validate_json cls (model_dump_json obj)
  | _ => fail [] model_type
  end.

End Serialisation.

(** ** JSON Schema *)

Definition is_lower (c : ascii) : bool :=
  (97 <=? nat_of_ascii c)%nat && (nat_of_ascii c <=? 122)%nat.

Definition is_upper (c : ascii) : bool :=
  (65 <=? nat_of_ascii c)%nat && (nat_of_ascii c <=? 90)%nat.

Definition upper (c : ascii) : ascii :=
  if is_lower c then ascii_of_nat (nat_of_ascii c - 32) else c.

Definition lower (c : ascii) : ascii :=
  if is_upper c then ascii_of_nat (nat_of_ascii c + 32) else c.

(** [name.title().replace("_", " ")]: the title pydantic gives a field. *)
Fixpoint title_from (word_start : bool) (s : string) : string :=
  match s with
  | EmptyString => EmptyString
  | String c rest =>
      if Ascii.eqb c "_"%char then String " "%char (title_from true rest)
      else String (if word_start then upper c else lower c)
                  (title_from (negb (is_lower c || is_upper c)) rest)
  end.

Definition title_of (name : string) : string := title_from true name.

(** The docstrings of the enums, as [inspect.cleandoc] leaves them;
    [JobStatus] has none. *)
Definition enum_doc (e : enum_class) : string :=
  if String.eqb (enum_name e) "PdbxSignalType"
  then "Observability criterion. Matches mmCIF refln.pdbx_signal_status"
  else if String.eqb (enum_name e) "QualityFactorType"
  then "Name for quality factor type, used in QualityFactor class"
  else if String.eqb (enum_name e) "ReflectionBinningMode"
  then "Reflection binning mode for binning reflection statistics"
  else EmptyString.

(** The names an annotation refers to. *)
Fixpoint names_of (t : ftype) : list string :=
  match t with
  | TRef name => [name]
  | TOptional t' | TList t' | TDict t' => names_of t'
  | TTuple ts | TUnion ts => flat_map names_of ts
  | _ => []
  end.

Definition object_items (v : value) : list (string * value) :=
  match v with VDict kvs => kvs | _ => [] end.

(** [sorted(keys)] on the keys of a dict, by insertion. *)
Fixpoint insert_sorted (kv : string * value) (kvs : list (string * value))
  : list (string * value) :=
  match kvs with
  | [] => [kv]
  | x :: rest =>
      if String.leb (fst kv) (fst x) then kv :: kvs
      else x :: insert_sorted kv rest
  end.

Definition sort_keys (kvs : list (string * value)) : list (string * value) :=
  fold_right insert_sorted [] kvs.

(** The sorting pydantic gives a schema document: the keys of every object
    in alphabetical order, except under [properties] and [default], where
    the order is kept. *)
Fixpoint sort (parent_key : string) (v : value) : value :=
  match v with
  | VDict kvs =>
      let sorted :=
        (fix items (kvs : list (string * value)) : list (string * value) :=
           match kvs with
           | [] => []
           | (k, x) :: rest => (k, sort k x) :: items rest
           end) kvs in
      VDict (if String.eqb parent_key "properties"
                || String.eqb parent_key "default"
             then sorted else sort_keys sorted)
  | VList vs =>
      VList ((fix items (vs : list value) : list value :=
                match vs with
                | [] => []
                | x :: rest => sort parent_key x :: items rest
                end) vs)
  | _ => v
  end.

Section Schema.

Context (py : Runtime) (MxlimsReference : model_class).

Definition bind {A B : Type} (r : result A) (k : A -> result B) : result B :=
  match r with
  | Ok a => k a
  | Err es => Err es
  end.

Definition ref_schema (name : string) : result value :=
  match find_enum name with
  | Some _ => Ok (VDict [("$ref", VStr ("#/$defs/" ++ name))])
  | None =>
      match find_class MxlimsReference name with
      | Some c => Ok (VDict [("$ref", VStr ("#/$defs/" ++ class_name c))])
      | None => fail [Key name] class_not_fully_defined
      end
  end.

(** A bound as the schema shows it: under [int] the whole number the
    source writes. *)
Definition bound_value (whole : bool) (q : Q) : value :=
  if whole
  then match integral q with Some n => VInt n | None => VFloat q end
  else VFloat q.

Definition bounds_schema (whole : bool) (i : FieldInfo)
  : list (string * value) :=
  match bound_gt i with
  | Some c => [("exclusiveMinimum", bound_value whole c)]
  | None => []
  end
  ++ match bound_le i with
     | Some b => [("maximum", bound_value whole b)]
     | None => []
     end
  ++ match bound_ge i with
     | Some a => [("minimum", bound_value whole a)]
     | None => []
     end.

(** The [mapping] of a discriminated union: tag to reference. *)
Definition tag_mapping (d : string) (ms : list ftype) : list (string * value) :=
  flat_map (fun m => map (fun tag => (tag, VStr ("#/$defs/" ++ label MxlimsReference m)))
                         (member_tags MxlimsReference d m)) ms.

(** The schema of an annotation under the constraints of its [Field];
    a name that resolves to nothing cannot be introspected. *)
Fixpoint type_schema (t : ftype) (i : FieldInfo) : result value :=
  match t with
  | TAny => Ok (VDict [])
  | TStr => Ok (VDict [("type", VStr "string")])
  | TInt => Ok (VDict (bounds_schema true i ++ [("type", VStr "integer")]))
  | TFloat => Ok (VDict (bounds_schema false i ++ [("type", VStr "number")]))
  | TBool => Ok (VDict [("type", VStr "boolean")])
  | TUuid => Ok (VDict [("format", VStr "uuid"); ("type", VStr "string")])
  | TDatetime => Ok (VDict [("format", VStr "date-time"); ("type", VStr "string")])
  | TLiteral s =>
      Ok (VDict [("const", VStr s); ("enum", VList [VStr s]);
                 ("type", VStr "string")])
  | TRef name => ref_schema name
  | TOptional t' =>
      bind (type_schema t' i) (fun s =>
      Ok (VDict [("anyOf", VList [s; VDict [("type", VStr "null")]])]))
  | TList t' =>
      bind (type_schema t' (item_info i)) (fun s =>
      Ok (VDict [("items", s); ("type", VStr "array")]))
  | TDict t' =>
      bind (type_schema t' (Field [])) (fun s =>
      Ok (VDict (match s with
                 | VDict [] => []
                 | _ => [("additionalProperties", s)]
                 end ++ [("type", VStr "object")])))
  | TTuple ts =>
      bind ((fix items (ts : list ftype) : result (list value) :=
               match ts with
               | [] => Ok []
               | t1 :: rest =>
                   bind (type_schema t1 (Field [])) (fun s =>
                   bind (items rest) (fun ss => Ok (s :: ss)))
               end) ts) (fun ss =>
      Ok (VDict [("maxItems", VInt (Z.of_nat (length ts)));
                 ("minItems", VInt (Z.of_nat (length ts)));
                 ("prefixItems", VList ss); ("type", VStr "array")]))
  | TUnion ms =>
      bind ((fix items (ms : list ftype) : result (list value) :=
               match ms with
               | [] => Ok []
               | m :: rest =>
                   bind (type_schema m (Field [])) (fun s =>
                   bind (items rest) (fun ss => Ok (s :: ss)))
               end) ms) (fun ss =>
      match the_discriminator i with
      | Some d =>
          Ok (VDict [("discriminator",
                      VDict [("mapping", VDict (tag_mapping d ms));
                             ("propertyName", VStr d)]);
                     ("oneOf", VList ss)])
      | None => Ok (VDict [("anyOf", VList ss)])
      end)
  end.

(** A field gets a title from its name unless its annotation, under
    [Optional] or not, is a class or an enum. *)
Fixpoint title_wanted (t : ftype) : bool :=
  match t with
  | TRef _ => false
  | TOptional t' => title_wanted t'
  | _ => true
  end.

(** A reference with sibling keys, as the installed pydantic writes it. *)
Definition with_reference (kvs : list (string * value))
  : list (string * value) :=
  match lookup "$ref" kvs, kvs with
  | Some r, _ :: _ :: _ =>
      if all_of_references py
      then ("allOf", VList [VDict [("$ref", r)]])
           :: filter (fun kv => negb (String.eqb (fst kv) "$ref")) kvs
      else kvs
  | _, _ => kvs
  end.

(** The entry of a field under ["properties"]: the schema of its
    annotation, its default when it has a literal one and its description,
    over these the keys of [json_schema_extra], and a title where one is
    wanted and none is given. *)
Definition property_schema (f : field) : result value :=
  bind (type_schema (annotation f) (info f)) (fun s =>
  let described :=
    fold_left (fun acc kv => assign (fst kv) (to_json py (snd kv)) acc)
      (schema_extra (info f))
      (object_items s
       ++ match the_default (info f) with
          | Default v => [("default", to_json py v)]
          | _ => []
          end
       ++ match the_description (info f) with
          | Some text => [("description", VStr text)]
          | None => []
          end) in
  let referred := with_reference described in
  Ok (VDict
        (match lookup "title" referred with
         | Some _ => referred
         | None =>
             if title_wanted (annotation f)
             then referred ++ [("title", VStr (title_of (fname f)))]
             else referred
         end))).

Fixpoint properties (fs : list field) : result (list (string * value)) :=
  match fs with
  | [] => Ok []
  | f :: rest =>
      bind (property_schema f) (fun s =>
      bind (properties rest) (fun ss => Ok ((fname f, s) :: ss)))
  end.

Definition is_required (f : field) : bool :=
  match the_default (info f) with
  | PydanticUndefined => true
  | _ => false
  end.

Definition described_by (doc : string) : list (string * value) :=
  if String.eqb doc EmptyString then [] else [("description", VStr doc)].

(** The schema of a class in its own right: its docstring when it has
    one, its properties, the names of its required fields when it has any,
    its name and its type. *)
Definition model_schema (cls : model_class) : result value :=
  bind (properties (model_fields cls)) (fun props =>
  Ok (VDict (described_by (class_doc cls)
             ++ [("properties", VDict props)]
             ++ match filter is_required (model_fields cls) with
                | [] => []
                | required =>
                    [("required", VList (map (fun f => VStr (fname f)) required))]
                end
             ++ [("title", VStr (class_name cls)); ("type", VStr "object")]))).

Definition enum_schema (e : enum_class) : value :=
  VDict (described_by (enum_doc e)
         ++ [("enum", VList (map (fun m => VStr (snd m)) (members e)));
             ("title", VStr (enum_name e)); ("type", VStr "string")]).

(** The names the class or enum of a name refers to in its fields. *)
Definition refers_to (name : string) : list string :=
  match find_enum name with
  | Some _ => []
  | None =>
      match find_class MxlimsReference name with
      | Some c => flat_map (fun f => names_of (annotation f)) (model_fields c)
      | None => []
      end
  end.

Definition add_new (names seen : list string) : list string :=
  fold_left (fun acc n => if existsb (String.eqb n) acc then acc else acc ++ [n])
            names seen.

(** The names reached from [seen] in as many steps as there are names to
    reach. *)
Fixpoint reached (steps : nat) (seen : list string) : list string :=
  match steps with
  | O => seen
  | S k => reached k (add_new (flat_map refers_to seen) seen)
  end.

(** The names under which the schema of a class refers to classes and
    enums, directly or through them. *)
Definition referenced (cls : model_class) : list string :=
  reached (S (length classes + length enums))
          (add_new (flat_map (fun f => names_of (annotation f)) (model_fields cls))
                   []).

(** The entry of a name under ["$defs"]. *)
Definition definition (name : string) : result (string * value) :=
  match find_enum name with
  | Some e => Ok (enum_name e, enum_schema e)
  | None =>
      match find_class MxlimsReference name with
      | Some c => bind (model_schema c) (fun s => Ok (class_name c, s))
      | None => fail [Key name] class_not_fully_defined
      end
  end.

Fixpoint definitions (names : list string) : result (list (string * value)) :=
  match names with
  | [] => Ok []
  | name :: rest =>
      bind (definition name) (fun d =>
      bind (definitions rest) (fun ds => Ok (d :: ds)))
  end.

(** The top of the document of a class that its own definitions refer to:
    a reference to its definition. *)
Definition reference_to_self (cls : model_class) : list (string * value) :=
  let r := VDict [("$ref", VStr ("#/$defs/" ++ class_name cls))] in
  if all_of_references py then [("allOf", VList [r])] else object_items r.

(** [cls.model_json_schema()].  The classes and enums the fields refer to
    have their schemas under ["$defs"] and are referred to by [$ref].  A
    class that is referred to from its own definitions stands under
    ["$defs"] itself, and the top of its document is a reference to that
    entry; any other class has its schema at the top. *)
Definition model_json_schema (cls : model_class) : result value :=
  bind (model_schema cls) (fun own =>
  bind (definitions (referenced cls)) (fun defs =>
  Ok (sort EmptyString
        (VDict (match defs with
                | [] => []
                | _ :: _ => [("$defs", VDict defs)]
                end
                ++ match lookup (class_name cls) defs with
                   | Some _ => reference_to_self cls
                   | None => object_items own
                   end))))).

End Schema.

(** ** Schema export

    The loop under [if __name__ == "__main__"] of [crystallography.py].
    The file system is the state: a file opened with mode ["w"] is created
    or truncated, and [json.dump] gives it the document as content. *)

Definition files : Type := list (string * value).

Section ExportLoop.

(** [cls.model_json_schema], which may raise. *)
Variable introspect : model_class -> result value.

Fixpoint export (types : list model_class) (fs : files) : result unit * files :=
  match types with
  | [] => (Ok tt, fs)
  | cls :: rest =>
      let tag := class_name cls in
      match introspect cls with
      | Err es => (Err es, fs)
      | Ok schema => export rest (assign (tag ++ "_schema.json") schema fs)
      end
  end.

End ExportLoop.

Definition exported_types : list model_class :=
  [ LogisticalSample; CollectionSweep; ReflectionSet;
    MXExperiment; MXProcessing; MXSample ].

(** How a run of the script ends: with the exception that stopped the
    module, or with the outcome of the export loop. *)
Inductive ending : Type :=
| raised (e : exception)
| exported (r : result unit).

(** [python -m mxlims.pydantic.crystallography]: the statements of the
    module run from the top, and the export loop after them. *)
Definition main (py : Runtime) (MxlimsReference : model_class) (fs : files)
  : ending * files :=
  match exec (crystallography_py imported_from_core) [] with
  | inl e => (raised e, fs)
  | inr _ =>
      let (r, fs') :=
        export (model_json_schema py MxlimsReference) exported_types fs in
      (exported r, fs')
  end.

(** ** A runtime and a reference class for concrete runs

    A random source that always draws the same identifier, parsers that
    accept the literal forms used below, a smart mode that keeps the
    leftmost member, and [CollectionSweepRef], the
    stand-in the source defines for [CollectionSweep], in the place of
    [MxlimsReference]. *)

Definition digit (c : ascii) : option Z :=
  let n := nat_of_ascii c in
  if (48 <=? n)%nat && (n <=? 57)%nat then Some (Z.of_nat (n - 48)) else None.

(** A numeral in decimal digits, read after [acc]; with a point, the
    digits after it divide by [scale]. *)
Fixpoint digits (acc : Z) (scale : positive) (pointed : bool) (s : string)
  : option Q :=
  match s with
  | EmptyString => Some (Qmake acc scale)
  | String c rest =>
      if Ascii.eqb c "."%char
      then if pointed then None else digits acc scale true rest
      else match digit c with
           | Some d =>
               digits (10 * acc + d)
                      (if pointed then (10 * scale)%positive else scale)
                      pointed rest
           | None => None
           end
  end.

Definition decimal (s : string) : option Q :=
  match s with
  | EmptyString => None
  | String "-"%char rest =>
      match rest with
      | EmptyString => None
      | _ => option_map Qopp (digits 0 1 false rest)
      end
  | _ => digits 0 1 false s
  end.

Definition fixed_runtime : Runtime :=
  {| uuid4_hex := fun _ => "5f0c1d7e8a3b4c6d9e2f1a0b7c8d9e0f";
     uuid_of_str := fun s =>
       if String.eqb s "00000000-0000-0000-0000-000000000001"
       then Some 1%N else None;
     str_of_uuid := fun _ => "00000000-0000-0000-0000-000000000001";
     datetime_of_str := fun s =>
       if String.eqb s "1970-01-01T00:00:00" then Some 0%Z else None;
     str_of_datetime := fun _ => "1970-01-01T00:00:00";
     datetime_of_timestamp := fun x =>
       if Qeq_bool x 0 then Some 0%Z else None;
     int_of_str := fun s =>
       match decimal s with
       | Some x => integral x
       | None => None
       end;
     float_of_str := decimal;
     bool_of_str := fun s =>
       if existsb (String.eqb s) ["1"; "on"; "t"; "true"; "y"; "yes"]
       then Some true
       else if existsb (String.eqb s) ["0"; "off"; "f"; "false"; "n"; "no"]
            then Some false else None;
     smart := fun _ _ => 0%nat;
     all_of_references := true |}.

(** ** Notions the properties are stated with *)



(** The keyword arguments of the sweep scenario: [scan_axis="Omega"],
    [axis_positions_start={"Omega": 0.0}],
    [axis_positions_end={"Omega": 180.0}], [image_width=0.1]. *)
Definition sweep_arguments : list (string * value) :=
  [ ("scan_axis", VStr "Omega");
    ("axis_positions_start", VDict [("Omega", VFloat 0)]);
    ("axis_positions_end", VDict [("Omega", VFloat 180)]);
    ("image_width", VFloat 0.1) ].

(** The reference classes of [crystallography.py], each with the name of
    the class it refers to. *)
Definition reference_types : list (model_class * string) :=
  [ (CollectionSweepRef, "CollectionSweep");
    (ReflectionSetRef, "ReflectionSet");
    (MXExperimentRef, "MXExperiment");
    (MXProcessingRef, "MXProcessing");
    (MXSampleRef, "MXSample") ].

Definition is_discriminated (f : field) : bool :=
  match the_discriminator (info f) with Some _ => true | None => false end.

(** The description a field declares: the [description] key of
    [json_schema_extra], which is how [core.py] writes it, or the
    [description] argument of [Field], which is how [crystallography.py]
    does. *)
Definition declared_description (f : field) : option value :=
  match lookup "description" (schema_extra (info f)) with
  | Some text => Some text
  | None => option_map VStr (the_description (info f))
  end.

(** The schema of a class inside its document: the document itself, or,
    where the top of the document is a reference, the entry of the class
    under ["$defs"]. *)
Definition own_schema (doc : value) (c : model_class)
  : list (string * value) :=
  match lookup "properties" (object_items doc) with
  | Some _ => object_items doc
  | None =>
      match lookup "$defs" (object_items doc) with
      | Some (VDict defs) =>
          match lookup (class_name c) defs with
          | Some s => object_items s
          | None => []
          end
      | _ => []
      end
  end.

(** A schema document covers a class: the properties of the schema of the
    class are the fields of the class, in order, and each property carries
    the description its field declares. *)
Definition documents (doc : value) (c : model_class) : Prop :=
  exists props,
    lookup "properties" (own_schema doc c) = Some (VDict props)
    /\ map fst props = map fname (model_fields c)
    /\ Forall (fun f =>
                 exists p, lookup (fname f) props = Some (VDict p)
                           /\ lookup "description" p = declared_description f)
              (model_fields c).

(** ** What a declaration accepts *)

(** A number is within the bounds of a [Field]. *)
Definition within (i : FieldInfo) (x : Q) : Prop :=
  (forall b, bound_le i = Some b -> x <= b)%Q
  /\ (forall a, bound_ge i = Some a -> a <= x)%Q
  /\ (forall c, bound_gt i = Some c -> c < x)%Q.

Section Acceptance.

Context (py : Runtime) (MxlimsReference : model_class).

(** [accepts v t i]: the value [v] is one that the annotation [t], under
    the constraints of the field declaration [i], admits. *)
Inductive accepts : value -> ftype -> FieldInfo -> Prop :=
| accepts_any v i : accepts v TAny i
| accepts_str s i : accepts (VStr s) TStr i
| accepts_str_member e s i : accepts (VEnum e s) TStr i
| accepts_int n i : within i (inject_Z n) -> accepts (VInt n) TInt i
| accepts_int_bool b i :
    within i (inject_Z (Z_of_bool b)) -> accepts (VBool b) TInt i
| accepts_int_float x n i :
    integral x = Some n -> float_fits_int64 n = true ->
    within i (inject_Z n) -> accepts (VFloat x) TInt i
| accepts_int_str s n i :
    (String.length s <= max_int_digits)%nat -> int_of_str py s = Some n ->
    within i (inject_Z n) -> accepts (VStr s) TInt i
| accepts_int_member e s n i :
    (String.length s <= max_int_digits)%nat -> int_of_str py s = Some n ->
    within i (inject_Z n) -> accepts (VEnum e s) TInt i
| accepts_float x i : within i x -> accepts (VFloat x) TFloat i
| accepts_float_int n x i :
    float_of_int n = Some x -> within i x -> accepts (VInt n) TFloat i
| accepts_float_bool b i :
    within i (inject_Z (Z_of_bool b)) -> accepts (VBool b) TFloat i
| accepts_float_str s x i :
    float_of_str py s = Some x -> within i x -> accepts (VStr s) TFloat i
| accepts_float_member e s x i :
    float_of_str py s = Some x -> within i x -> accepts (VEnum e s) TFloat i
| accepts_bool b i : accepts (VBool b) TBool i
| accepts_bool_0 i : accepts (VInt 0) TBool i
| accepts_bool_1 i : accepts (VInt 1) TBool i
| accepts_bool_float x n i :
    integral x = Some n -> n = 0%Z \/ n = 1%Z -> accepts (VFloat x) TBool i
| accepts_bool_str s b i :
    bool_of_str py s = Some b -> accepts (VStr s) TBool i
| accepts_bool_member e s b i :
    bool_of_str py s = Some b -> accepts (VEnum e s) TBool i
| accepts_uuid u i : accepts (VUuid u) TUuid i
| accepts_uuid_str s u i :
    uuid_of_str py s = Some u -> accepts (VStr s) TUuid i
| accepts_datetime d i : accepts (VDatetime d) TDatetime i
| accepts_datetime_str s d i :
    datetime_of_str py s = Some d -> accepts (VStr s) TDatetime i
| accepts_datetime_member e s d i :
    datetime_of_str py s = Some d -> accepts (VEnum e s) TDatetime i
| accepts_datetime_int n d i :
    datetime_of_timestamp py (inject_Z n) = Some d ->
    accepts (VInt n) TDatetime i
| accepts_datetime_float x d i :
    datetime_of_timestamp py x = Some d -> accepts (VFloat x) TDatetime i
| accepts_literal s i : accepts (VStr s) (TLiteral s) i
| accepts_literal_member e s i : accepts (VEnum e s) (TLiteral s) i
| accepts_enum_value name e s i :
    find_enum name = Some e -> In s (map snd (members e)) ->
    accepts (VStr s) (TRef name) i
| accepts_enum_member name e s i :
    find_enum name = Some e -> accepts (VEnum name s) (TRef name) i
| accepts_enum_other_member name e n s i :
    find_enum name = Some e -> In s (map snd (members e)) ->
    accepts (VEnum n s) (TRef name) i
| accepts_model name c kvs i :
    find_enum name = None -> find_class MxlimsReference name = Some c ->
    (forall f, In f (model_fields c) ->
               forall v, lookup (fname f) kvs = Some v ->
                         accepts v (annotation f) (info f)) ->
    (forall f, In f (model_fields c) ->
               lookup (fname f) kvs = None ->
               the_default (info f) <> PydanticUndefined) ->
    accepts (VDict kvs) (TRef name) i
| accepts_instance name c cls attrs i :
    find_enum name = None -> find_class MxlimsReference name = Some c ->
    isinstance MxlimsReference cls name = true ->
    accepts (VObj cls attrs) (TRef name) i
| accepts_none t i : accepts VNone (TOptional t) i
| accepts_some v t i : v <> VNone -> accepts v t i -> accepts v (TOptional t) i
| accepts_list vs t i :
    Forall (fun v => accepts v t (item_info i)) vs -> accepts (VList vs) (TList t) i
| accepts_list_of_tuple vs t i :
    Forall (fun v => accepts v t (item_info i)) vs -> accepts (VTuple vs) (TList t) i
| accepts_dict kvs t i :
    Forall (fun kv => accepts (snd kv) t (Field [])) kvs ->
    accepts (VDict kvs) (TDict t) i
| accepts_tuple vs ts i :
    Forall2 (fun v t => accepts v t (Field [])) vs ts ->
    accepts (VTuple vs) (TTuple ts) i
| accepts_tuple_of_list vs ts i :
    Forall2 (fun v t => accepts v t (Field [])) vs ts ->
    accepts (VList vs) (TTuple ts) i
| accepts_tagged v ms i d tag pre m post :
    the_discriminator i = Some d -> read_tag d v = Some tag ->
    ms = pre ++ m :: post ->
    (forall m', In m' pre -> has_tag MxlimsReference d m' tag = false) ->
    has_tag MxlimsReference d m tag = true ->
    accepts v m (Field []) ->
    accepts v (TUnion ms) i
| accepts_union v ms i :
    the_discriminator i = None ->
    Exists (fun m => accepts v m (Field [])) ms ->
    accepts v (TUnion ms) i.

End Acceptance.

(** The validator and the relation agree on [v], wherever [v] stands. *)
Definition agrees (py : Runtime) (MxlimsReference : model_class) (v : value)
  : Prop :=
  forall t i at_,
    is_ok (validate py MxlimsReference v t i at_) = true
    <-> accepts py MxlimsReference v t i.

(** ** Further notions *)

(** The annotations of the number fields: [float] or [Optional[float]],
    [int] or [Optional[int]]. *)
Definition takes_float (t : ftype) : bool :=
  match t with
  | TFloat | TOptional TFloat => true
  | _ => false
  end.

Definition takes_int (t : ftype) : bool :=
  match t with
  | TInt | TOptional TInt => true
  | _ => false
  end.

(** The field declares a numeric bound. *)
Definition bounded (f : field) : bool :=
  match bound_ge (info f), bound_le (info f), bound_gt (info f) with
  | None, None, None => false
  | _, _, _ => true
  end.

(** Keyword arguments of a valid [ReflectionSet]: the tag, the three
    index ranges and the two reflection counts, which are its required
    fields. *)
Definition reflection_set_arguments : list (string * value) :=
  [ ("mxlims_type", VStr "ReflectionSet");
    ("h_index_range", VList [VInt (-40); VInt 40]);
    ("k_index_range", VList [VInt (-35); VInt 35]);
    ("l_index_range", VList [VInt 0; VInt 52]);
    ("num_reflections", VInt 184000);
    ("num_unique_reflections", VInt 23500) ].

(** The members of an enum that cannot be given by their Python name:
    the name is not the value of any member. *)
Definition names_not_values (e : enum_class) : list string :=
  filter (fun n => negb (existsb (String.eqb n) (map snd (members e))))
         (map fst (members e)).

(** The name of the file the export loop writes for a class. *)
Definition schema_file (cls : model_class) : string :=
  (class_name cls ++ "_schema.json")%string.

Section Written.

Variable introspect : model_class -> result value.

(** The document of a class that can be introspected. *)
Definition document_of (c : model_class) : value :=
  match introspect c with Ok doc => doc | Err _ => VNone end.

(** The directory after one document has been written for each class. *)
Definition written (types : list model_class) (fs : files) : files :=
  fold_left (fun fs c => assign (schema_file c) (document_of c) fs) types fs.

End Written.

(** *** Entities that their own JSON restores *)

(** A JSON document: a value without tuples, enum members, UUIDs,
    timestamps and instances. *)
Fixpoint is_json (v : value) : bool :=
  match v with
  | VNone | VBool _ | VInt _ | VFloat _ | VStr _ => true
  | VList vs => forallb is_json vs
  | VDict kvs => forallb (fun kv => is_json (snd kv)) kvs
  | VTuple _ | VEnum _ _ | VUuid _ | VDatetime _ | VObj _ _ => false
  end.

(** The text the runtime prints for a UUID or a timestamp it has parsed,
    or for the timestamp of a number, is text it parses to the same. *)
Definition prints_parse_back (py : Runtime) : Prop :=
  (forall s u, uuid_of_str py s = Some u ->
               uuid_of_str py (str_of_uuid py u) = Some u)
  /\ (forall s t, datetime_of_str py s = Some t ->
                  datetime_of_str py (str_of_datetime py t) = Some t)
  /\ (forall x t, datetime_of_timestamp py x = Some t ->
                  datetime_of_str py (str_of_datetime py t) = Some t).

(** The default a field declares is a value its annotation admits:
    [None] under [Optional], a bool under [bool], [list] under [List],
    [dict] under [Dict], the generated identifier under [str]. *)
Definition default_fits (f : field) : bool :=
  match the_default (info f), annotation f with
  | PydanticUndefined, _ => true
  | Default VNone, TOptional _ => true
  | Default (VBool _), TBool => true
  | DefaultFactory factory_list, TList _ => true
  | DefaultFactory factory_dict, TDict _ => true
  | DefaultFactory factory_uuid4_hex, TStr => true
  | _, _ => false
  end.

(** Every union inside the annotation stands under a discriminator and
    has classes for members. *)
Fixpoint unions_tagged (t : ftype) (i : FieldInfo) : bool :=
  match t with
  | TOptional t' => unions_tagged t' i
  | TList t' => unions_tagged t' (item_info i)
  | TDict t' => unions_tagged t' (Field [])
  | TTuple ts => forallb (fun t' => unions_tagged t' (Field [])) ts
  | TUnion ms =>
      match the_discriminator i with
      | Some _ => forallb (fun m => match m with TRef _ => true | _ => false end) ms
      | None => false
      end
  | _ => true
  end.

(** A class all of whose fields have a fitting default and tagged unions. *)
Definition restorable (c : model_class) : bool :=
  forallb (fun f => default_fits f && unions_tagged (annotation f) (info f))
          (model_fields c).

(** The value holds no instance of one of the named classes. *)
Fixpoint holds_no (names : list string) (w : value) : bool :=
  match w with
  | VObj cls attrs =>
      negb (existsb (String.eqb cls) names)
      && forallb (fun kv => holds_no names (snd kv)) attrs
  | VList ws | VTuple ws => forallb (holds_no names) ws
  | VDict kvs => forallb (fun kv => holds_no names (snd kv)) kvs
  | _ => true
  end.

(** The classes that are not restorable, by name. *)
Definition not_restorable : list string :=
  map class_name (filter (fun c => negb (restorable c)) classes).

(** Validated at an annotation, the value gives something that its own
    JSON, validated at the same annotation, gives again. *)
Definition restores (py : Runtime) (MxlimsReference : model_class) (v : value)
  : Prop :=
  forall t i at_ w,
    unions_tagged t i = true ->
    validate py MxlimsReference v t i at_ = Ok w ->
    holds_no not_restorable w = true ->
    forall at', validate py MxlimsReference (to_json py w) t i at' = Ok w.

(** The fields that keep a class from being restorable. *)
Definition unfit_fields (c : model_class) : list string :=
  map fname
      (filter (fun f => negb (default_fits f
                              && unions_tagged (annotation f) (info f)))
              (model_fields c)).

(** Keyword arguments of a [Job] in JSON: a start time, a status and one
    result with a role and the identifier of the dataset it derives
    from. *)
Definition job_arguments : list (string * value) :=
  [ ("start_time", VStr "1970-01-01T00:00:00");
    ("job_status", VStr "Ready");
    ("results",
     VList [ VDict [ ("role", VStr "Result");
                     ("derived_from_id",
                      VStr "00000000-0000-0000-0000-000000000001") ] ]) ].

(** *** Runs of assignments *)

(** The object after a run of assignments [obj.name = v], one after the
    other; an assignment that raises leaves the object as it is. *)
Definition assignments (MxlimsReference : model_class) (obj : value)
           (ops : list (string * value)) : value :=
  fold_left (fun o op => snd (setattr MxlimsReference o (fst op) (snd op)))
            ops obj.

(** The name is a field of the class that is not frozen. *)
Definition assignable (c : model_class) (name : string) : bool :=
  match find_field name (model_fields c) with
  | Some f => negb (is_frozen (info f))
  | None => false
  end.

(** *** Schemas *)

(** The names of the fields of a class that have no default. *)
Definition required_fields (c : model_class) : list string :=
  map fname (filter is_required (model_fields c)).

(** The names under ["required"] of a schema. *)
Definition required_of (schema : list (string * value)) : list string :=
  match lookup "required" schema with
  | Some (VList vs) =>
      flat_map (fun v => match v with VStr s => [s] | _ => [] end) vs
  | _ => []
  end.

(** The top of a document is a reference: it has no properties of its
    own. *)
Definition reference_at_top (doc : value) : bool :=
  match lookup "properties" (object_items doc) with
  | None => true
  | Some _ => false
  end.

(** The class is among those its schema refers to. *)
Definition refers_to_itself (MxlimsReference c : model_class) : bool :=
  existsb (String.eqb (class_name c)) (referenced MxlimsReference c).

Definition same_strings (a b : list string) : bool :=
  if list_eq_dec string_dec a b then true else false.

Definition same_text (a b : option value) : bool :=
  match a, b with
  | None, None => true
  | Some (VStr s), Some (VStr s') => String.eqb s s'
  | _, _ => false
  end.

(** [documents], as a check. *)
Definition documents_check (doc : value) (c : model_class) : bool :=
  match lookup "properties" (own_schema doc c) with
  | Some (VDict props) =>
      same_strings (map fst props) (map fname (model_fields c))
      && forallb (fun f =>
                    match lookup (fname f) props with
                    | Some (VDict p) =>
                        same_text (lookup "description" p)
                                  (declared_description f)
                    | _ => false
                    end) (model_fields c)
  | _ => false
  end.

(** What the properties below say of the schema of a class, as a check:
    the document exists and covers the class; the [required] key of the
    schema of the class is there when a field is required, and lists the
    required fields; the title is the name of the class; the top of the
    document is a reference exactly when the class refers to itself, and
    it then holds the definitions and the reference and nothing else. *)
Definition schema_check (py : Runtime) (MxlimsReference c : model_class)
  : bool :=
  match model_json_schema py MxlimsReference c with
  | Ok doc =>
      documents_check doc c
      && same_strings (required_of (own_schema doc c)) (required_fields c)
      && match lookup "required" (own_schema doc c), required_fields c with
         | None, [] => true
         | Some _, _ :: _ => true
         | _, _ => false
         end
      && same_text (lookup "title" (own_schema doc c))
                   (Some (VStr (class_name c)))
      && Bool.eqb (reference_at_top doc) (refers_to_itself MxlimsReference c)
      && (negb (reference_at_top doc)
          || same_strings (map fst (object_items doc))
                          ["$defs"; if all_of_references py then "allOf"
                                    else "$ref"])
  | Err _ => false
  end.

(** The field declares no description. *)
Definition undescribed (f : field) : bool :=
  match declared_description f with
  | Some _ => false
  | None => true
  end.

(** *** Return links *)

(** The pairs of fields that the descriptions of [core.py] call return
    links of one another: the class and its list field, the class of the
    members and the field of a member that points back. *)
Definition return_links : list (string * string * string * string) :=
  [ ("Job", "results", "Dataset", "source");
    ("LogisticalSample", "datasets", "Dataset", "logistical_sample");
    ("PreparedSample", "jobs", "Job", "sample");
    ("LogisticalSample", "jobs", "Job", "logistical_sample");
    ("LogisticalSample", "contents", "LogisticalSample", "container");
    ("PreparedSample", "logistical_samples", "LogisticalSample", "sample") ].

(** * Properties *)

(** ** Induction on values and annotations *)

Lemma value_ind' (P : value -> Prop)
  (HNone : P VNone) (HBool : forall b, P (VBool b))
  (HInt : forall n, P (VInt n)) (HFloat : forall x, P (VFloat x))
  (HStr : forall s, P (VStr s))
  (HList : forall vs, Forall P vs -> P (VList vs))
  (HTuple : forall vs, Forall P vs -> P (VTuple vs))
  (HDict : forall kvs, Forall (fun kv => P (snd kv)) kvs -> P (VDict kvs))
  (HEnum : forall e s, P (VEnum e s))
  (HUuid : forall u, P (VUuid u)) (HDatetime : forall t, P (VDatetime t))
  (HObj : forall c kvs, Forall (fun kv => P (snd kv)) kvs -> P (VObj c kvs))
  : forall v, P v.
Proof.
  fix IH 1. intros [ | b | n | x | s | vs | vs | kvs | e s | u | t | c kvs ].
  - exact HNone.
  - apply HBool.
  - apply HInt.
  - apply HFloat.
  - apply HStr.
  - apply HList. induction vs as [ | v vs IHvs ]; constructor; [ apply IH | exact IHvs ].
  - apply HTuple. induction vs as [ | v vs IHvs ]; constructor; [ apply IH | exact IHvs ].
  - apply HDict. induction kvs as [ | [k v] kvs IHkvs ]; constructor; [ apply IH | exact IHkvs ].
  - apply HEnum.
  - apply HUuid.
  - apply HDatetime.
  - apply HObj. induction kvs as [ | [k v] kvs IHkvs ]; constructor; [ apply IH | exact IHkvs ].
Qed.

Lemma ftype_ind' (P : ftype -> Prop)
  (HAny : P TAny) (HStr : P TStr) (HInt : P TInt) (HFloat : P TFloat)
  (HBool : P TBool) (HUuid : P TUuid) (HDatetime : P TDatetime)
  (HLiteral : forall s, P (TLiteral s)) (HRef : forall n, P (TRef n))
  (HOptional : forall t, P t -> P (TOptional t))
  (HList : forall t, P t -> P (TList t))
  (HDict : forall t, P t -> P (TDict t))
  (HTuple : forall ts, Forall P ts -> P (TTuple ts))
  (HUnion : forall ts, Forall P ts -> P (TUnion ts))
  : forall t, P t.
Proof.
  fix IH 1. intros [ | | | | | | | s | n | t | t | t | ts | ts ].
  - exact HAny.
  - exact HStr.
  - exact HInt.
  - exact HFloat.
  - exact HBool.
  - exact HUuid.
  - exact HDatetime.
  - apply HLiteral.
  - apply HRef.
  - apply HOptional, IH.
  - apply HList, IH.
  - apply HDict, IH.
  - apply HTuple. induction ts as [ | t ts IHts ]; constructor; [ apply IH | exact IHts ].
  - apply HUnion. induction ts as [ | t ts IHts ]; constructor; [ apply IH | exact IHts ].
Qed.

(** ** Outcomes *)

Lemma both_ok {A B C : Type} (f : A -> B -> C) (ra : result A) (rb : result B) :
  is_ok (both f ra rb) = is_ok ra && is_ok rb.
Proof. destruct ra, rb; reflexivity. Qed.

Lemma both_errors {A B C : Type} (f : A -> B -> C) (ra : result A) (rb : result B) :
  errors (both f ra rb) = errors ra ++ errors rb.
Proof. destruct ra, rb; simpl; auto using app_nil_r. Qed.

Lemma map_result_ok {A B : Type} (f : A -> B) (r : result A) :
  is_ok (map_result f r) = is_ok r.
Proof. destruct r; reflexivity. Qed.

Lemma map_result_errors {A B : Type} (f : A -> B) (r : result A) :
  errors (map_result f r) = errors r.
Proof. destruct r; reflexivity. Qed.



Lemma is_ok_true {A : Type} (r : result A) :
  is_ok r = true <-> exists a, r = Ok a.
Proof.
  destruct r; simpl; split; intros H; eauto; try discriminate.
  destruct H; discriminate.
Qed.


(** ** What running the modules binds *)

(** [core.py] runs to its end and binds its five model classes and
    [JobStatus].  [crystallography.py] stops at its import from
    [mxlims.pydantic.core], which asks for [MxlimsObjectRef]; were that
    name not asked for, it would stop at the class statement of
    [MXExperiment], whose annotations evaluate [MxlimsReference]. *)
Lemma crystallography_does_not_load :
  exec core_py [] = inr core_globals
  /\ exec (crystallography_py imported_from_core) []
     = inl (ImportError "MxlimsObjectRef")
  /\ exec (crystallography_py ["Job"; "Dataset"; "PreparedSample"; "LogisticalSample"]) []
     = inl (NameError "MxlimsReference").
Proof. repeat split. Qed.

(** ** Where errors are reported *)







Section Located.

Context (py : Runtime) (MxlimsReference : model_class).





Lemma lookup_Forall {A : Type} (P : A -> Prop) k (kvs : list (string * A)) a :
  Forall (fun kv => P (snd kv)) kvs -> lookup k kvs = Some a -> P a.
Proof.
  induction 1 as [ | [k' a'] rest Hhd _ IH ]; simpl; [ discriminate | ].
  destruct (String.eqb k k'); [ | exact IH ].
  intros H. injection H as <-. exact Hhd.
Qed.




(** A member is among those that accept the input exactly when its
    outcome is a value. *)
Lemma in_successes (outcomes : list (string * result value)) l x :
  In (l, x) (successes outcomes) <-> In (l, Ok x) outcomes.
Proof.
  unfold successes. rewrite in_flat_map. split.
  - intros [ [l' [y | es] ] [Hin Hx] ]; simpl in Hx; [ | contradiction ].
    destruct Hx as [Hx | [] ]. injection Hx as -> ->. exact Hin.
  - intros Hin. exists (l, Ok x). split; [ exact Hin | now left ].
Qed.

Lemma successes_none (outcomes : list (string * result value)) :
  successes outcomes = [] ->
  Forall (fun o => is_ok (snd o) = false) outcomes.
Proof.
  induction outcomes as [ | [l [x | es] ] rest IH ]; simpl; intros H.
  - constructor.
  - discriminate H.
  - constructor; [ reflexivity | exact (IH H) ].
Qed.

(** A plain union that fails reports the errors of all its members, and
    every member has failed. *)
Lemma try_each_err (choose : list (string * value) -> nat)
      (validate_as : validator) at_ ms es :
  try_each MxlimsReference choose validate_as at_ ms = Err es ->
  Forall (fun m => is_ok (validate_as m (Field []) (at_ ++ [Key (label MxlimsReference m)]))
                   = false) ms
  /\ es = flat_map (fun m => errors (validate_as m (Field [])
                                                 (at_ ++ [Key (label MxlimsReference m)]))) ms.
Proof.
  unfold try_each.
  destruct (successes _) as [ | first others ] eqn:Hs; [ | discriminate ].
  intros H. injection H as <-. split.
  - apply successes_none in Hs. rewrite Forall_map in Hs. exact Hs.
  - rewrite flat_map_concat_map, map_map, <- flat_map_concat_map. reflexivity.
Qed.

(** A plain union that succeeds gives the value of one of its members. *)
Lemma try_each_ok (choose : list (string * value) -> nat)
      (validate_as : validator) at_ ms x :
  try_each MxlimsReference choose validate_as at_ ms = Ok x ->
  exists m, In m ms
            /\ validate_as m (Field []) (at_ ++ [Key (label MxlimsReference m)]) = Ok x.
Proof.
  unfold try_each.
  destruct (successes _) as [ | first others ] eqn:Hs; [ discriminate | ].
  intros H.
  remember (nth (choose (first :: others)) (first :: others) first) as chosen
    eqn:Hchosen.
  injection H as <-.
  assert (Hin : In chosen (successes
                  (map (fun m => (label MxlimsReference m,
                                  validate_as m (Field []) (at_ ++ [Key (label MxlimsReference m)])))
                       ms))).
  { rewrite Hs, Hchosen.
    destruct (Nat.lt_ge_cases (choose (first :: others)) (length (first :: others)))
      as [Hlt | Hge].
    - now apply nth_In.
    - rewrite nth_overflow by exact Hge. now left. }
  clear Hchosen. destruct chosen as [l x]. apply in_successes in Hin.
  apply in_map_iff in Hin. destruct Hin as [m [Hm Hin] ].
  injection Hm as Hl Hm. exists m. split; [ exact Hin | exact Hm ].
Qed.

(** A plain union accepts what one of its members accepts. *)
Lemma try_each_is_ok (choose : list (string * value) -> nat)
      (validate_as : validator) at_ ms :
  is_ok (try_each MxlimsReference choose validate_as at_ ms)
  = existsb (fun m => is_ok (validate_as m (Field []) (at_ ++ [Key (label MxlimsReference m)])))
            ms.
Proof.
  destruct (try_each MxlimsReference choose validate_as at_ ms) as [x | es] eqn:H; simpl.
  - symmetry. apply existsb_exists.
    destruct (try_each_ok _ _ _ _ _ H) as [m [Hin Hm] ].
    exists m. split; [ exact Hin | now rewrite Hm ].
  - symmetry. apply not_true_is_false. intros Hex.
    apply existsb_exists in Hex. destruct Hex as [m [Hin Hm] ].
    destruct (try_each_err _ _ _ _ _ H) as [Hall _].
    rewrite Forall_forall in Hall. rewrite (Hall m Hin) in Hm. discriminate.
Qed.


Lemma validate_optional v t i at_ :
  validate py MxlimsReference v (TOptional t) i at_ =
  match v with
  | VNone => Ok VNone
  | _ => validate py MxlimsReference v t i at_
  end.
Proof. destruct v; reflexivity. Qed.

Lemma validate_union v ms i at_ :
  validate py MxlimsReference v (TUnion ms) i at_ =
  match the_discriminator i with
  | Some d =>
      match read_tag d v with
      | None => fail at_ union_tag_not_found
      | Some tag =>
          pick MxlimsReference (validate py MxlimsReference v) d tag at_ ms
      end
  | None =>
      match ms with
      | [] => fail at_ class_not_fully_defined
      | _ :: _ =>
          try_each MxlimsReference (smart py v) (validate py MxlimsReference v) at_ ms
      end
  end.
Proof. destruct v; reflexivity. Qed.





End Located.

(** ** Construction, field by field *)

Section Construction.

Context (py : Runtime) (MxlimsReference : model_class).

Lemma validate_fields_ok entries at_ fs :
  is_ok (validate_fields py entries at_ fs)
  = forallb (fun f => is_ok (validate_field py entries at_ f)) fs.
Proof.
  induction fs as [ | f fs IH ]; simpl; [ reflexivity | ].
  now rewrite both_ok, IH.
Qed.

Lemma validate_fields_errors entries at_ fs :
  errors (validate_fields py entries at_ fs)
  = flat_map (fun f => errors (validate_field py entries at_ f)) fs.
Proof.
  induction fs as [ | f fs IH ]; simpl; [ reflexivity | ].
  now rewrite both_errors, IH.
Qed.

(** The attributes of the instance are the outcomes of the fields. *)
Lemma validate_fields_attrs entries at_ fs attrs name f :
  validate_fields py entries at_ fs = Ok attrs ->
  find_field name fs = Some f ->
  exists v, validate_field py entries at_ f = Ok v /\ lookup name attrs = Some v.
Proof.
  revert attrs. induction fs as [ | g fs IH ]; intros attrs; simpl; [ discriminate | ].
  destruct (validate_field py entries at_ g) as [v | ] eqn:Hg;
    destruct (validate_fields py entries at_ fs) as [rest | ]; simpl;
    try discriminate.
  intros H. injection H as <-. simpl.
  destruct (String.eqb name (fname g)).
  - intros Hf. injection Hf as <-. eauto.
  - intros Hf. destruct (IH rest eq_refl Hf) as [w [Hw Hl] ]. eauto.
Qed.

(** A model built from a dict: the fields of the class over the entries. *)
Lemma validate_model kwargs name c i at_ :
  find_enum name = None ->
  find_class MxlimsReference name = Some c ->
  validate py MxlimsReference (VDict kwargs) (TRef name) i at_
  = map_result (VObj (class_name c))
               (validate_fields py (entries_of py MxlimsReference kwargs) at_
                                (model_fields c)).
Proof. intros He Hc. simpl. rewrite He, Hc. reflexivity. Qed.

Lemma lookup_entries_of name kwargs :
  lookup name (entries_of py MxlimsReference kwargs)
  = option_map (validate py MxlimsReference) (lookup name kwargs).
Proof.
  induction kwargs as [ | [k v] rest IH ]; simpl; [ reflexivity | ].
  destruct (String.eqb name k); [ reflexivity | exact IH ].
Qed.


Lemma construct_fields cls c kwargs :
  find_enum cls = None ->
  find_class MxlimsReference cls = Some c ->
  construct py MxlimsReference cls kwargs
  = map_result (VObj (class_name c))
               (validate_fields py (entries_of py MxlimsReference kwargs) []
                                (model_fields c)).
Proof. apply validate_model. Qed.

Lemma construct_ok cls c kwargs :
  find_enum cls = None ->
  find_class MxlimsReference cls = Some c ->
  is_ok (construct py MxlimsReference cls kwargs)
  = forallb (fun f => is_ok (field_outcome py MxlimsReference kwargs f))
            (model_fields c).
Proof.
  intros He Hc. rewrite (construct_fields _ _ _ He Hc), map_result_ok.
  apply validate_fields_ok.
Qed.

Lemma construct_errors cls c kwargs :
  find_enum cls = None ->
  find_class MxlimsReference cls = Some c ->
  errors (construct py MxlimsReference cls kwargs)
  = flat_map (fun f => errors (field_outcome py MxlimsReference kwargs f))
             (model_fields c).
Proof.
  intros He Hc. rewrite (construct_fields _ _ _ He Hc), map_result_errors.
  apply validate_fields_errors.
Qed.

(** What the outcome of a field is, by cases on the keyword arguments. *)
Lemma field_outcome_supplied kwargs f v :
  lookup (fname f) kwargs = Some v ->
  field_outcome py MxlimsReference kwargs f
  = validate py MxlimsReference v (annotation f) (info f) [Key (fname f)].
Proof.
  intros Hl. unfold field_outcome, validate_field.
  now rewrite lookup_entries_of, Hl.
Qed.

Lemma field_outcome_omitted kwargs f :
  lookup (fname f) kwargs = None ->
  field_outcome py MxlimsReference kwargs f
  = match the_default (info f) with
    | PydanticUndefined => fail [Key (fname f)] missing
    | Default v => Ok v
    | DefaultFactory g => Ok (call_factory py g [])
    end.
Proof.
  intros Hl. unfold field_outcome, validate_field.
  now rewrite lookup_entries_of, Hl.
Qed.


End Construction.

(** ** Numeric bounds *)

Lemma check_none (bound : option Q) (holds : Q -> bool) (t : error_type) :
  check bound holds t = None <-> (forall b, bound = Some b -> holds b = true).
Proof.
  unfold check. destruct bound as [b | ].
  - destruct (holds b) eqn:Hb; split.
    + intros _ b' E. injection E as <-. exact Hb.
    + reflexivity.
    + discriminate.
    + intros H. specialize (H b eq_refl). congruence.
  - split; [ discriminate | reflexivity ].
Qed.

Lemma or_else_none (a b : option error_type) :
  or_else a b = None <-> a = None /\ b = None.
Proof.
  destruct a; simpl; intuition discriminate.
Qed.

(** Numeric bounds, as order on the rationals. *)
Lemma check_bounds_ok (i : FieldInfo) (x : Q) (at_ : loc) (v : value) :
  is_ok (check_bounds i x at_ v) = true
  <-> (forall b, bound_le i = Some b -> x <= b)%Q
      /\ (forall a, bound_ge i = Some a -> a <= x)%Q
      /\ (forall c, bound_gt i = Some c -> c < x)%Q.
Proof.
  assert (Hgt : forall c, negb (Qle_bool x c) = true <-> (c < x)%Q).
  { intros c. rewrite negb_true_iff. split.
    - intros H. apply Qnot_le_lt. rewrite <- Qle_bool_iff. congruence.
    - intros H. destruct (Qle_bool x c) eqn:E; [ | reflexivity ].
      apply Qle_bool_iff in E. exfalso. exact (Qlt_not_le _ _ H E). }
  transitivity (bound_violation i x = None).
  - unfold check_bounds. destruct (bound_violation i x); simpl;
      split; congruence.
  - unfold bound_violation. rewrite !or_else_none, !check_none.
    repeat apply and_iff_compat_l || apply and_iff_compat_r.
    split; intros [H1 [H2 H3] ]; repeat split; intros q E.
    + apply Qle_bool_iff, H1, E.
    + apply Qle_bool_iff, H2, E.
    + apply Hgt, H3, E.
    + apply Qle_bool_iff, H1, E.
    + apply Qle_bool_iff, H2, E.
    + apply Hgt, H3, E.
Qed.

(** ** Field names are distinct *)

Lemma override_names (f : field) (fs : list field) (n : string) :
  In n (map fname (override f fs)) <-> n = fname f \/ In n (map fname fs).
Proof.
  induction fs as [ | g fs IH ]; simpl.
  - intuition.
  - destruct (String.eqb_spec (fname f) (fname g)) as [Heq | Hne]; simpl.
    + rewrite Heq. intuition.
    + rewrite IH. intuition.
Qed.

Lemma override_NoDup (f : field) (fs : list field) :
  NoDup (map fname fs) -> NoDup (map fname (override f fs)).
Proof.
  induction fs as [ | g fs IH ]; simpl; intros Hnd.
  - constructor; [ intros [] | constructor ].
  - inversion Hnd as [ | ? ? Hnotin Hrest ]; subst.
    destruct (String.eqb_spec (fname f) (fname g)) as [Heq | Hne]; simpl.
    + rewrite Heq. constructor; assumption.
    + constructor; [ | auto ].
      rewrite override_names. intros [Heq | Hin]; [ congruence | contradiction ].
Qed.

Lemma overrides_NoDup (body fs : list field) :
  NoDup (map fname fs) ->
  NoDup (map fname (fold_left (fun acc f => override f acc) body fs)).
Proof.
  revert fs. induction body as [ | f body IH ]; simpl; intros fs Hnd.
  - exact Hnd.
  - apply IH, override_NoDup, Hnd.
Qed.

(** In [cls.model_fields] no name occurs twice. *)
Lemma model_fields_NoDup (c : model_class) :
  NoDup (map fname (model_fields c)).
Proof.
  revert c. fix IH 1. intros [name [b | ] doc body]; simpl.
  - apply overrides_NoDup, IH.
  - apply overrides_NoDup. constructor.
Qed.

Lemma field_by_name (c : model_class) (f g : field) :
  In f (model_fields c) -> In g (model_fields c) ->
  fname g = fname f -> g = f.
Proof.
  generalize (model_fields_NoDup c). generalize (model_fields c).
  intros fs. induction fs as [ | h fs IH ]; simpl; [ contradiction | ].
  intros Hnd. inversion Hnd as [ | ? ? Hnotin Hrest ]; subst.
  intros [-> | Hf] [-> | Hg] Heq; auto.
  - exfalso. apply Hnotin. rewrite <- Heq. now apply in_map.
  - exfalso. apply Hnotin. rewrite Heq. now apply in_map.
Qed.

Lemma find_field_In (name : string) (fs : list field) (f : field) :
  find_field name fs = Some f -> In f fs /\ fname f = name.
Proof.
  induction fs as [ | g fs IH ]; simpl; [ discriminate | ].
  destruct (String.eqb_spec name (fname g)) as [Heq | Hne].
  - intros H. injection H as <-. auto.
  - intros H. destruct (IH H). auto.
Qed.

Lemma In_find_field (c : model_class) (f : field) :
  In f (model_fields c) -> find_field (fname f) (model_fields c) = Some f.
Proof.
  intros Hin.
  destruct (find_field (fname f) (model_fields c)) as [g | ] eqn:Hg.
  - apply find_field_In in Hg. destruct Hg as [Hgin Hgn].
    f_equal. now apply (field_by_name c).
  - exfalso. revert Hin Hg. generalize (model_fields c). intros fs.
    induction fs as [ | h fs IH ]; simpl; [ contradiction | ].
    destruct (String.eqb_spec (fname f) (fname h)) as [Heq | Hne]; [ discriminate | ].
    intros [-> | Hin]; [ congruence | auto ].
Qed.

(** ** One more keyword argument *)

Section OneMoreArgument.

Context (py : Runtime) (MxlimsReference : model_class).

Lemma field_outcome_other kwargs name v g :
  fname g <> name ->
  field_outcome py MxlimsReference ((name, v) :: kwargs) g
  = field_outcome py MxlimsReference kwargs g.
Proof.
  intros Hne. unfold field_outcome, validate_field. simpl.
  destruct (String.eqb_spec (fname g) name); [ contradiction | reflexivity ].
Qed.

Lemma field_outcome_this kwargs f v :
  field_outcome py MxlimsReference ((fname f, v) :: kwargs) f
  = validate py MxlimsReference v (annotation f) (info f) [Key (fname f)].
Proof.
  apply field_outcome_supplied. simpl. now rewrite String.eqb_refl.
Qed.

Lemma forallb_single {A : Type} (p : A -> bool) (a : A) (l : list A) :
  In a l -> (forall b, In b l -> b <> a -> p b = true) ->
  forallb p l = p a.
Proof.
  intros Hin Hothers. destruct (p a) eqn:Hpa.
  - apply forallb_forall. intros b Hb.
    destruct (p b) eqn:Hpb; [ reflexivity | ].
    rewrite <- Hpb. apply Hothers; [ exact Hb | congruence ].
  - destruct (forallb p l) eqn:Hall; [ | reflexivity ].
    rewrite forallb_forall in Hall. rewrite <- Hpa. symmetry. now apply Hall.
Qed.

Lemma flat_map_nil {A B : Type} (h : A -> list B) (l : list A) :
  (forall b, In b l -> h b = []) -> flat_map h l = [].
Proof.
  induction l as [ | b l IH ]; simpl; intros Hall; [ reflexivity | ].
  rewrite (Hall b), IH; auto.
Qed.

Lemma flat_map_single {A B : Type} (h : A -> list B) (key : A -> string)
      (a : A) (l : list A) :
  NoDup (map key l) -> In a l ->
  (forall b, In b l -> key b <> key a -> h b = []) ->
  flat_map h l = h a.
Proof.
  induction l as [ | b l IH ]; simpl; [ contradiction | ].
  intros Hnd Hin Hothers. inversion Hnd as [ | ? ? Hnotin Hrest ]; subst.
  destruct Hin as [-> | Hin].
  - rewrite flat_map_nil; [ apply app_nil_r | ].
    intros b Hb. apply Hothers; [ now right | ].
    intros Heq. apply Hnotin. rewrite <- Heq. now apply in_map.
  - rewrite (Hothers b); [ | now left | ].
    + simpl. apply IH; auto.
    + intros Heq. apply Hnotin. rewrite Heq. now apply in_map.
Qed.

Lemma ok_no_errors {A : Type} (r : result A) :
  is_ok r = true -> errors r = [].
Proof. destruct r; simpl; [ reflexivity | discriminate ]. Qed.

(** Adding an argument for the field [f] to arguments that are accepted:
    the outcome, and the errors, are those of the new argument against the
    declaration of [f]. *)
Lemma construct_with_argument cls c kwargs f v :
  find_enum cls = None ->
  find_class MxlimsReference cls = Some c ->
  In f (model_fields c) ->
  is_ok (construct py MxlimsReference cls kwargs) = true ->
  is_ok (construct py MxlimsReference cls ((fname f, v) :: kwargs))
  = is_ok (validate py MxlimsReference v (annotation f) (info f) [Key (fname f)])
  /\ errors (construct py MxlimsReference cls ((fname f, v) :: kwargs))
     = errors (validate py MxlimsReference v (annotation f) (info f) [Key (fname f)]).
Proof.
  intros He Hc Hin Hbase.
  rewrite (construct_ok py _ _ _ _ He Hc) in Hbase.
  rewrite forallb_forall in Hbase.
  assert (Hothers : forall g, In g (model_fields c) -> fname g <> fname f ->
            is_ok (field_outcome py MxlimsReference ((fname f, v) :: kwargs) g) = true).
  { intros g Hg Hne. rewrite field_outcome_other by exact Hne. now apply Hbase. }
  rewrite (construct_ok py _ _ _ _ He Hc), (construct_errors py _ _ _ _ He Hc).
  rewrite <- field_outcome_this with (kwargs := kwargs). split.
  - apply (forallb_single
             (fun g => is_ok (field_outcome py MxlimsReference ((fname f, v) :: kwargs) g)) f);
      [ exact Hin | ].
    intros g Hg Hne. apply Hothers; [ exact Hg | ].
    intros Heq. apply Hne. now apply (field_by_name c).
  - apply (flat_map_single
             (fun g => errors (field_outcome py MxlimsReference ((fname f, v) :: kwargs) g))
             fname f);
      [ apply model_fields_NoDup | exact Hin | ].
    intros g Hg Hne. now apply ok_no_errors, Hothers.
Qed.

End OneMoreArgument.

(** ** The classes of the two modules resolve to themselves *)

Lemma classes_resolve (MxlimsReference : model_class) :
  Forall (fun c => find_enum (class_name c) = None
                   /\ find_class MxlimsReference (class_name c) = Some c)
         classes.
Proof. repeat constructor. Qed.

Lemma class_resolves (MxlimsReference c : model_class) :
  In c classes ->
  find_enum (class_name c) = None
  /\ find_class MxlimsReference (class_name c) = Some c.
Proof.
  intros Hc. pose proof (classes_resolve MxlimsReference) as Hall.
  rewrite Forall_forall in Hall. now apply Hall.
Qed.

(** The fields of the two modules have names that assignment treats as
    field names: none starts with an underscore and none is a property of
    [BaseModel]. *)
Lemma fields_are_plain_names (c : model_class) (f : field) :
  In c classes -> In f (model_fields c) ->
  is_private (fname f) = false
  /\ existsb (String.eqb (fname f)) properties_of_BaseModel = false.
Proof.
  intros Hc Hf.
  assert (Hall : forallb (fun c =>
                   forallb (fun f =>
                      negb (is_private (fname f))
                      && negb (existsb (String.eqb (fname f))
                                       properties_of_BaseModel))
                           (model_fields c)) classes = true)
    by (vm_compute; reflexivity).
  rewrite forallb_forall in Hall. specialize (Hall c Hc).
  rewrite forallb_forall in Hall. specialize (Hall f Hf).
  apply andb_true_iff in Hall. destruct Hall as [H1 H2].
  split; now apply negb_true_iff.
Qed.

(** An instance has one attribute per field, in field order. *)
Lemma validate_fields_names (py : Runtime) entries at_ fs attrs :
  validate_fields py entries at_ fs = Ok attrs ->
  map fst attrs = map fname fs.
Proof.
  revert attrs. induction fs as [ | f fs IH ]; intros attrs; simpl.
  - intros H. injection H as <-. reflexivity.
  - destruct (validate_field py entries at_ f);
      destruct (validate_fields py entries at_ fs) as [rest | ]; simpl;
      try discriminate.
    intros H. injection H as <-. simpl. now rewrite (IH rest eq_refl).
Qed.

(** ** The validator accepts what the declarations admit *)

Section AcceptanceFacts.

Context (py : Runtime) (MxlimsReference : model_class).

Local Notation "v ~~ t 'under' i" :=
  (accepts py MxlimsReference v t i) (at level 70, t at next level).


Lemma check_bounds_within i x at_ v :
  is_ok (check_bounds i x at_ v) = true <-> within i x.
Proof. apply check_bounds_ok. Qed.

Lemma items_accept vs t i at_ k :
  Forall (agrees py MxlimsReference) vs ->
  is_ok (validate_items (map (validate py MxlimsReference) vs) t i at_ k) = true
  <-> Forall (fun v => v ~~ t under i) vs.
Proof.
  intros Hall. revert k. induction Hall as [ | v vs Hv _ IH ]; intros k; simpl.
  - split; [ constructor | reflexivity ].
  - rewrite both_ok, andb_true_iff, IH, (Hv t i). split.
    + intros [H1 H2]. now constructor.
    + intros H. inversion H; subst. now split.
Qed.

Lemma entries_accept kvs t at_ :
  Forall (fun kv => agrees py MxlimsReference (snd kv)) kvs ->
  is_ok (validate_entries (entries_of py MxlimsReference kvs) t at_) = true
  <-> Forall (fun kv => snd kv ~~ t under Field []) kvs.
Proof.
  intros Hall. induction Hall as [ | [k v] kvs Hv _ IH ]; simpl.
  - split; [ constructor | reflexivity ].
  - rewrite both_ok, andb_true_iff, IH, (Hv t (Field [])). split.
    + intros [H1 H2]. now constructor.
    + intros H. inversion H; subst. now split.
Qed.

Lemma positions_accept vs ts at_ k :
  Forall (agrees py MxlimsReference) vs ->
  is_ok (validate_positions (map (validate py MxlimsReference) vs) ts at_ k) = true
  <-> Forall2 (fun v t => v ~~ t under Field []) vs ts.
Proof.
  intros Hall. revert ts k.
  induction Hall as [ | v vs Hv _ IH ]; intros [ | t ts ] k; simpl.
  - split; [ constructor | reflexivity ].
  - split; [ discriminate | intros H; inversion H ].
  - split; [ discriminate | intros H; inversion H ].
  - destruct (Nat.ltb_spec (length ts) (length (map (validate py MxlimsReference) vs)))
      as [Hlong | Hfits].
    + split; [ discriminate | ]. intros H. inversion H; subst.
      match goal with F : Forall2 _ vs ts |- _ => apply Forall2_length in F end.
      rewrite length_map in Hlong. lia.
    + rewrite both_ok, andb_true_iff, IH, (Hv t (Field [])). split.
      * intros [H1 H2]. now constructor.
      * intros H. inversion H; subst. now split.
Qed.

Lemma field_accepts kvs at_ f :
  Forall (fun kv => agrees py MxlimsReference (snd kv)) kvs ->
  is_ok (validate_field py (entries_of py MxlimsReference kvs) at_ f) = true
  <-> (forall v, lookup (fname f) kvs = Some v -> v ~~ annotation f under info f)
      /\ (lookup (fname f) kvs = None -> the_default (info f) <> PydanticUndefined).
Proof.
  intros Hall. unfold validate_field. rewrite lookup_entries_of.
  destruct (lookup (fname f) kvs) as [v | ] eqn:Hl; simpl.
  - pose proof (lookup_Forall (agrees py MxlimsReference) _ _ _ Hall Hl) as Hv.
    rewrite (Hv (annotation f) (info f)). split.
    + intros H. split; [ | discriminate ]. intros w E. now injection E as <-.
    + intros [H _]. now apply H.
  - destruct (the_default (info f)); simpl; split.
    + discriminate.
    + intros [_ H]. now contradiction H.
    + intros _. split; [ discriminate | intros _; discriminate ].
    + reflexivity.
    + intros _. split; [ discriminate | intros _; discriminate ].
    + reflexivity.
Qed.

Lemma fields_accept kvs at_ fs :
  Forall (fun kv => agrees py MxlimsReference (snd kv)) kvs ->
  is_ok (validate_fields py (entries_of py MxlimsReference kvs) at_ fs) = true
  <-> (forall f, In f fs ->
         forall v, lookup (fname f) kvs = Some v -> v ~~ annotation f under info f)
      /\ (forall f, In f fs ->
            lookup (fname f) kvs = None -> the_default (info f) <> PydanticUndefined).
Proof.
  intros Hall. rewrite validate_fields_ok, forallb_forall. split.
  - intros H. split; intros f Hf; apply (field_accepts kvs at_ f Hall); auto.
  - intros [H1 H2] f Hf. apply (field_accepts kvs at_ f Hall). auto.
Qed.

Lemma pick_accepts (v : value) d tag at_ ms :
  Forall (fun m => forall i a, is_ok (validate py MxlimsReference v m i a) = true <-> v ~~ m under i) ms ->
  is_ok (pick MxlimsReference (validate py MxlimsReference v) d tag at_ ms) = true
  <-> exists pre m post,
        ms = pre ++ m :: post
        /\ (forall m', In m' pre -> has_tag MxlimsReference d m' tag = false)
        /\ has_tag MxlimsReference d m tag = true
        /\ v ~~ m under Field [].
Proof.
  induction 1 as [ | m ms Hm _ IH ]; simpl.
  - split; [ discriminate | ]. intros [pre [m [post [E _] ] ] ].
    destruct pre; discriminate.
  - destruct (has_tag MxlimsReference d m tag) eqn:Htag.
    + rewrite Hm. split.
      * intros H. exists [], m, ms. repeat split; auto. intros m' [].
      * intros [ [ | m0 pre] [m1 [post [E [Hpre [Hm1 Hacc] ] ] ] ] ];
          simpl in E; injection E as -> ->; [ exact Hacc | ].
        rewrite (Hpre m0) in Htag by now left. discriminate.
    + rewrite IH. split.
      * intros [pre [m1 [post [-> [Hpre [Hm1 Hacc] ] ] ] ] ].
        exists (m :: pre), m1, post. repeat split; auto.
        intros m' [<- | Hin]; auto.
      * intros [ [ | m0 pre] [m1 [post [E [Hpre [Hm1 Hacc] ] ] ] ] ];
          simpl in E; injection E as -> ->; [ congruence | ].
        exists pre, m1, post. repeat split; auto.
        intros m' Hin. apply Hpre. now right.
Qed.

Lemma try_each_accepts (choose : list (string * value) -> nat) (v : value)
      at_ ms :
  Forall (fun m => forall i a, is_ok (validate py MxlimsReference v m i a) = true <-> v ~~ m under i) ms ->
  is_ok (try_each MxlimsReference choose (validate py MxlimsReference v) at_ ms) = true
  <-> Exists (fun m => v ~~ m under Field []) ms.
Proof.
  intros Hall. rewrite try_each_is_ok, existsb_exists, Exists_exists.
  rewrite Forall_forall in Hall.
  split; intros [m [Hin Hm] ]; exists m; (split; [ exact Hin | ]);
    now apply (Hall m Hin (Field []) (at_ ++ [Key (label MxlimsReference m)])).
Qed.

End AcceptanceFacts.

Section Agreement.

Context (py : Runtime) (MxlimsReference : model_class).

Local Notation "v ~~ t 'under' i" :=
  (accepts py MxlimsReference v t i) (at level 70, t at next level).

Lemma agrees_optional v t :
  (forall i at_, is_ok (validate py MxlimsReference v t i at_) = true <-> v ~~ t under i) ->
  forall i at_,
    is_ok (validate py MxlimsReference v (TOptional t) i at_) = true
    <-> v ~~ TOptional t under i.
Proof.
  intros IH i at_. rewrite validate_optional.
  destruct v; try (split; [ intros _; constructor | reflexivity ]; fail);
    rewrite IH;
    (split; [ intros H; apply accepts_some; [ discriminate | exact H ]
            | intros H; inversion H; subst; assumption ]).
Qed.

Lemma agrees_union v ms :
  Forall (fun m => forall i a,
              is_ok (validate py MxlimsReference v m i a) = true <-> v ~~ m under i) ms ->
  forall i at_,
    is_ok (validate py MxlimsReference v (TUnion ms) i at_) = true
    <-> v ~~ TUnion ms under i.
Proof.
  intros IH i at_. rewrite validate_union.
  destruct (the_discriminator i) as [d | ] eqn:Hd.
  - destruct (read_tag d v) as [tag | ] eqn:Htag.
    + rewrite (pick_accepts py MxlimsReference v d tag at_ ms IH). split.
      * intros [pre [m [post [E [Hpre [Hm Hacc] ] ] ] ] ].
        now apply (accepts_tagged py MxlimsReference v ms i d tag pre m post).
      * intros H. inversion H; subst; [ | congruence ].
        assert (d0 = d) by congruence. subst d0.
        assert (tag0 = tag) by congruence. subst tag0.
        exists pre, m, post. auto.
    + split; [ discriminate | ].
      intros H. inversion H; subst; congruence.
  - destruct ms as [ | m ms' ].
    + split; [ discriminate | ].
      intros H. inversion H; subst; [ congruence | ].
      match goal with E : Exists _ [] |- _ => inversion E end.
    + rewrite (try_each_accepts py MxlimsReference _ v at_ (m :: ms') IH). split.
      * intros H. now apply accepts_union.
      * intros H. inversion H; subst; [ congruence | assumption ].
Qed.

Lemma existsb_In (s : string) (l : list string) :
  existsb (String.eqb s) l = true <-> In s l.
Proof.
  rewrite existsb_exists. split.
  - intros [x [Hin Heq] ]. apply String.eqb_eq in Heq. now subst.
  - intros Hin. exists s. split; [ exact Hin | apply String.eqb_refl ].
Qed.

Ltac no_such_acceptance :=
  split; [ discriminate | let H := fresh in intros H; inversion H; subst; congruence ].

Lemma fits_zero_one (n : Z) : n = 0%Z \/ n = 1%Z ->
  fits_int64 n = true /\ float_fits_int64 n = true.
Proof. intros [-> | ->]; split; reflexivity. Qed.

(** One outcome of the validation of a scalar against the relation. *)
Ltac scalar_outcome :=
  first
    [ rewrite check_bounds_within;
      split; [ let H := fresh in intros H; econstructor; solve [ eauto | lia ]
             | let H := fresh in
               intros H; inversion H; subst; solve [ congruence | lia ] ]
    | split; [ intros _; econstructor; solve [ eauto | lia ] | reflexivity ]
    | split; [ discriminate
             | let H := fresh in
               intros H; inversion H; subst;
               solve [ congruence | lia
                     | match goal with
                       | F : fits_int64 _ = false |- _ =>
                           vm_compute in F; discriminate F
                       | E : integral ?x = Some ?n, F : float_fits_int64 ?n = false,
                         O : _ \/ _ |- _ =>
                           destruct (fits_zero_one _ O); congruence
                       | E : integral ?x = Some ?n, E' : integral ?x = Some ?m,
                         O : ?m = _ \/ ?m = _ |- _ =>
                           rewrite E in E'; injection E' as <-;
                           first [ destruct (fits_zero_one _ O); congruence
                                 | destruct O; congruence ]
                       end ] ] ].

Ltac scalar_cases :=
  repeat match goal with
         | |- context [ (?a <? ?b)%nat ] => destruct (Nat.ltb_spec a b)
         | |- context [ (?a =? ?b)%Z ] => destruct (Z.eqb_spec a b); subst
         | |- context [ String.eqb ?a ?b ] => destruct (String.eqb_spec a b); subst
         | |- context [ match ?x with _ => _ end ] => destruct x eqn:?
         | |- context [ if ?x then _ else _ ] => destruct x eqn:?
         end;
  simpl; scalar_outcome.

Theorem validate_accepts (v : value) : agrees py MxlimsReference v.
Proof.
  induction v as [ | b | n | x | s | vs IHvs | vs IHvs | kvs IHkvs | e s | u | d | c kvs IHkvs ]
    using value_ind';
    intros t; induction t as [ | | | | | | | lit | name | t' IHt | t' IHt | t' IHt | ts IHts | ms IHms ]
      using ftype_ind';
    intros i at_;
    try (apply agrees_optional; exact IHt);
    try (apply agrees_union; exact IHms).
  all: simpl.
  all: try (split; [ discriminate | intros H; inversion H ]; fail).
  all: try (split; [ intros _; constructor | reflexivity ]; fail).
  (* lists, tuples and dicts *)
  all: try (rewrite map_result_ok, (items_accept py MxlimsReference _ _ _ _ _ IHvs);
            split; [ intros H; now constructor | intros H; now inversion H ]; fail).
  all: try (rewrite map_result_ok, (positions_accept py MxlimsReference _ _ _ _ IHvs);
            split; [ intros H; now constructor | intros H; now inversion H ]; fail).
  all: try (rewrite map_result_ok;
            change (map (fun kv : string * value =>
                           (fst kv, validate py MxlimsReference (snd kv))) kvs)
              with (entries_of py MxlimsReference kvs);
            rewrite (entries_accept py MxlimsReference _ _ _ IHkvs);
            split; [ intros H; now constructor | intros H; now inversion H ]; fail).
  (* names: enums first, then model classes *)
  all: try (destruct (find_enum name) as [en | ] eqn:He;
            [ | destruct (find_class MxlimsReference name) as [cl | ] eqn:Hc ]; simpl).
  all: try (no_such_acceptance; fail).
  all: try (solve [ scalar_cases ]).
  - (* a string for an enum *)
    destruct (existsb (String.eqb s) (map snd (members en))) eqn:Hex; simpl.
    + split; [ intros _ | reflexivity ].
      eapply accepts_enum_value; [ exact He | now apply existsb_In ].
    + split; [ discriminate | ]. intros H. inversion H; subst.
      assert (e = en) by congruence. subst e.
      match goal with Hin : In s _ |- _ => apply existsb_In in Hin end.
      congruence.
  - (* a dict for a model class *)
    rewrite map_result_ok.
    change (map (fun kv : string * value =>
                   (fst kv, validate py MxlimsReference (snd kv))) kvs)
      with (entries_of py MxlimsReference kvs).
    rewrite (fields_accept py MxlimsReference _ _ _ IHkvs). split.
    + intros [H1 H2]. now apply (accepts_model py MxlimsReference name cl).
    + intros H. inversion H; subst.
      assert (c = cl) by congruence. subst c. split; assumption.
  - (* a member for an enum *)
    destruct (String.eqb_spec e name) as [-> | Hne]; simpl.
    + split; [ intros _ | reflexivity ]. eapply accepts_enum_member. exact He.
    + destruct (existsb (String.eqb s) (map snd (members en))) eqn:Hex; simpl.
      * split; [ intros _ | reflexivity ].
        eapply accepts_enum_other_member; [ exact He | now apply existsb_In ].
      * split; [ discriminate | ]. intros H. inversion H; subst; [ congruence | ].
        assert (e0 = en) by congruence. subst e0.
        match goal with Hin : In s _ |- _ => apply existsb_In in Hin end.
        congruence.
Qed.

End Agreement.

(** * The claims *)

(** ** Construction scenarios *)


(** C7, as stated, fails: with only the four arguments of the scenario the
    construction of a [CollectionSweep] is rejected, the required literal
    [mxlims_type] being missing. *)
Lemma sweep_without_tag_is_rejected :
  construct fixed_runtime CollectionSweepRef "CollectionSweep" sweep_arguments
  = Err [ {| eloc := [Key "mxlims_type"]; etype := missing |} ].
Proof. reflexivity. Qed.

(** C7 (amended): constructing a [CollectionSweep] from the four arguments
    of the scenario alone fails with [mxlims_type] reported missing; with
    [mxlims_type="CollectionSweep"] supplied as well and no [scans], it
    succeeds, [scans] is the empty list and the four arguments are kept. *)
Theorem sweep_scans_default_empty :
  forall (py : Runtime) (MxlimsReference : model_class),
    construct py MxlimsReference "CollectionSweep" sweep_arguments
    = fail [Key "mxlims_type"] missing
    /\ exists sweep,
        construct py MxlimsReference "CollectionSweep"
                  (("mxlims_type", VStr "CollectionSweep") :: sweep_arguments)
        = Ok sweep
        /\ getattr sweep "scans" = Some (VList [])
        /\ getattr sweep "scan_axis" = Some (VStr "Omega")
        /\ getattr sweep "axis_positions_start" = Some (VDict [("Omega", VFloat 0)])
        /\ getattr sweep "axis_positions_end" = Some (VDict [("Omega", VFloat 180)])
        /\ getattr sweep "image_width" = Some (VFloat 0.1).
Proof.
  intros py MxlimsReference. split; [ reflexivity | ].
  eexists. split; [ vm_compute; reflexivity | ].
  repeat split.
Qed.

(** C10: [MXSample.macromolecule] is annotated [Macromolecule] and
    [MXExperiment.experiment_strategy] is annotated [str], neither
    optional, and both have the default [None]; an [MXSample] built
    without [macromolecule] and an [MXExperiment] built without
    [experiment_strategy] are accepted and hold [None] there. *)
Theorem none_default_on_non_optional_fields :
  forall (py : Runtime) (MxlimsReference : model_class),
    (exists f,
        find_field "macromolecule" (model_fields MXSample) = Some f
        /\ annotation f = TRef "Macromolecule"
        /\ the_default (info f) = Default VNone)
    /\ (exists sample,
           construct py MxlimsReference "MXSample"
                     [("mxlims_type", VStr "MXSample")] = Ok sample
           /\ getattr sample "macromolecule" = Some VNone)
    /\ (exists f,
           find_field "experiment_strategy" (model_fields MXExperiment) = Some f
           /\ annotation f = TStr
           /\ the_default (info f) = Default VNone)
    /\ (exists experiment,
           construct py MxlimsReference "MXExperiment"
                     [("mxlims_type", VStr "MXExperiment")] = Ok experiment
           /\ getattr experiment "experiment_strategy" = Some VNone).
Proof.
  intros py MxlimsReference. repeat split.
  - eexists. repeat split.
  - eexists. split; [ vm_compute; reflexivity | reflexivity ].
  - eexists. repeat split.
  - eexists. split; [ vm_compute; reflexivity | reflexivity ].
Qed.

(** ** Reference records *)


(** C3 (the code falls short of it): every reference class declares
    exactly one field, the tag [target_type], a literal equal to the name
    of the class referred to, and no identifier field.  Building one from
    a dict with that tag and a [uuid] entry succeeds, but the record holds
    the tag alone: the identifier is dropped, and the record has no
    attribute [uuid]. *)
Theorem reference_records_carry_the_tag_only :
  forall (py : Runtime) (MxlimsReference : model_class) (id : string),
    Forall (fun rt =>
              model_fields (fst rt) = [bare "target_type" (TLiteral (snd rt))]
              /\ class_name (fst rt) = (snd rt ++ "Ref")%string
              /\ construct py MxlimsReference (class_name (fst rt))
                           [("target_type", VStr (snd rt)); ("uuid", VStr id)]
                 = Ok (VObj (class_name (fst rt)) [("target_type", VStr (snd rt))])
              /\ getattr (VObj (class_name (fst rt))
                               [("target_type", VStr (snd rt))]) "uuid"
                 = None)
           reference_types.
Proof.
  intros py MxlimsReference id.
  repeat constructor.
Qed.

(** ** Enumerated job status *)

(** C2: the strings [Job.job_status] accepts are the values of
    [JobStatus] as the source writes them, and the value of
    [JobStatus.Failed] is written with a leading tab: the string
    ["Failed"] is rejected as an invalid enum member, the tab-prefixed one
    is accepted, and so are the other five. *)
Theorem job_status_failed_is_rejected :
  forall (py : Runtime) (MxlimsReference : model_class),
    construct py MxlimsReference "Job" [("job_status", VStr "Failed")]
    = fail [Key "job_status"] enum
    /\ kind_of enum = invalid_enum_member
    /\ (forall s,
           is_ok (construct py MxlimsReference "Job" [("job_status", VStr s)])
           = existsb (String.eqb s)
                     [ "Template"; "Ready"; "Running"; "Completed";
                       String "009"%char "Failed"; "Aborted" ]).
Proof.
  intros py MxlimsReference. split; [ reflexivity | ]. split; [ reflexivity | ].
  intros s.
  assert (Hf : exists f, find_field "job_status" (model_fields Job) = Some f
                         /\ annotation f = TOptional (TRef "JobStatus"))
    by (eexists; split; reflexivity).
  destruct Hf as [f [Hf Ha] ].
  destruct (find_field_In _ _ _ Hf) as [Hin Hname].
  destruct (construct_with_argument py MxlimsReference "Job" Job [] f (VStr s))
    as [Hok _]; try reflexivity; try exact Hin.
  rewrite Hname in Hok. rewrite Hok, Ha.
  rewrite validate_optional. simpl.
  match goal with |- is_ok (if ?b then _ else _) = _ => destruct b; reflexivity end.
Qed.

(** ** Range of [transmission] *)


(** C8: on keyword arguments that make a valid [CollectionSweep], adding
    [transmission] gives a valid sweep exactly when the value lies in
    [0, 100]: [-0.001] and [100.001] are rejected, each with one
    out-of-range error at [transmission], and [0] and [100] are accepted. *)
Theorem transmission_range :
  forall (py : Runtime) (MxlimsReference : model_class)
         (kwargs : list (string * value)),
    is_ok (construct py MxlimsReference "CollectionSweep" kwargs) = true ->
    let build v :=
      construct py MxlimsReference "CollectionSweep"
                (("transmission", v) :: kwargs) in
    build (VFloat (-0.001))
    = Err [ {| eloc := [Key "transmission"]; etype := greater_than_equal |} ]
    /\ build (VFloat 100.001)
       = Err [ {| eloc := [Key "transmission"]; etype := less_than_equal |} ]
    /\ kind_of greater_than_equal = out_of_range
    /\ kind_of less_than_equal = out_of_range
    /\ is_ok (build (VInt 0)) = true
    /\ is_ok (build (VInt 100)) = true
    /\ (forall x, is_ok (build (VFloat x)) = true <-> (0 <= x /\ x <= 100)%Q).
Proof.
  intros py MxlimsReference kwargs Hbase build.
  assert (Hf : exists f,
             find_field "transmission" (model_fields CollectionSweep) = Some f
             /\ annotation f = TOptional TFloat
             /\ info f = Field [default VNone; ge 0; le 100;
                                description "Transmission setting in %"])
    by (eexists; repeat split).
  destruct Hf as [f [Hf [Ha Hi] ] ].
  destruct (find_field_In _ _ _ Hf) as [Hin Hname].
  assert (Hbuild : forall v,
             is_ok (build v)
             = is_ok (validate py MxlimsReference v (TOptional TFloat) (info f)
                               [Key "transmission"])
             /\ errors (build v)
                = errors (validate py MxlimsReference v (TOptional TFloat) (info f)
                                   [Key "transmission"])).
  { intros v. unfold build. rewrite <- Ha, <- Hname.
    apply (construct_with_argument py MxlimsReference "CollectionSweep"
                                   CollectionSweep kwargs f v);
      [ reflexivity | reflexivity | exact Hin | exact Hbase ]. }
  assert (Herr : forall v e,
             validate py MxlimsReference v (TOptional TFloat) (info f)
                      [Key "transmission"] = Err [e] ->
             build v = Err [e]).
  { intros v e Hv. destruct (Hbuild v) as [Hok Hes]. rewrite Hv in Hok, Hes.
    destruct (build v); [ discriminate | simpl in Hes; congruence ]. }
  assert (Hnum : forall v x,
             validate py MxlimsReference v (TOptional TFloat) (info f)
                      [Key "transmission"]
             = check_bounds (info f) x [Key "transmission"] (VFloat x) ->
             is_ok (build v) = true <-> (0 <= x /\ x <= 100)%Q).
  { intros v x Hv. rewrite (proj1 (Hbuild v)), Hv, check_bounds_ok, Hi. simpl.
    split.
    - intros [Hle [Hge _] ]. split; [ now apply Hge | now apply Hle ].
    - intros [H0 H100]. repeat split; intros q E;
        try discriminate E; injection E as <-; assumption. }
  split; [ apply Herr; rewrite Hi; reflexivity | ].
  split; [ apply Herr; rewrite Hi; reflexivity | ].
  split; [ reflexivity | ].
  split; [ reflexivity | ].
  split; [ apply (Hnum (VInt 0) (inject_Z 0)); [ reflexivity | split; discriminate ] | ].
  split; [ apply (Hnum (VInt 100) (inject_Z 100)); [ reflexivity | split; discriminate ] | ].
  intros x. apply Hnum. reflexivity.
Qed.

(** [transmission_range] on the arguments
    [mxlims_type="CollectionSweep", scan_axis="Omega"]. *)
Lemma transmission_range_witness :
  construct fixed_runtime CollectionSweepRef "CollectionSweep"
            [ ("transmission", VFloat (-0.001));
              ("mxlims_type", VStr "CollectionSweep"); ("scan_axis", VStr "Omega") ]
  = Err [ {| eloc := [Key "transmission"]; etype := greater_than_equal |} ]
  /\ construct fixed_runtime CollectionSweepRef "CollectionSweep"
               [ ("transmission", VFloat 100.001);
                 ("mxlims_type", VStr "CollectionSweep"); ("scan_axis", VStr "Omega") ]
     = Err [ {| eloc := [Key "transmission"]; etype := less_than_equal |} ]
  /\ is_ok (construct fixed_runtime CollectionSweepRef "CollectionSweep"
                      [ ("transmission", VInt 0);
                        ("mxlims_type", VStr "CollectionSweep");
                        ("scan_axis", VStr "Omega") ]) = true
  /\ is_ok (construct fixed_runtime CollectionSweepRef "CollectionSweep"
                      [ ("transmission", VInt 100);
                        ("mxlims_type", VStr "CollectionSweep");
                        ("scan_axis", VStr "Omega") ]) = true.
Proof.
  destruct (transmission_range fixed_runtime CollectionSweepRef
              [ ("mxlims_type", VStr "CollectionSweep"); ("scan_axis", VStr "Omega") ]
              eq_refl)
    as [Hlow [Hhigh [_ [_ [Hzero [Hfull _] ] ] ] ] ].
  repeat split; assumption.
Defined.

(** ** Frozen fields *)

Lemma lookup_assign {A : Type} (k : string) (a : A) (kvs : list (string * A)) :
  lookup k (assign k a kvs) = Some a.
Proof.
  induction kvs as [ | [k' a'] rest IH ]; simpl.
  - now rewrite String.eqb_refl.
  - destruct (String.eqb k k') eqn:E; simpl; rewrite E; [ reflexivity | exact IH ].
Qed.

Lemma lookup_assign_other {A : Type} (k k' : string) (a : A)
      (kvs : list (string * A)) :
  k' <> k -> lookup k' (assign k a kvs) = lookup k' kvs.
Proof.
  intros Hne. induction kvs as [ | [k0 a0] rest IH ]; simpl.
  - destruct (String.eqb_spec k' k); [ contradiction | reflexivity ].
  - destruct (String.eqb_spec k k0) as [-> | Hk]; simpl.
    + destruct (String.eqb_spec k' k0); [ contradiction | reflexivity ].
    + destruct (String.eqb k' k0); [ reflexivity | exact IH ].
Qed.

(** The frozen fields of the base classes and of a sweep, by name. *)
Lemma frozen_fields_by_class :
  map fname (filter (fun f => is_frozen (info f)) (model_fields MxlimsObject))
  = ["uuid"]
  /\ map fname (filter (fun f => is_frozen (info f)) (model_fields Dataset))
     = ["uuid"; "source"; "role"; "logistical_sample"; "derived_from_id"]
  /\ map fname (filter (fun f => is_frozen (info f)) (model_fields Job))
     = ["uuid"; "sample"; "logistical_sample"]
  /\ map fname (filter (fun f => is_frozen (info f)) (model_fields LogisticalSample))
     = ["uuid"]
  /\ map fname (filter (fun f => is_frozen (info f)) (model_fields MXExperiment))
     = ["uuid"; "sample"; "logistical_sample"]
  /\ map fname (filter (fun f => is_frozen (info f)) (model_fields UnitCell))
     = ["a"; "b"; "c"; "alpha"; "beta"; "gamma"].
Proof. repeat split. Qed.

(** C4: for every class of the two modules and every field [f] of it, on
    an instance that construction produced: a value supplied for [f] was
    validated and stored, frozen or not; if [f] is frozen, assignment to it
    raises the frozen-field error and the instance is as before; if [f] is
    not frozen, assignment succeeds and the attribute then holds the
    assigned value. *)
Theorem frozen_field_assignment :
  forall (py : Runtime) (MxlimsReference c : model_class)
         (f : field) (kwargs : list (string * value)) (obj v : value),
    In c classes ->
    In f (model_fields c) ->
    construct py MxlimsReference (class_name c) kwargs = Ok obj ->
    (forall x, lookup (fname f) kwargs = Some x ->
               exists x',
                 validate py MxlimsReference x (annotation f) (info f)
                          [Key (fname f)] = Ok x'
                 /\ getattr obj (fname f) = Some x')
    /\ (is_frozen (info f) = true ->
        setattr MxlimsReference obj (fname f) v
        = (fail [Key (fname f)] frozen_field, obj)
        /\ kind_of frozen_field = immutable_field)
    /\ (is_frozen (info f) = false ->
        exists obj',
          setattr MxlimsReference obj (fname f) v = (Ok tt, obj')
          /\ getattr obj' (fname f) = Some v
          /\ forall other, other <> fname f ->
                           getattr obj' other = getattr obj other).
Proof.
  intros py MxlimsReference c f kwargs obj v Hclass Hin Hobj.
  destruct (class_resolves MxlimsReference c Hclass) as [He Hc].
  rewrite (construct_fields py MxlimsReference _ c kwargs He Hc) in Hobj.
  destruct (validate_fields py (entries_of py MxlimsReference kwargs) []
                            (model_fields c)) as [attrs | ] eqn:Hattrs;
    [ | discriminate ].
  injection Hobj as <-.
  pose proof (In_find_field c f Hin) as Hfind.
  destruct (fields_are_plain_names c f Hclass Hin) as [Hpublic Hplain].
  split; [ | split ].
  - intros x Hx.
    destruct (validate_fields_attrs py _ _ _ _ _ _ Hattrs Hfind) as [x' [Hx' Hl] ].
    exists x'. split; [ | exact Hl ].
    rewrite <- Hx'. symmetry.
    apply (field_outcome_supplied py MxlimsReference kwargs f x Hx).
  - intros Hfrozen. unfold setattr. rewrite Hc, Hpublic, Hfind, Hfrozen.
    split; reflexivity.
  - intros Hfrozen. unfold setattr. rewrite Hc, Hpublic, Hfind, Hfrozen, Hplain.
    eexists. split; [ reflexivity | ]. simpl. split.
    + apply lookup_assign.
    + intros other Hother. now apply lookup_assign_other.
Qed.

(** [frozen_field_assignment] on a [Dataset] built with [role="Result"]:
    [role] is frozen, and [dataset.role = "Intermediate"] raises; and on a
    [Job] built with [job_status="Ready"]: [job_status] is not frozen, and
    [job.job_status = JobStatus.Running] takes effect. *)
Lemma frozen_field_assignment_witness :
  (exists dataset,
      construct fixed_runtime CollectionSweepRef "Dataset" [("role", VStr "Result")]
      = Ok dataset
      /\ getattr dataset "role" = Some (VStr "Result")
      /\ setattr CollectionSweepRef dataset "role" (VStr "Intermediate")
         = (fail [Key "role"] frozen_field, dataset))
  /\ (exists job job',
         construct fixed_runtime CollectionSweepRef "Job" [("job_status", VStr "Ready")]
         = Ok job
         /\ setattr CollectionSweepRef job "job_status" (VEnum "JobStatus" "Running")
            = (Ok tt, job')
         /\ getattr job' "job_status" = Some (VEnum "JobStatus" "Running")).
Proof.
  split.
  - eexists. split; [ reflexivity | ].
    destruct (frozen_field_assignment fixed_runtime CollectionSweepRef Dataset
                (attr "role" (TOptional TStr)
                      (Field [ default VNone; frozen true;
                               json_schema_extra
                                 [ ("description",
                                    VStr "Role of Dataset realtive to the source Job.Intended for filtering of Datasets");
                                   ("examples",
                                    VList [ VStr "Result"; VStr "Intermediate";
                                            VStr "Characterisation"; VStr "Centring" ]) ] ]))
                [("role", VStr "Result")] _ (VStr "Intermediate")
                (or_intror (or_intror (or_introl eq_refl)))
                (or_intror (or_intror (or_intror (or_intror (or_introl eq_refl)))))
                eq_refl)
      as [Hbuilt [Hfrozen _] ].
    split.
    + destruct (Hbuilt (VStr "Result") eq_refl) as [x' [Hx' Hget] ].
      injection Hx' as <-. exact Hget.
    + exact (proj1 (Hfrozen eq_refl)).
  - assert (Hf : exists f, find_field "job_status" (model_fields Job) = Some f
                           /\ is_frozen (info f) = false)
      by (eexists; split; reflexivity).
    destruct Hf as [f [Hf Hfree] ].
    destruct (find_field_In _ _ _ Hf) as [Hin Hname].
    eexists.
    destruct (frozen_field_assignment fixed_runtime CollectionSweepRef Job f
                [("job_status", VStr "Ready")] _ (VEnum "JobStatus" "Running")
                (or_intror (or_intror (or_intror (or_introl eq_refl)))) Hin eq_refl)
      as [_ [_ Hassign] ].
    destruct (Hassign Hfree) as [job' [Hset [Hget _] ] ].
    rewrite Hname in Hset, Hget.
    exists job'. split; [ reflexivity | ]. split; assumption.
Defined.

(** ** Validation on construction *)



(** Complete arguments for the two value classes the claim cites:
    accepted, and kept as given. *)
Lemma Scan_valid (py : Runtime) (MxlimsReference : model_class)
      (start : Q) (first count ordinal : Z) :
  construct py MxlimsReference "Scan"
            [ ("scan_position_start", VFloat start); ("first_image_no", VInt first);
              ("num_images", VInt count); ("ordinal", VInt ordinal) ]
  = Ok (VObj "Scan"
             [ ("scan_position_start", VFloat start); ("first_image_no", VInt first);
               ("num_images", VInt count); ("ordinal", VInt ordinal) ]).
Proof. reflexivity. Qed.

Lemma Scan_without_ordinal (py : Runtime) (MxlimsReference : model_class)
      (start : Q) (first count : Z) :
  construct py MxlimsReference "Scan"
            [ ("scan_position_start", VFloat start); ("first_image_no", VInt first);
              ("num_images", VInt count) ]
  = fail [Key "ordinal"] missing.
Proof. reflexivity. Qed.

(** ** Discriminated unions *)


(** The fields that carry a discriminator: seven collection fields of
    [MXExperiment] and [MXProcessing], each a list of a union of one
    dataset class and [MxlimsReference]. *)
Lemma discriminated_fields :
  map (fun c => (class_name c,
                 map (fun f => (fname f, annotation f, the_discriminator (info f)))
                     (filter is_discriminated (model_fields c))))
      (filter (fun c => existsb is_discriminated (model_fields c)) classes)
  = [ ("MXExperiment",
       [ ("templates",
          TList (TUnion [TRef "CollectionSweep"; TRef "MxlimsReference"]),
          Some "mxlims_type");
         ("reference_data",
          TList (TUnion [TRef "ReflectionSet"; TRef "MxlimsReference"]),
          Some "mxlims_type");
         ("results",
          TList (TUnion [TRef "CollectionSweep"; TRef "MxlimsReference"]),
          Some "mxlims_type") ]);
      ("MXProcessing",
       [ ("templates",
          TList (TUnion [TRef "ReflectionSet"; TRef "MxlimsReference"]),
          Some "mxlims_type");
         ("input_data",
          TList (TUnion [TRef "CollectionSweep"; TRef "MxlimsReference"]),
          Some "mxlims_type");
         ("reference_data",
          TList (TUnion [TRef "ReflectionSet"; TRef "MxlimsReference"]),
          Some "mxlims_type");
         ("results",
          TList (TUnion [TRef "ReflectionSet"; TRef "MxlimsReference"]),
          Some "mxlims_type") ]) ].
Proof. reflexivity. Qed.

Lemma discriminator_is_mxlims_type (c : model_class) (f : field) (d : string) :
  In c classes -> In f (model_fields c) ->
  the_discriminator (info f) = Some d -> d = "mxlims_type".
Proof.
  assert (Hall : forallb (fun c => forallb (fun f =>
                     match the_discriminator (info f) with
                     | Some d => String.eqb d "mxlims_type"
                     | None => true
                     end) (model_fields c)) classes = true)
    by (vm_compute; reflexivity).
  intros Hc Hf Hd. rewrite forallb_forall in Hall.
  specialize (Hall c Hc). rewrite forallb_forall in Hall.
  specialize (Hall f Hf). rewrite Hd in Hall. now apply String.eqb_eq.
Qed.

Section Dispatch.

Context (py : Runtime) (MxlimsReference : model_class).

Lemma validate_list items t i at_ :
  validate py MxlimsReference (VList items) (TList t) i at_
  = map_result VList
      (validate_items (map (validate py MxlimsReference) items) t (item_info i) at_ 0).
Proof. reflexivity. Qed.

End Dispatch.

(** C1 (the code falls short of it): the seven union fields declare
    [discriminator="mxlims_type"], but on a field that is a list, where
    the discriminator does not reach the union of the items: whatever the
    field declares, the items are validated as a plain union.  In
    [MXExperiment.results], with [CollectionSweepRef] for the reference
    member: an item whose [mxlims_type] names no member fails with the
    errors of the members (a literal error and missing fields), and so
    does an item without a tag; none of these errors is an unknown-variant
    error.  An item whose [mxlims_type] names no member and whose
    [target_type] is that of the stand-in is accepted as the stand-in. *)
Theorem union_items_are_not_dispatched_on_the_tag :
  (forall (py : Runtime) (MxlimsReference : model_class) (ms : list ftype)
          (items : list value) (i : FieldInfo) (at_ : loc),
      validate py MxlimsReference (VList items) (TList (TUnion ms)) i at_
      = validate py MxlimsReference (VList items) (TList (TUnion ms)) (Field []) at_)
  /\ (let built :=
        construct fixed_runtime CollectionSweepRef "MXExperiment"
                  [ ("mxlims_type", VStr "MXExperiment");
                    ("results", VList [ VDict [ ("mxlims_type", VStr "Scan") ] ]) ] in
      built
      = Err [ {| eloc := [Key "results"; Idx 0; Key "CollectionSweep"; Key "mxlims_type"];
                 etype := literal_error |};
              {| eloc := [Key "results"; Idx 0; Key "CollectionSweep"; Key "scan_axis"];
                 etype := missing |};
              {| eloc := [Key "results"; Idx 0; Key "CollectionSweepRef";
                          Key "target_type"];
                 etype := missing |} ]
      /\ Forall (fun e => kind_of (etype e) <> unknown_variant) (errors built))
  /\ (let built :=
        construct fixed_runtime CollectionSweepRef "MXExperiment"
                  [ ("mxlims_type", VStr "MXExperiment");
                    ("results", VList [ VDict [] ]) ] in
      built
      = Err [ {| eloc := [Key "results"; Idx 0; Key "CollectionSweep"; Key "mxlims_type"];
                 etype := missing |};
              {| eloc := [Key "results"; Idx 0; Key "CollectionSweep"; Key "scan_axis"];
                 etype := missing |};
              {| eloc := [Key "results"; Idx 0; Key "CollectionSweepRef";
                          Key "target_type"];
                 etype := missing |} ]
      /\ Forall (fun e => kind_of (etype e) <> unknown_variant) (errors built))
  /\ exists experiment,
      construct fixed_runtime CollectionSweepRef "MXExperiment"
                [ ("mxlims_type", VStr "MXExperiment");
                  ("results",
                   VList [ VDict [ ("mxlims_type", VStr "Scan");
                                   ("target_type", VStr "CollectionSweep") ] ]) ]
      = Ok experiment
      /\ getattr experiment "results"
         = Some (VList [ VObj "CollectionSweepRef"
                              [("target_type", VStr "CollectionSweep")] ]).
Proof.
  split; [ reflexivity | ]. split; [ | split ].
  - split; [ vm_compute; reflexivity | ].
    repeat constructor; discriminate.
  - split; [ vm_compute; reflexivity | ].
    repeat constructor; discriminate.
  - eexists. split; [ vm_compute; reflexivity | reflexivity ].
Qed.

(** ** Round trip through JSON *)

(** The sweep of the scenario, once built, survives the round trip. *)
Lemma sweep_round_trip (py : Runtime) (MxlimsReference : model_class) :
  exists sweep,
    construct py MxlimsReference "CollectionSweep"
              (("mxlims_type", VStr "CollectionSweep") :: sweep_arguments)
    = Ok sweep
    /\ round_trip py MxlimsReference sweep = Ok sweep.
Proof. eexists. split; [ vm_compute; reflexivity | vm_compute; reflexivity ]. Qed.

(** C6: the round trip is not the identity on every valid entity.  The
    [MXSample] built from [mxlims_type] alone is valid and holds
    [macromolecule = None]; its JSON carries [null] there, which the
    annotation [Macromolecule] rejects when the entity is rebuilt.  The
    same happens to an [MXExperiment] at [experiment_strategy], annotated
    [str]. *)
Theorem round_trip_fails_on_none_defaults :
  forall (py : Runtime) (MxlimsReference : model_class),
    (exists sample,
        construct py MxlimsReference "MXSample" [("mxlims_type", VStr "MXSample")]
        = Ok sample
        /\ lookup "macromolecule" (object_items (model_dump_json py sample))
           = Some VNone
        /\ round_trip py MxlimsReference sample
           = fail [Key "macromolecule"] model_type)
    /\ (exists experiment,
           construct py MxlimsReference "MXExperiment"
                     [("mxlims_type", VStr "MXExperiment")]
           = Ok experiment
           /\ lookup "experiment_strategy"
                     (object_items (model_dump_json py experiment))
              = Some VNone
           /\ round_trip py MxlimsReference experiment
              = fail [Key "experiment_strategy"] string_type).
Proof.
  intros py MxlimsReference. split.
  - eexists. split; [ vm_compute; reflexivity | ].
    split; vm_compute; reflexivity.
  - eexists. split; [ vm_compute; reflexivity | ].
    split; vm_compute; reflexivity.
Qed.

(** ** Schema export *)


(** Among the exported classes the only field that declares no
    description is the bare discriminator [mxlims_type]. *)
Lemma undescribed_fields :
  map (fun c => (class_name c,
                 map fname (filter (fun f => match declared_description f with
                                             | Some _ => false
                                             | None => true
                                             end) (model_fields c))))
      exported_types
  = [ ("LogisticalSample", []); ("CollectionSweep", ["mxlims_type"]);
      ("ReflectionSet", ["mxlims_type"]); ("MXExperiment", ["mxlims_type"]);
      ("MXProcessing", ["mxlims_type"]); ("MXSample", ["mxlims_type"]) ].
Proof. reflexivity. Qed.

Section ExportFacts.

Variable introspect : model_class -> result value.

(** Export of types that can all be introspected: one file each. *)
Lemma export_all_ok (types : list model_class) (fs : files) :
  (forall c, In c types -> is_ok (introspect c) = true) ->
  fst (export introspect types fs) = Ok tt.
Proof.
  revert fs. induction types as [ | c types IH ]; intros fs Hall; simpl.
  - reflexivity.
  - destruct (introspect c) eqn:Hc.
    + apply IH. intros c' Hc'. apply Hall. now right.
    + specialize (Hall c (or_introl eq_refl)). rewrite Hc in Hall. discriminate.
Qed.

(** Export stops at the first type that cannot be introspected. *)
Lemma export_stops (pre post : list model_class) (c : model_class)
      (es : list error) (fs : files) :
  (forall p, In p pre -> is_ok (introspect p) = true) ->
  introspect c = Err es ->
  export introspect (pre ++ c :: post) fs
  = (Err es, snd (export introspect pre fs)).
Proof.
  revert fs. induction pre as [ | p pre IH ]; intros fs Hpre Hc; simpl.
  - now rewrite Hc.
  - destruct (introspect p) eqn:Hp.
    + apply IH; [ | exact Hc ]. intros p' Hp'. apply Hpre. now right.
    + specialize (Hpre p (or_introl eq_refl)). rewrite Hp in Hpre. discriminate.
Qed.

End ExportFacts.

(** C9 (the code falls short of it): run as a script, the module stops
    at its import from [mxlims.pydantic.core], which binds no name
    [MxlimsObjectRef]: the export loop is not reached, no document is
    written, and the directory is as it was.  The loop by itself is
    fail-fast: at a type that cannot be introspected it ends with the
    error of that type alone, the types after it are not looked at (the
    outcome is the same whatever follows), and the files are those written
    for the types before it. *)
Theorem schema_export_is_not_reached :
  (forall (py : Runtime) (MxlimsReference : model_class) (fs : files),
      main py MxlimsReference fs = (raised (ImportError "MxlimsObjectRef"), fs))
  /\ (forall (introspect : model_class -> result value)
             (pre post : list model_class) (c : model_class)
             (es : list error) (fs : files),
         (forall p, In p pre -> is_ok (introspect p) = true) ->
         introspect c = Err es ->
         export introspect (pre ++ c :: post) fs
         = (Err es, snd (export introspect pre fs))
         /\ fst (export introspect pre fs) = Ok tt
         /\ export introspect (pre ++ c :: post) fs
            = export introspect (pre ++ [c]) fs).
Proof.
  split; [ reflexivity | ].
  intros introspect pre post c es fs Hpre Hc. split; [ | split ].
  - now apply export_stops.
  - now apply export_all_ok.
  - rewrite (export_stops introspect pre post c es fs Hpre Hc).
    now rewrite (export_stops introspect pre [] c es fs Hpre Hc).
Qed.

(** [schema_export_is_not_reached] on the loop when introspection fails
    at the third type, [ReflectionSet]: the loop ends with that error and
    the directory holds the documents of the two types before it. *)
Lemma schema_export_is_not_reached_witness :
  let introspect c :=
    if String.eqb (class_name c) "ReflectionSet"
    then fail [Key "ReflectionSet"] class_not_fully_defined
    else model_json_schema fixed_runtime CollectionSweepRef c in
  fst (export introspect exported_types [])
  = Err [ {| eloc := [Key "ReflectionSet"]; etype := class_not_fully_defined |} ]
  /\ map fst (snd (export introspect exported_types []))
     = [ "LogisticalSample_schema.json"; "CollectionSweep_schema.json" ].
Proof.
  intros introspect.
  destruct (proj2 schema_export_is_not_reached introspect
                  [LogisticalSample; CollectionSweep]
                  [MXExperiment; MXProcessing; MXSample] ReflectionSet
                  [ {| eloc := [Key "ReflectionSet"]; etype := class_not_fully_defined |} ]
                  [])
    as [Hrun _].
  - intros p [<- | [<- | [] ] ]; vm_compute; reflexivity.
  - reflexivity.
  - change exported_types
      with ([LogisticalSample; CollectionSweep]
              ++ ReflectionSet :: [MXExperiment; MXProcessing; MXSample]).
    rewrite Hrun. split; vm_compute; reflexivity.
Defined.

(** ** Overriding declarations *)

(** [MXExperiment] and [MXProcessing] declare again fields they inherit from
    [Job].  The new declaration takes the place of the inherited one: the
    first twelve fields of [MXExperiment] are those of [Job], by name and in
    order; [sample] is narrowed from [PreparedSample] to [MXSample] and is
    frozen in both; and no class has two fields of one name. *)
Theorem overriding_declarations_narrow_in_place :
  map fname (firstn 12 (model_fields MXExperiment)) = map fname (model_fields Job)
  /\ map fname (firstn 12 (model_fields MXProcessing)) = map fname (model_fields Job)
  /\ option_map (fun f => (annotation f, is_frozen (info f)))
                (find_field "sample" (model_fields Job))
     = Some (TOptional (TRef "PreparedSample"), true)
  /\ option_map (fun f => (annotation f, is_frozen (info f)))
                (find_field "sample" (model_fields MXExperiment))
     = Some (TOptional (TRef "MXSample"), true)
  /\ option_map (fun f => (annotation f, is_frozen (info f)))
                (find_field "sample" (model_fields MXProcessing))
     = Some (TOptional (TRef "MXSample"), true)
  /\ forall c, NoDup (map fname (model_fields c)).
Proof.
  repeat split. apply model_fields_NoDup.
Qed.

(** ** Construction reads the declared fields only *)

Lemma lookup_app {A : Type} (k : string) (pre post : list (string * A)) :
  lookup k (pre ++ post)
  = match lookup k pre with Some a => Some a | None => lookup k post end.
Proof.
  induction pre as [ | [k' a] pre IH ]; simpl; [ reflexivity | ].
  destruct (String.eqb k k'); [ reflexivity | exact IH ].
Qed.

(** A dict read through its keys does not depend on the order in which
    the entries were written. *)
Lemma lookup_Permutation {A : Type} (k : string) (kvs kvs' : list (string * A)) :
  NoDup (map fst kvs) -> Permutation kvs kvs' -> lookup k kvs = lookup k kvs'.
Proof.
  intros Hnd Hp. induction Hp as [ | [k1 a1] l l' Hp IH | [k1 a1] [k2 a2] l | l l' l'' Hp1 IH1 Hp2 IH2 ].
  - reflexivity.
  - simpl. inversion Hnd as [ | ? ? _ Hrest ]. destruct (String.eqb k k1); auto.
  - simpl. inversion Hnd as [ | ? ? Hnotin _ ].
    destruct (String.eqb_spec k k1) as [E1 | H1];
      destruct (String.eqb_spec k k2) as [E2 | H2]; try reflexivity.
    exfalso. apply Hnotin. simpl. left. congruence.
  - rewrite IH1 by exact Hnd. apply IH2.
    apply (Permutation_NoDup (Permutation_map fst Hp1) Hnd).
Qed.

Section DeclaredFieldsOnly.

Context (py : Runtime) (MxlimsReference : model_class).

Lemma validate_fields_ext entries entries' at_ fs :
  (forall f, In f fs -> lookup (fname f) entries = lookup (fname f) entries') ->
  validate_fields py entries at_ fs = validate_fields py entries' at_ fs.
Proof.
  induction fs as [ | f fs IH ]; simpl; intros Hall; [ reflexivity | ].
  unfold validate_field at 1 2. rewrite (Hall f (or_introl eq_refl)).
  rewrite IH; [ reflexivity | ]. intros g Hg. apply Hall. now right.
Qed.

(** Two sets of keyword arguments that bind the field names of the class
    alike build the same thing. *)
Lemma construct_ext c kwargs kwargs' :
  In c classes ->
  (forall f, In f (model_fields c) ->
             lookup (fname f) kwargs = lookup (fname f) kwargs') ->
  construct py MxlimsReference (class_name c) kwargs
  = construct py MxlimsReference (class_name c) kwargs'.
Proof.
  intros Hc Hall. destruct (class_resolves MxlimsReference c Hc) as [He Hf].
  rewrite !(construct_fields py MxlimsReference _ _ _ He Hf). f_equal.
  apply validate_fields_ext. intros f Hin.
  rewrite !lookup_entries_of. now rewrite (Hall f Hin).
Qed.

(** The attribute of the instance under a field name is the outcome of
    that field. *)
Lemma construct_attribute c kwargs obj f :
  In c classes -> In f (model_fields c) ->
  construct py MxlimsReference (class_name c) kwargs = Ok obj ->
  exists v, field_outcome py MxlimsReference kwargs f = Ok v
            /\ getattr obj (fname f) = Some v.
Proof.
  intros Hc Hin Hobj. destruct (class_resolves MxlimsReference c Hc) as [He Hf].
  rewrite (construct_fields py MxlimsReference _ _ _ He Hf) in Hobj.
  destruct (validate_fields py _ [] (model_fields c)) as [attrs | ] eqn:Hattrs;
    [ | discriminate ].
  simpl in Hobj. injection Hobj as <-.
  exact (validate_fields_attrs py _ _ _ _ _ _ Hattrs (In_find_field c f Hin)).
Qed.

(** The instance is of the class and has one attribute for each field. *)
Lemma construct_shape c kwargs obj :
  In c classes ->
  construct py MxlimsReference (class_name c) kwargs = Ok obj ->
  exists attrs,
    obj = VObj (class_name c) attrs
    /\ map fst attrs = map fname (model_fields c).
Proof.
  intros Hc Hobj. destruct (class_resolves MxlimsReference c Hc) as [He Hf].
  rewrite (construct_fields py MxlimsReference _ _ _ He Hf) in Hobj.
  destruct (validate_fields py _ [] (model_fields c)) as [attrs | ] eqn:Hattrs;
    [ | discriminate ].
  simpl in Hobj. injection Hobj as <-. exists attrs. split; [ reflexivity | ].
  exact (validate_fields_names py _ _ _ _ Hattrs).
Qed.

End DeclaredFieldsOnly.

(** X3: what a construction reads and what it builds.  Keyword arguments
    that bind the field names of the class alike build the same thing; so a
    key that names no field changes nothing, wherever it stands, and the
    order of the arguments is immaterial.  The instance is of the class and
    has one attribute for each field of the class, in declaration order. *)
Theorem construct_reads_declared_fields :
  forall (py : Runtime) (MxlimsReference c : model_class),
    In c classes ->
    let build := construct py MxlimsReference (class_name c) in
    (forall kwargs kwargs',
        (forall f, In f (model_fields c) ->
                   lookup (fname f) kwargs = lookup (fname f) kwargs') ->
        build kwargs = build kwargs')
    /\ (forall pre k v post,
           ~ In k (map fname (model_fields c)) ->
           build (pre ++ (k, v) :: post) = build (pre ++ post))
    /\ (forall kwargs kwargs',
           NoDup (map fst kwargs) -> Permutation kwargs kwargs' ->
           build kwargs = build kwargs')
    /\ (forall kwargs obj,
           build kwargs = Ok obj ->
           exists attrs,
             obj = VObj (class_name c) attrs
             /\ map fst attrs = map fname (model_fields c)).
Proof.
  intros py MxlimsReference c Hc build. unfold build.
  split; [ | split; [ | split ] ].
  - intros kwargs kwargs'. now apply construct_ext.
  - intros pre k v post Hk. apply construct_ext; [ exact Hc | ].
    intros f Hf. rewrite !lookup_app. simpl.
    destruct (String.eqb_spec (fname f) k) as [E | Hne]; [ | reflexivity ].
    exfalso. apply Hk. rewrite <- E. now apply in_map.
  - intros kwargs kwargs' Hnd Hp. apply construct_ext; [ exact Hc | ].
    intros f _. now apply lookup_Permutation.
  - intros kwargs obj Hobj.
    exact (construct_shape py MxlimsReference c kwargs obj Hc Hobj).
Qed.

(** [construct_reads_declared_fields] on a [Scan]: a misspelt key
    ([ordinl]) is dropped, so the scan built with it is the scan built
    without it. *)
Lemma construct_reads_declared_fields_witness :
  construct fixed_runtime CollectionSweepRef "Scan"
            ([ ("scan_position_start", VFloat 0); ("first_image_no", VInt 1) ]
               ++ ("ordinl", VInt 7)
               :: [ ("num_images", VInt 900); ("ordinal", VInt 1) ])
  = construct fixed_runtime CollectionSweepRef "Scan"
              ([ ("scan_position_start", VFloat 0); ("first_image_no", VInt 1) ]
                 ++ [ ("num_images", VInt 900); ("ordinal", VInt 1) ]).
Proof.
  assert (Hc : In Scan classes) by (simpl; tauto).
  apply (proj1 (proj2 (construct_reads_declared_fields
                         fixed_runtime CollectionSweepRef Scan Hc))).
  simpl. intuition discriminate.
Defined.

(** ** Numeric bounds, on every field that declares one *)

Lemma bound_violation_within (i : FieldInfo) (x : Q) :
  bound_violation i x = None <-> within i x.
Proof.
  pose proof (check_bounds_ok i x [] VNone) as H. unfold check_bounds in H.
  unfold within. rewrite <- H.
  destruct (bound_violation i x); simpl; split; congruence.
Qed.

Lemma bound_violation_kind (i : FieldInfo) (x : Q) (t : error_type) :
  bound_violation i x = Some t -> kind_of t = out_of_range.
Proof.
  unfold bound_violation, or_else, check.
  destruct (bound_le i) as [b | ]; [ destruct (Qle_bool x b) | ];
    (destruct (bound_ge i) as [a | ]; [ destruct (Qle_bool a x) | ]);
    (destruct (bound_gt i) as [c | ]; [ destruct (negb (Qle_bool x c)) | ]);
    intros H; try discriminate H; injection H as <-; reflexivity.
Qed.

(** A float is a whole number, as [int] fields take it. *)
Lemma integral_whole (x : Q) (n : Z) :
  integral x = Some n <-> (x == inject_Z n)%Q.
Proof.
  unfold integral, Qeq. destruct x as [p q]. simpl.
  rewrite Z.mul_1_r. split.
  - destruct (Z.eqb_spec (Z.rem p (Z.pos q)) 0) as [Hr | ]; [ | discriminate ].
    intros H. injection H as <-.
    pose proof (Z.quot_rem' p (Z.pos q)) as Hq. lia.
  - intros ->. rewrite Z.rem_mul by discriminate. simpl.
    now rewrite Z.quot_mul by discriminate.
Qed.

Lemma within_Qeq (i : FieldInfo) (x y : Q) :
  (x == y)%Q -> within i x -> within i y.
Proof.
  intros E [Hle [Hge Hgt] ].
  repeat split; intros q Hq; rewrite <- E; auto.
Qed.

Section BoundedFields.

Context (py : Runtime) (MxlimsReference : model_class).

Lemma err_single {A : Type} (r : result A) (e : error) :
  is_ok r = false -> errors r = [e] -> r = Err [e].
Proof. destruct r; simpl; [ discriminate | congruence ]. Qed.

Lemma number_outcome (t : ftype) (i : FieldInfo) (at_ : loc) (v w : value) (x : Q) :
  validate py MxlimsReference v t i at_ = check_bounds i x at_ w ->
  (is_ok (validate py MxlimsReference v t i at_) = true <-> within i x)
  /\ (is_ok (validate py MxlimsReference v t i at_) = false ->
      exists k, validate py MxlimsReference v t i at_ = fail at_ k
                /\ kind_of k = out_of_range).
Proof.
  intros ->. unfold check_bounds.
  destruct (bound_violation i x) as [k | ] eqn:Hk; simpl.
  - split.
    + split; [ discriminate | ].
      intros Hw. apply bound_violation_within in Hw. congruence.
    + intros _. exists k. split; [ reflexivity | exact (bound_violation_kind _ _ _ Hk) ].
  - split; [ | discriminate ].
    split; [ intros _; now apply bound_violation_within | reflexivity ].
Qed.

End BoundedFields.

(** An int of at most 53 bits is a float as it is. *)
Lemma float_of_small_int (n : Z) :
  (Z.abs n < 2 ^ 53)%Z -> float_of_int n = Some (inject_Z n).
Proof.
  intros Hn. unfold float_of_int, nearest_double.
  destruct (Z.ltb_spec (Z.abs n) (2 ^ 1024 - 2 ^ 970)) as [_ | Hbig].
  - destruct (Z.ltb_spec (Z.abs n) (2 ^ 53)) as [_ | Hge]; [ reflexivity | lia ].
  - exfalso. assert (2 ^ 53 < 2 ^ 1024 - 2 ^ 970)%Z by (vm_compute; reflexivity). lia.
Qed.

(** X4: numeric bounds are enforced, to the letter, on every field that
    declares one.  On keyword arguments that make a valid instance, giving
    a [float] field the float [x] gives a valid instance exactly when [x]
    satisfies the [ge], [le] and [gt] of the field's declaration ([gt] is
    strict), and a rejected float is reported by one error of the
    out-of-range kind, at the field.  The field takes an int when the int
    converts to a float (it is rounded to the nearest double, and beyond
    the largest double it is a type error) and the float satisfies the
    bounds.  An [int] field takes an int likewise, whatever its size; it
    takes a float only when that is a whole number strictly between -2^63
    and 2^63 that satisfies the bounds, and a whole float beyond that
    range is reported as too large to parse.  The fields with bounds are
    [CollectionSweep.transmission], five fields of [ReflectionStatistics],
    three bin counts of [ReflectionSet] and
    [MXSample.radiation_sensitivity]. *)
Theorem numeric_bounds_on_every_field :
  flat_map (fun c => map (fun f => (class_name c, fname f,
                                    (bound_ge (info f), bound_le (info f),
                                     bound_gt (info f))))
                         (filter bounded (model_fields c))) classes
  = [ ("CollectionSweep", "transmission", (Some 0%Q, Some 100%Q, None));
      ("ReflectionStatistics", "completeness", (Some 0%Q, Some 100%Q, None));
      ("ReflectionStatistics", "chi_squared", (Some 0%Q, None, None));
      ("ReflectionStatistics", "redundancy", (Some 0%Q, None, None));
      ("ReflectionStatistics", "redundancy_anomalous", (Some 0%Q, None, None));
      ("ReflectionSet", "number_bins", (None, None, Some 0%Q));
      ("ReflectionSet", "refln_per_bin", (None, None, Some 0%Q));
      ("ReflectionSet", "refln_per_bin_per_sweep", (None, None, Some 0%Q));
      ("MXSample", "radiation_sensitivity", (Some 0%Q, Some 1%Q, None)) ]
  /\ (forall n, (Z.abs n < 2 ^ 53)%Z -> float_of_int n = Some (inject_Z n))
  /\ float_of_int (10 ^ 400) = None
  /\ forall (py : Runtime) (MxlimsReference c : model_class) (f : field)
            (kwargs : list (string * value)),
      In c classes -> In f (model_fields c) ->
      is_ok (construct py MxlimsReference (class_name c) kwargs) = true ->
      let build v :=
        construct py MxlimsReference (class_name c) ((fname f, v) :: kwargs) in
      let out_of_range_at_field r :=
        exists t, r = Err [ {| eloc := [Key (fname f)]; etype := t |} ]
                  /\ kind_of t = out_of_range in
      (takes_float (annotation f) = true ->
       (forall x, (is_ok (build (VFloat x)) = true <-> within (info f) x)
                  /\ (is_ok (build (VFloat x)) = false ->
                      out_of_range_at_field (build (VFloat x))))
       /\ (forall n, (is_ok (build (VInt n)) = true
                      <-> exists x, float_of_int n = Some x /\ within (info f) x)
                     /\ (float_of_int n = None ->
                         build (VInt n) = fail [Key (fname f)] float_type)))
      /\ (takes_int (annotation f) = true ->
          (forall n, (is_ok (build (VInt n)) = true
                      <-> within (info f) (inject_Z n))
                     /\ (is_ok (build (VInt n)) = false ->
                         out_of_range_at_field (build (VInt n))))
          /\ (forall x, (is_ok (build (VFloat x)) = true
                         <-> exists n, (x == inject_Z n)%Q
                                       /\ (- 2 ^ 63 < n < 2 ^ 63)%Z
                                       /\ within (info f) (inject_Z n))
                        /\ (forall n, (x == inject_Z n)%Q ->
                                      ~ (- 2 ^ 63 < n < 2 ^ 63)%Z ->
                                      build (VFloat x)
                                      = fail [Key (fname f)] int_parsing_size))).
Proof.
  split; [ reflexivity | ].
  split; [ exact float_of_small_int | ].
  split; [ vm_compute; reflexivity | ].
  intros py MxlimsReference c f kwargs Hc Hf Hbase build out_of_range_at_field.
  destruct (class_resolves MxlimsReference c Hc) as [He Hr].
  assert (Hbuild : forall v,
             is_ok (build v)
             = is_ok (validate py MxlimsReference v (annotation f) (info f)
                               [Key (fname f)])
             /\ errors (build v)
                = errors (validate py MxlimsReference v (annotation f) (info f)
                                   [Key (fname f)]))
    by (intros v; exact (construct_with_argument py MxlimsReference _ c kwargs f v
                           He Hr Hf Hbase)).
  assert (Hnum : forall v w x,
             validate py MxlimsReference v (annotation f) (info f) [Key (fname f)]
             = check_bounds (info f) x [Key (fname f)] w ->
             (is_ok (build v) = true <-> within (info f) x)
             /\ (is_ok (build v) = false -> out_of_range_at_field (build v))).
  { intros v w x Hv. destruct (Hbuild v) as [Hok Hes].
    destruct (number_outcome py MxlimsReference _ _ _ _ _ _ Hv) as [Hin Hout].
    rewrite Hok. split; [ exact Hin | ].
    intros Hno. destruct (Hout Hno) as [k [Hk Hkind] ].
    exists k. split; [ | exact Hkind ].
    apply err_single; [ now rewrite Hok | ]. rewrite Hes, Hk. reflexivity. }
  assert (Hfail : forall v k,
             validate py MxlimsReference v (annotation f) (info f) [Key (fname f)]
             = fail [Key (fname f)] k ->
             build v = fail [Key (fname f)] k).
  { intros v k Hv. destruct (Hbuild v) as [Hok Hes]. rewrite Hv in Hok, Hes.
    now apply err_single. }
  assert (Hint : forall n, float_fits_int64 n = true <-> (- 2 ^ 63 < n < 2 ^ 63)%Z).
  { intros n. unfold float_fits_int64. rewrite andb_true_iff, !Z.ltb_lt. tauto. }
  assert (Hfloat : forall n,
             validate py MxlimsReference (VInt n) TFloat (info f) [Key (fname f)]
             = validate py MxlimsReference (VInt n) (annotation f) (info f)
                        [Key (fname f)] ->
             (is_ok (build (VInt n)) = true
              <-> exists x, float_of_int n = Some x /\ within (info f) x)
             /\ (float_of_int n = None ->
                 build (VInt n) = fail [Key (fname f)] float_type)).
  { intros n Hv.
    remember (validate py MxlimsReference (VInt n) (annotation f) (info f)
                       [Key (fname f)]) as r eqn:Hr0.
    simpl in Hv. subst r.
    destruct (float_of_int n) as [x | ] eqn:Hx.
    - destruct (Hnum (VInt n) (VFloat x) x (eq_sym Hv)) as [Hin _]. split.
      + rewrite Hin. split.
        * intros Hw. now exists x.
        * intros [y [Hy Hw] ]. now injection Hy as <-.
      + discriminate.
    - pose proof (Hfail (VInt n) float_type (eq_sym Hv)) as Hb. split.
      + rewrite Hb. split; [ discriminate | intros [y [Hy _] ]; discriminate ].
      + intros _. exact Hb. }
  assert (Hwhole : forall x,
             validate py MxlimsReference (VFloat x) TInt (info f) [Key (fname f)]
             = validate py MxlimsReference (VFloat x) (annotation f) (info f)
                        [Key (fname f)] ->
             (is_ok (build (VFloat x)) = true
              <-> exists n, (x == inject_Z n)%Q
                            /\ (- 2 ^ 63 < n < 2 ^ 63)%Z
                            /\ within (info f) (inject_Z n))
             /\ (forall n, (x == inject_Z n)%Q ->
                           ~ (- 2 ^ 63 < n < 2 ^ 63)%Z ->
                           build (VFloat x) = fail [Key (fname f)] int_parsing_size)).
  { intros x Hv.
    remember (validate py MxlimsReference (VFloat x) (annotation f) (info f)
                       [Key (fname f)]) as r eqn:Hr0.
    simpl in Hv. subst r.
    assert (Hsame : forall n m, (x == inject_Z n)%Q -> integral x = Some m -> m = n).
    { intros n m Hn Hm. apply integral_whole in Hn. congruence. }
    destruct (integral x) as [m | ] eqn:Hx.
    - destruct (float_fits_int64 m) eqn:Hfit.
      + destruct (Hnum (VFloat x) (VInt m) (inject_Z m) (eq_sym Hv)) as [Hin _].
        split.
        * rewrite Hin. split.
          -- intros Hw. exists m. split; [ now apply integral_whole | ].
             split; [ now apply Hint | exact Hw ].
          -- intros [n [Hn [_ Hw] ] ]. now rewrite (Hsame n m Hn eq_refl).
        * intros n Hn Hout. rewrite <- (Hsame n m Hn eq_refl) in Hout.
          apply Hint in Hfit. contradiction.
      + pose proof (Hfail (VFloat x) int_parsing_size (eq_sym Hv)) as Hb. split.
        * rewrite Hb. split; [ discriminate | ].
          intros [n [Hn [Hr' _] ] ]. rewrite <- (Hsame n m Hn eq_refl) in Hr'.
          apply Hint in Hr'. congruence.
        * intros _ _ _. exact Hb.
    - pose proof (Hfail (VFloat x) int_from_float (eq_sym Hv)) as Hb. split.
      + rewrite Hb. split; [ discriminate | ].
        intros [n [Hn _] ]. apply integral_whole in Hn. congruence.
      + intros n Hn _. apply integral_whole in Hn. congruence. }
  split; intros Ht.
  - destruct (annotation f) as [ | | | | | | | | | [ | | | | | | | | | | | | | ] | | | | ] eqn:Ha;
      try discriminate Ht.
    + split; [ intros x; now apply (Hnum _ (VFloat x)) | ].
      intros n. now apply Hfloat.
    + split; [ intros x; now apply (Hnum _ (VFloat x)) | ].
      intros n. now apply Hfloat.
  - destruct (annotation f) as [ | | | | | | | | | [ | | | | | | | | | | | | | ] | | | | ] eqn:Ha;
      try discriminate Ht.
    + split; [ intros n; now apply (Hnum _ (VInt n)) | ].
      intros x. now apply Hwhole.
    + split; [ intros n; now apply (Hnum _ (VInt n)) | ].
      intros x. now apply Hwhole.
Qed.

(** [numeric_bounds_on_every_field] on [ReflectionSet.number_bins], which
    declares [gt=0]: ten bins are accepted, no bins are not. *)
Lemma numeric_bounds_on_every_field_witness :
  is_ok (construct fixed_runtime CollectionSweepRef "ReflectionSet"
                   (("number_bins", VInt 10) :: reflection_set_arguments)) = true
  /\ exists t,
       construct fixed_runtime CollectionSweepRef "ReflectionSet"
                 (("number_bins", VInt 0) :: reflection_set_arguments)
       = Err [ {| eloc := [Key "number_bins"]; etype := t |} ]
       /\ kind_of t = out_of_range.
Proof.
  assert (Hc : In ReflectionSet classes) by (simpl; tauto).
  assert (Hf : exists f, find_field "number_bins" (model_fields ReflectionSet) = Some f
                         /\ annotation f = TOptional TInt
                         /\ bound_le (info f) = None
                         /\ bound_ge (info f) = None
                         /\ bound_gt (info f) = Some 0%Q)
    by (eexists; repeat split).
  destruct Hf as [f [Hf [Ha [Hle [Hge Hgt] ] ] ] ].
  destruct (find_field_In _ _ _ Hf) as [Hin Hname].
  destruct (proj2 (proj2 (proj2 numeric_bounds_on_every_field))
                  fixed_runtime CollectionSweepRef
                  ReflectionSet f reflection_set_arguments Hc Hin eq_refl)
    as [_ Hint].
  rewrite Ha, Hname in Hint. destruct (Hint eq_refl) as [Hn _].
  split.
  - apply (proj1 (Hn 10%Z)). unfold within. rewrite Hle, Hge, Hgt.
    repeat split; intros q E; try discriminate E.
    injection E as <-. reflexivity.
  - apply (proj2 (Hn 0%Z)).
    destruct (is_ok _) eqn:Hok; [ | reflexivity ].
    apply (proj1 (Hn 0%Z)) in Hok.
    destruct Hok as [_ [_ Hpos] ]. specialize (Hpos 0%Q Hgt). discriminate Hpos.
Defined.

(** ** Enumerated fields *)

Lemma enums_resolve (e : enum_class) :
  In e enums -> find_enum (enum_name e) = Some e.
Proof.
  intros He. simpl in He.
  repeat (destruct He as [<- | He]; [ reflexivity | ]). contradiction.
Qed.

Section Dump.

Context (py : Runtime).

(** The JSON tree of an instance has, under each attribute name, the tree
    of the attribute. *)
Lemma lookup_to_json (name cls : string) (attrs : list (string * value)) :
  lookup name (object_items (to_json py (VObj cls attrs)))
  = option_map (to_json py) (lookup name attrs).
Proof.
  simpl. induction attrs as [ | [k x] rest IH ]; simpl; [ reflexivity | ].
  destruct (String.eqb name k); [ reflexivity | exact IH ].
Qed.

End Dump.

(** X5: a field annotated with an enum takes a string exactly when the
    string is the value of a member; the instance then holds that member,
    and its JSON gives the same string back.  Any other string is reported
    by one [enum] error at the field.  The Python names of the members are
    not accepted unless they are values too: not [Failed] of [JobStatus],
    neither member of [PdbxSignalType], and not six of the nine members of
    [QualityFactorType] ([R_merge] is written ["R(merge)"]). *)
Theorem enum_fields_take_member_values :
  map (fun e => (enum_name e, names_not_values e)) enums
  = [ ("JobStatus", ["Failed"]);
      ("PdbxSignalType", ["I_over_sigma"; "wCC_half"]);
      ("QualityFactorType",
       ["R_merge"; "R_meas"; "R_pim"; "I_over_SigI"; "CC_half"; "CC_ano"]);
      ("ReflectionBinningMode", []) ]
  /\ forall (py : Runtime) (MxlimsReference c : model_class) (f : field)
            (e : enum_class) (kwargs : list (string * value)),
      In c classes -> In f (model_fields c) -> In e enums ->
      annotation f = TRef (enum_name e)
      \/ annotation f = TOptional (TRef (enum_name e)) ->
      is_ok (construct py MxlimsReference (class_name c) kwargs) = true ->
      forall s,
        let built :=
          construct py MxlimsReference (class_name c)
                    ((fname f, VStr s) :: kwargs) in
        (is_ok built = true <-> In s (map snd (members e)))
        /\ (In s (map snd (members e)) ->
            exists obj,
              built = Ok obj
              /\ getattr obj (fname f) = Some (VEnum (enum_name e) s)
              /\ lookup (fname f) (object_items (model_dump_json py obj))
                 = Some (VStr s))
        /\ (~ In s (map snd (members e)) ->
            built = Err [ {| eloc := [Key (fname f)]; etype := enum |} ]
            /\ kind_of enum = invalid_enum_member).
Proof.
  split; [ reflexivity | ].
  intros py MxlimsReference c f e kwargs Hc Hf He Hann Hbase s built.
  destruct (class_resolves MxlimsReference c Hc) as [Hne Hr].
  destruct (construct_with_argument py MxlimsReference _ c kwargs f (VStr s)
              Hne Hr Hf Hbase) as [Hok Hes].
  fold built in Hok, Hes.
  assert (Hv : validate py MxlimsReference (VStr s) (annotation f) (info f)
                        [Key (fname f)]
               = if existsb (String.eqb s) (map snd (members e))
                 then Ok (VEnum (enum_name e) s)
                 else fail [Key (fname f)] enum).
  { destruct Hann as [-> | ->]; simpl; now rewrite (enums_resolve e He). }
  rewrite Hv in Hok, Hes.
  destruct (existsb (String.eqb s) (map snd (members e))) eqn:Hs.
  - apply existsb_In in Hs. split; [ | split ].
    + rewrite Hok. simpl. tauto.
    + intros _. destruct built as [obj | ] eqn:Hb; [ | discriminate Hok ].
      exists obj. split; [ reflexivity | ].
      destruct (construct_attribute py MxlimsReference c _ obj f Hc Hf Hb)
        as [w [Hw Hget] ].
      rewrite field_outcome_this, Hv in Hw. injection Hw as <-.
      split; [ exact Hget | ].
      destruct obj as [ | | | | | | | | | | | cls attrs ]; try discriminate Hget.
      unfold model_dump_json. rewrite lookup_to_json.
      simpl in Hget. now rewrite Hget.
    + intros Hno. contradiction.
  - assert (Hno : ~ In s (map snd (members e)))
      by (intros Hin; apply existsb_In in Hin; congruence).
    split; [ | split ].
    + rewrite Hok. simpl. split; [ discriminate | intros Hin; contradiction ].
    + intros Hin. contradiction.
    + intros _. split; [ | reflexivity ]. now apply err_single.
Qed.

(** [enum_fields_take_member_values] on [QualityFactor.type]: the value
    ["R(merge)"] is taken, the name ["R_merge"] is not. *)
Lemma enum_fields_take_member_values_witness :
  is_ok (construct fixed_runtime CollectionSweepRef "QualityFactor"
                   [ ("type", VStr "R(merge)");
                     ("type", VStr "SigAno"); ("value", VFloat 0.05) ]) = true
  /\ construct fixed_runtime CollectionSweepRef "QualityFactor"
               [ ("type", VStr "R_merge");
                 ("type", VStr "SigAno"); ("value", VFloat 0.05) ]
     = Err [ {| eloc := [Key "type"]; etype := enum |} ].
Proof.
  assert (Hc : In QualityFactor classes) by (simpl; tauto).
  assert (He : In QualityFactorType enums) by (simpl; tauto).
  assert (Hf : exists f, find_field "type" (model_fields QualityFactor) = Some f
                         /\ annotation f = TRef (enum_name QualityFactorType))
    by (eexists; repeat split).
  destruct Hf as [f [Hf Ha] ].
  destruct (find_field_In _ _ _ Hf) as [Hin Hname].
  pose proof (proj2 enum_fields_take_member_values fixed_runtime CollectionSweepRef
                    QualityFactor f QualityFactorType
                    [ ("type", VStr "SigAno"); ("value", VFloat 0.05) ]
                    Hc Hin He (or_introl Ha) eq_refl) as H.
  rewrite Hname in H. split.
  - apply (proj1 (H "R(merge)")). simpl. tauto.
  - apply (proj2 (proj2 (H "R_merge"))). simpl. intuition discriminate.
Defined.

(** ** Tuple fields *)

Lemma missing_items_seq (at_ : loc) (k : nat) (ts : list ftype) :
  missing_items at_ k ts
  = map (fun j => {| eloc := at_ ++ [Idx j]; etype := missing |})
        (seq k (length ts)).
Proof.
  revert k. induction ts as [ | t ts IH ]; intros k; simpl; [ reflexivity | ].
  now rewrite IH.
Qed.

Section TupleFields.

Context (py : Runtime) (MxlimsReference : model_class).

Lemma accepted_ok v t i at_ :
  accepts py MxlimsReference v t i ->
  exists w, validate py MxlimsReference v t i at_ = Ok w.
Proof.
  intros H. apply is_ok_true. now apply (validate_accepts py MxlimsReference v).
Qed.

(** More items than positions: the one error is [too_long], at the
    tuple, whatever the items are. *)
Lemma positions_too_long (items : list validator) ts at_ k :
  (length ts < length items)%nat ->
  validate_positions items ts at_ k = fail at_ too_long.
Proof.
  destruct items as [ | validate_it rest ]; destruct ts as [ | t ts' ]; simpl;
    intros Hlen; try lia; [ reflexivity | ].
  destruct (Nat.ltb_spec (length ts') (length rest)); [ reflexivity | lia ].
Qed.

(** Fewer items than positions: one [missing] error for each position
    that has no item. *)
Lemma positions_too_short vs ts rest at_ k :
  Forall2 (fun v t => accepts py MxlimsReference v t (Field [])) vs ts ->
  rest <> [] ->
  validate_positions (map (validate py MxlimsReference) vs) (ts ++ rest) at_ k
  = Err (missing_items at_ (k + length vs) rest).
Proof.
  intros Hall Hrest. revert k. induction Hall as [ | v t vs ts Hv Hrest' IH ]; intros k.
  - simpl. rewrite Nat.add_0_r. destruct rest; [ congruence | reflexivity ].
  - simpl.
    destruct (Nat.ltb_spec (length (ts ++ rest))
                           (length (map (validate py MxlimsReference) vs)))
      as [Hlong | _].
    + apply Forall2_length in Hrest'. rewrite length_app, length_map in Hlong. lia.
    + rewrite IH.
      destruct (accepted_ok v t (Field []) (at_ ++ [Idx k]) Hv) as [w ->].
      simpl. now rewrite Nat.add_succ_r.
Qed.

End TupleFields.

(** X6: a field annotated with a tuple takes an array exactly when the
    array has one item for each position of the tuple and each item is one
    its position admits (a numeral or a whole float where an int is
    expected, and so on); so an accepted array has the length of the
    tuple.  An array that goes on after the last position is reported by
    one [too_long] error at the field and by nothing else, whatever its
    items are; one whose items are right but that stops early, by one
    [missing] error for each position left without an item, at the index
    of that position. *)
Theorem tuple_fields_take_their_arity :
  forall (py : Runtime) (MxlimsReference c : model_class) (f : field)
         (ts : list ftype) (kwargs : list (string * value)),
    In c classes -> In f (model_fields c) ->
    annotation f = TTuple ts \/ annotation f = TOptional (TTuple ts) ->
    is_ok (construct py MxlimsReference (class_name c) kwargs) = true ->
    let build v :=
      construct py MxlimsReference (class_name c) ((fname f, v) :: kwargs) in
    let accepted v t := accepts py MxlimsReference v t (Field []) in
    (forall vs, is_ok (build (VList vs)) = true <-> Forall2 accepted vs ts)
    /\ (forall vs, is_ok (build (VList vs)) = true -> length vs = length ts)
    /\ (forall vs,
           (length ts < length vs)%nat ->
           build (VList vs)
           = Err [ {| eloc := [Key (fname f)]; etype := too_long |} ])
    /\ (forall vs,
           Forall2 accepted vs (firstn (length vs) ts) ->
           (length vs < length ts)%nat ->
           build (VList vs)
           = Err (map (fun j => {| eloc := [Key (fname f); Idx j];
                                   etype := missing |})
                      (seq (length vs) (length ts - length vs)))).
Proof.
  intros py MxlimsReference c f ts kwargs Hc Hf Hann Hbase build accepted.
  destruct (class_resolves MxlimsReference c Hc) as [Hne Hr].
  assert (Hbuild : forall vs,
             is_ok (build (VList vs))
             = is_ok (validate_positions (map (validate py MxlimsReference) vs) ts
                                         [Key (fname f)] 0)
             /\ errors (build (VList vs))
                = errors (validate_positions (map (validate py MxlimsReference) vs) ts
                                             [Key (fname f)] 0)).
  { intros vs.
    destruct (construct_with_argument py MxlimsReference _ c kwargs f (VList vs)
                Hne Hr Hf Hbase) as [Hok Hes].
    fold (build (VList vs)) in Hok, Hes.
    assert (Hv : validate py MxlimsReference (VList vs) (annotation f) (info f)
                          [Key (fname f)]
                 = map_result VTuple
                     (validate_positions (map (validate py MxlimsReference) vs) ts
                                         [Key (fname f)] 0))
      by (destruct Hann as [-> | ->]; reflexivity).
    rewrite Hv, map_result_ok in Hok. rewrite Hv, map_result_errors in Hes.
    now split. }
  assert (Hacc : forall vs, is_ok (build (VList vs)) = true <-> Forall2 accepted vs ts).
  { intros vs. rewrite (proj1 (Hbuild vs)). apply positions_accept.
    apply Forall_forall. intros v _. apply validate_accepts. }
  assert (Herr : forall vs es,
             validate_positions (map (validate py MxlimsReference) vs) ts
                                [Key (fname f)] 0 = Err es ->
             build (VList vs) = Err es).
  { intros vs es Hv. destruct (Hbuild vs) as [Hok Hes]. rewrite Hv in Hok, Hes.
    destruct (build (VList vs)); [ discriminate | simpl in Hes; congruence ]. }
  split; [ exact Hacc | ]. split; [ | split ].
  - intros vs Hok. apply Hacc in Hok. exact (Forall2_length Hok).
  - intros vs Hlong. apply Herr.
    apply positions_too_long. now rewrite length_map.
  - intros vs Hall Hlen. apply Herr.
    rewrite <- (firstn_skipn (length vs) ts) at 1.
    rewrite (positions_too_short py MxlimsReference vs _ _ _ 0 Hall).
    + rewrite missing_items_seq, length_skipn. reflexivity.
    + intros E. apply (f_equal (@length ftype)) in E.
      rewrite length_skipn in E. simpl in E. lia.
Qed.

(** [tuple_fields_take_their_arity] on [ReflectionSet.h_index_range],
    annotated [Tuple[int, int]]: a range of three items is too long,
    whatever they are, and a range of one misses its second. *)
Lemma tuple_fields_take_their_arity_witness :
  construct fixed_runtime CollectionSweepRef "ReflectionSet"
            (("h_index_range", VList [VInt (-40); VStr "forty"; VNone])
               :: reflection_set_arguments)
  = Err [ {| eloc := [Key "h_index_range"]; etype := too_long |} ]
  /\ construct fixed_runtime CollectionSweepRef "ReflectionSet"
               (("h_index_range", VList [VInt (-40)]) :: reflection_set_arguments)
     = Err [ {| eloc := [Key "h_index_range"; Idx 1]; etype := missing |} ].
Proof.
  assert (Hc : In ReflectionSet classes) by (simpl; tauto).
  assert (Hf : exists f, find_field "h_index_range" (model_fields ReflectionSet) = Some f
                         /\ annotation f = TTuple [TInt; TInt])
    by (eexists; repeat split).
  destruct Hf as [f [Hf Ha] ].
  destruct (find_field_In _ _ _ Hf) as [Hin Hname].
  pose proof (tuple_fields_take_their_arity fixed_runtime CollectionSweepRef
                ReflectionSet f [TInt; TInt] reflection_set_arguments
                Hc Hin (or_introl Ha) eq_refl) as H.
  rewrite Hname in H. cbv zeta in H. destruct H as [_ [_ [Hlong Hshort] ] ].
  assert (Hint : forall n, accepts fixed_runtime CollectionSweepRef (VInt n) TInt (Field [])).
  { intros n. apply accepts_int. repeat split; intros q E; discriminate E. }
  split.
  - apply Hlong. simpl. lia.
  - apply (Hshort [VInt (-40)%Z]); [ | simpl; lia ].
    apply Forall2_cons; [ apply Hint | apply Forall2_nil ].
Defined.

(** ** The export loop on a directory that is not empty *)

Lemma assign_bound {A : Type} (k : string) (a : A) (kvs : list (string * A)) :
  lookup k kvs = Some a -> assign k a kvs = kvs.
Proof.
  induction kvs as [ | [k' a'] rest IH ]; simpl; [ discriminate | ].
  destruct (String.eqb_spec k k') as [-> | Hne].
  - intros H. now injection H as ->.
  - intros H. now rewrite IH.
Qed.

Lemma assign_keys {A : Type} (k : string) (a : A) (kvs : list (string * A)) :
  map fst (assign k a kvs)
  = if existsb (String.eqb k) (map fst kvs) then map fst kvs
    else map fst kvs ++ [k].
Proof.
  induction kvs as [ | [k' a'] rest IH ]; simpl; [ reflexivity | ].
  destruct (String.eqb k k'); simpl; [ reflexivity | ].
  rewrite IH. now destruct (existsb (String.eqb k) (map fst rest)).
Qed.

Section ExportRuns.

Variable introspect : model_class -> result value.

Lemma export_written (types : list model_class) (fs : files) :
  (forall c, In c types -> is_ok (introspect c) = true) ->
  export introspect types fs = (Ok tt, written introspect types fs).
Proof.
  revert fs. induction types as [ | c types IH ]; intros fs Hall; [ reflexivity | ].
  simpl. unfold written. simpl. unfold document_of at 2.
  pose proof (Hall c (or_introl eq_refl)) as Hc.
  destruct (introspect c); [ | discriminate ].
  apply IH. intros c' Hc'. apply Hall. now right.
Qed.

Lemma written_other (types : list model_class) (fs : files) (path : string) :
  ~ In path (map schema_file types) ->
  lookup path (written introspect types fs) = lookup path fs.
Proof.
  revert fs. induction types as [ | c types IH ]; intros fs Hno; [ reflexivity | ].
  unfold written. simpl. fold (written introspect types (assign (schema_file c) (document_of introspect c) fs)).
  rewrite IH by (intros Hin; apply Hno; now right).
  apply lookup_assign_other. intros E. apply Hno. now left.
Qed.

Lemma written_this (types : list model_class) (fs : files) (c : model_class) :
  NoDup (map schema_file types) -> In c types ->
  lookup (schema_file c) (written introspect types fs) = Some (document_of introspect c).
Proof.
  revert fs. induction types as [ | c' types IH ]; intros fs Hnd Hin; [ contradiction | ].
  inversion Hnd as [ | ? ? Hnotin Hrest ]; subst.
  unfold written. simpl. fold (written introspect types (assign (schema_file c') (document_of introspect c') fs)).
  destruct Hin as [-> | Hin].
  - rewrite written_other by exact Hnotin. apply lookup_assign.
  - now apply IH.
Qed.

Lemma written_again (types : list model_class) (fs : files) :
  (forall c, In c types -> lookup (schema_file c) fs = Some (document_of introspect c)) ->
  written introspect types fs = fs.
Proof.
  induction types as [ | c types IH ]; intros Hall; [ reflexivity | ].
  unfold written. simpl. rewrite assign_bound by (apply Hall; now left).
  apply IH. intros c' Hc'. apply Hall. now right.
Qed.

Lemma written_keeps (types : list model_class) (fs : files) :
  exists new, map fst (written introspect types fs) = map fst fs ++ new.
Proof.
  revert fs. induction types as [ | c types IH ]; intros fs.
  - exists []. now rewrite app_nil_r.
  - unfold written. simpl.
    destruct (IH (assign (schema_file c) (document_of introspect c) fs)) as [new Hnew].
    unfold written in Hnew. rewrite Hnew, assign_keys.
    destruct (existsb _ _); [ now exists new | ].
    exists (schema_file c :: new). now rewrite <- app_assoc.
Qed.

End ExportRuns.

(** X7: the export loop by itself (a run of the script does not reach
    it), over types that can be introspected and whose files have
    different names, in a directory that already holds files.  The loop
    ends normally; each file then holds the schema of its class, whatever
    a file of that name held before; every other file is as it was, and no
    file has gone or changed place; and a second pass leaves the directory
    exactly as the first left it.  The six exported types have different
    file names. *)
Theorem export_overwrites_and_keeps :
  NoDup (map schema_file exported_types)
  /\ forall (introspect : model_class -> result value)
            (types : list model_class) (fs : files),
      NoDup (map schema_file types) ->
      (forall c, In c types -> is_ok (introspect c) = true) ->
      exists fs',
        export introspect types fs = (Ok tt, fs')
        /\ (forall c, In c types ->
              exists doc,
                introspect c = Ok doc /\ lookup (schema_file c) fs' = Some doc)
        /\ (forall path, ~ In path (map schema_file types) ->
                         lookup path fs' = lookup path fs)
        /\ (exists new, map fst fs' = map fst fs ++ new)
        /\ export introspect types fs' = (Ok tt, fs').
Proof.
  split; [ repeat constructor; simpl; intuition discriminate | ].
  intros introspect types fs Hnd Hok.
  assert (Hthis : forall c fs0, In c types ->
             lookup (schema_file c) (written introspect types fs0)
             = Some (document_of introspect c))
    by (intros c fs0 Hc; now apply written_this).
  exists (written introspect types fs).
  split; [ | split; [ | split; [ | split ] ] ].
  - now apply export_written.
  - intros c Hc. exists (document_of introspect c). split; [ | now apply Hthis ].
    specialize (Hok c Hc). unfold document_of.
    now destruct (introspect c).
  - intros path Hpath. now apply written_other.
  - apply written_keeps.
  - rewrite export_written by exact Hok.
    f_equal. apply written_again. intros c Hc. now apply Hthis.
Qed.

(** [export_overwrites_and_keeps] on the six exported types, with
    [CollectionSweepRef] for the reference class, in a directory that
    holds a file of notes and a stale schema of [MXSample]: the notes
    stay, and the stale schema is replaced. *)
Lemma export_overwrites_and_keeps_witness :
  let introspect := model_json_schema fixed_runtime CollectionSweepRef in
  let fs := [ ("notes.txt", VStr "keep"); ("MXSample_schema.json", VNone) ] in
  exists fs',
    export introspect exported_types fs = (Ok tt, fs')
    /\ lookup "notes.txt" fs' = Some (VStr "keep")
    /\ (exists doc, introspect MXSample = Ok doc
                    /\ lookup "MXSample_schema.json" fs' = Some doc)
    /\ export introspect exported_types fs' = (Ok tt, fs').
Proof.
  intros introspect fs.
  destruct (proj2 export_overwrites_and_keeps introspect exported_types fs)
    as [fs' [Hrun [Hdocs [Hother [_ Hagain] ] ] ] ].
  - exact (proj1 export_overwrites_and_keeps).
  - intros c Hc. simpl in Hc.
    repeat (destruct Hc as [<- | Hc]; [ vm_compute; reflexivity | ]).
    contradiction.
  - exists fs'. split; [ exact Hrun | ]. split; [ | split ].
    + rewrite (Hother "notes.txt"); [ reflexivity | ].
      simpl. intuition discriminate.
    + apply (Hdocs MXSample). simpl. tauto.
    + exact Hagain.
Defined.

(** ** Entities that their own JSON restores *)

Section Dumps.

Context (py : Runtime).

Lemma to_json_list vs : to_json py (VList vs) = VList (map (to_json py) vs).
Proof. reflexivity. Qed.

Lemma to_json_tuple vs : to_json py (VTuple vs) = VList (map (to_json py) vs).
Proof. reflexivity. Qed.

Lemma to_json_dict kvs :
  to_json py (VDict kvs)
  = VDict (map (fun kv => (fst kv, to_json py (snd kv))) kvs).
Proof. simpl. f_equal. induction kvs as [ | [k v] kvs IH ]; simpl; congruence. Qed.

Lemma to_json_obj cls kvs :
  to_json py (VObj cls kvs)
  = VDict (map (fun kv => (fst kv, to_json py (snd kv))) kvs).
Proof. simpl. f_equal. induction kvs as [ | [k v] kvs IH ]; simpl; congruence. Qed.

Lemma lookup_json k (kvs : list (string * value)) :
  lookup k (map (fun kv => (fst kv, to_json py (snd kv))) kvs)
  = option_map (to_json py) (lookup k kvs).
Proof.
  induction kvs as [ | [k' v] kvs IH ]; simpl; [ reflexivity | ].
  destruct (String.eqb k k'); [ reflexivity | exact IH ].
Qed.

(** The JSON tree of a JSON document is the document. *)
Lemma to_json_json v : is_json v = true -> to_json py v = v.
Proof.
  induction v as [ | b | n | x | s | vs IHvs | vs IHvs | kvs IHkvs | e s | u | d | c kvs IHkvs ]
    using value_ind'; intros Hj; try reflexivity; try discriminate Hj.
  - rewrite to_json_list. f_equal. simpl in Hj. rewrite forallb_forall in Hj.
    rewrite Forall_forall in IHvs. rewrite <- (map_id vs) at 2.
    apply map_ext_in. intros v Hv. apply IHvs; auto.
  - rewrite to_json_dict. f_equal. simpl in Hj. rewrite forallb_forall in Hj.
    rewrite Forall_forall in IHkvs. rewrite <- (map_id kvs) at 2.
    apply map_ext_in. intros [k v] Hkv. simpl. f_equal.
    apply (IHkvs (k, v) Hkv). exact (Hj (k, v) Hkv).
Qed.

(** What is dumped is a JSON document. *)
Lemma to_json_is_json v : is_json (to_json py v) = true.
Proof.
  induction v as [ | b | n | x | s | vs IHvs | vs IHvs | kvs IHkvs | e s | u | d | c kvs IHkvs ]
    using value_ind'; try reflexivity.
  - rewrite to_json_list. simpl. rewrite forallb_forall. intros w Hw.
    apply in_map_iff in Hw. destruct Hw as [v [<- Hv] ].
    rewrite Forall_forall in IHvs. auto.
  - rewrite to_json_tuple. simpl. rewrite forallb_forall. intros w Hw.
    apply in_map_iff in Hw. destruct Hw as [v [<- Hv] ].
    rewrite Forall_forall in IHvs. auto.
  - rewrite to_json_dict. simpl. rewrite forallb_forall. intros w Hw.
    apply in_map_iff in Hw. destruct Hw as [kv [<- Hkv] ].
    rewrite Forall_forall in IHkvs. simpl. auto.
  - rewrite to_json_obj. simpl. rewrite forallb_forall. intros w Hw.
    apply in_map_iff in Hw. destruct Hw as [kv [<- Hkv] ].
    rewrite Forall_forall in IHkvs. simpl. auto.
Qed.

End Dumps.

Lemma check_bounds_again i x at_ at' u w :
  check_bounds i x at_ u = Ok w -> w = u /\ check_bounds i x at' u = Ok u.
Proof.
  unfold check_bounds. destruct (bound_violation i x); [ discriminate | ].
  intros H. injection H as <-. auto.
Qed.

Lemma restorable_by_name (c : model_class) :
  In c classes ->
  existsb (String.eqb (class_name c)) not_restorable = false ->
  restorable c = true.
Proof.
  intros Hc Hno. destruct (restorable c) eqn:E; [ reflexivity | ].
  assert (Hin : In (class_name c) not_restorable).
  { unfold not_restorable. apply in_map, filter_In.
    split; [ exact Hc | now rewrite E ]. }
  apply existsb_In in Hin. congruence.
Qed.

Section Restores.

Context (py : Runtime) (MxlimsReference : model_class).

Hypothesis Hprints : prints_parse_back py.
Hypothesis Hreference : restorable MxlimsReference = true.

Lemma items_again vs :
  Forall (restores py MxlimsReference) vs ->
  forall t i at_ k ws,
    unions_tagged t i = true ->
    validate_items (map (validate py MxlimsReference) vs) t i at_ k = Ok ws ->
    forallb (holds_no not_restorable) ws = true ->
    forall at' k',
      validate_items (map (validate py MxlimsReference) (map (to_json py) ws))
                     t i at' k' = Ok ws.
Proof.
  induction 1 as [ | v vs Hv _ IH ]; intros t i at_ k ws Hu Hval Hno at' k';
    simpl in Hval.
  - injection Hval as <-. reflexivity.
  - destruct (validate py MxlimsReference v t i (at_ ++ [Idx k])) as [w | ] eqn:Hw;
      destruct (validate_items _ t i at_ (S k)) as [rest | ] eqn:Hrest;
      simpl in Hval; try discriminate Hval.
    injection Hval as <-. simpl in Hno. apply andb_true_iff in Hno.
    destruct Hno as [Hno1 Hno2]. simpl.
    rewrite (Hv t i _ w Hu Hw Hno1 (at' ++ [Idx k'])).
    now rewrite (IH t i at_ (S k) rest Hu Hrest Hno2 at' (S k')).
Qed.

Lemma entries_again kvs :
  Forall (fun kv => restores py MxlimsReference (snd kv)) kvs ->
  forall t at_ ys,
    unions_tagged t (Field []) = true ->
    validate_entries (entries_of py MxlimsReference kvs) t at_ = Ok ys ->
    forallb (fun kv => holds_no not_restorable (snd kv)) ys = true ->
    forall at',
      validate_entries
        (entries_of py MxlimsReference
                    (map (fun kv => (fst kv, to_json py (snd kv))) ys)) t at'
      = Ok ys.
Proof.
  induction 1 as [ | [k v] kvs Hv _ IH ]; intros t at_ ys Hu Hval Hno at';
    simpl in Hval.
  - injection Hval as <-. reflexivity.
  - destruct (validate py MxlimsReference v t (Field []) (at_ ++ [Key k])) as [w | ] eqn:Hw;
      destruct (validate_entries _ t at_) as [rest | ] eqn:Hrest;
      simpl in Hval; try discriminate Hval.
    injection Hval as <-. simpl in Hno. apply andb_true_iff in Hno.
    destruct Hno as [Hno1 Hno2]. simpl in Hv. simpl.
    rewrite (Hv t (Field []) _ w Hu Hw Hno1 (at' ++ [Key k])).
    fold (entries_of py MxlimsReference
                     (map (fun kv => (fst kv, to_json py (snd kv))) rest)).
    now rewrite (IH t at_ rest Hu Hrest Hno2 at').
Qed.

Lemma positions_ok_length (items : list validator) ts at_ k ws :
  validate_positions items ts at_ k = Ok ws -> length ws = length ts.
Proof.
  revert ts k ws.
  induction items as [ | validate_it rest IH ]; intros [ | t ts ] k ws; simpl;
    try discriminate.
  - intros H. now injection H as <-.
  - destruct (length ts <? length rest)%nat; [ discriminate | ].
    destruct (validate_it t (Field []) (at_ ++ [Idx k])) as [w | ];
      destruct (validate_positions rest ts at_ (S k)) as [ws' | ] eqn:Hrest;
      simpl; try discriminate.
    intros H. injection H as <-. simpl. now rewrite (IH ts (S k) ws' Hrest).
Qed.

Lemma positions_again vs :
  Forall (restores py MxlimsReference) vs ->
  forall ts at_ k ws,
    forallb (fun t => unions_tagged t (Field [])) ts = true ->
    validate_positions (map (validate py MxlimsReference) vs) ts at_ k = Ok ws ->
    forallb (holds_no not_restorable) ws = true ->
    forall at' k',
      validate_positions (map (validate py MxlimsReference) (map (to_json py) ws))
                         ts at' k' = Ok ws.
Proof.
  induction 1 as [ | v vs Hv _ IH ]; intros [ | t ts ] at_ k ws Hu Hval Hno at' k';
    simpl in Hval; try discriminate Hval.
  - injection Hval as <-. reflexivity.
  - destruct (length ts <? length (map (validate py MxlimsReference) vs))%nat;
      [ discriminate Hval | ].
    destruct (validate py MxlimsReference v t (Field []) (at_ ++ [Idx k])) as [w | ] eqn:Hw;
      destruct (validate_positions _ ts at_ (S k)) as [rest | ] eqn:Hrest;
      simpl in Hval; try discriminate Hval.
    injection Hval as <-. simpl in Hno, Hu.
    apply andb_true_iff in Hno. destruct Hno as [Hno1 Hno2].
    apply andb_true_iff in Hu. destruct Hu as [Hu1 Hu2]. simpl.
    rewrite !length_map, (positions_ok_length _ _ _ _ _ Hrest), Nat.ltb_irrefl.
    rewrite (Hv t (Field []) _ w Hu1 Hw Hno1 (at' ++ [Idx k'])).
    now rewrite (IH ts at_ (S k) rest Hu2 Hrest Hno2 at' (S k')).
Qed.

(** The fields of a model over other entries that give each field the
    same outcome. *)
Lemma fields_again entries entries' at_ at' fs attrs :
  validate_fields py entries at_ fs = Ok attrs ->
  (forall f w, In f fs -> validate_field py entries at_ f = Ok w ->
               validate_field py entries' at' f = Ok w) ->
  validate_fields py entries' at' fs = Ok attrs.
Proof.
  revert attrs. induction fs as [ | f fs IH ]; intros attrs Hval Hall; simpl in *.
  - exact Hval.
  - destruct (validate_field py entries at_ f) as [w | ] eqn:Hw;
      destruct (validate_fields py entries at_ fs) as [rest | ] eqn:Hrest;
      simpl in Hval; try discriminate Hval.
    injection Hval as <-.
    rewrite (Hall f w (or_introl eq_refl) Hw).
    rewrite (IH rest eq_refl); [ reflexivity | ].
    intros g x Hg. apply Hall. now right.
Qed.

(** A default that fits is restored from its JSON. *)
Lemma default_restored f at_ at' w :
  default_fits f = true ->
  match the_default (info f) with
  | PydanticUndefined => False
  | Default v => w = v
  | DefaultFactory g => w = call_factory py g at_
  end ->
  validate py MxlimsReference (to_json py w) (annotation f) (info f) at' = Ok w.
Proof.
  unfold default_fits.
  destruct (the_default (info f)) as [ | [ | b | | | | | | | | | | ] | [ | | ] ];
    destruct (annotation f); try discriminate; intros _ Hw;
    try contradiction; subst w; reflexivity.
Qed.

(** The member of a discriminated union that the tag selects. *)
Lemma pick_chosen (validate_as : validator) d tag at_ ms w :
  pick MxlimsReference validate_as d tag at_ ms = Ok w ->
  exists m,
    In m ms /\ has_tag MxlimsReference d m tag = true
    /\ validate_as m (Field []) (at_ ++ [Key (tag_label tag)]) = Ok w
    /\ forall (other : validator) at',
         pick MxlimsReference other d tag at' ms
         = other m (Field []) (at' ++ [Key (tag_label tag)]).
Proof.
  induction ms as [ | m ms IH ]; simpl; [ discriminate | ].
  destruct (has_tag MxlimsReference d m tag) eqn:Htag.
  - intros Hw. exists m. repeat split; auto.
  - intros Hw. destruct (IH Hw) as [m' [Hin [Ht [Hv Hpick] ] ] ].
    exists m'. repeat split; auto.
Qed.

(** The class a name resolves to is restorable when the instance it
    builds is not one of the classes set apart. *)
Lemma found_restorable name c :
  find_class MxlimsReference name = Some c ->
  existsb (String.eqb (class_name c)) not_restorable = false ->
  restorable c = true.
Proof.
  unfold find_class. destruct (String.eqb name "MxlimsReference").
  - intros H. injection H as <-. intros _. exact Hreference.
  - intros H. apply find_some in H. destruct H as [Hin _].
    now apply restorable_by_name.
Qed.

Lemma restorable_field c f :
  restorable c = true -> In f (model_fields c) ->
  default_fits f = true /\ unions_tagged (annotation f) (info f) = true.
Proof.
  unfold restorable. rewrite forallb_forall. intros Hall Hf.
  apply andb_true_iff. now apply Hall.
Qed.

(** The model case: the instance built from a dict is built again from
    its JSON. *)
Lemma model_again kvs name i at_ w :
  Forall (fun kv => restores py MxlimsReference (snd kv)) kvs ->
  validate py MxlimsReference (VDict kvs) (TRef name) i at_ = Ok w ->
  holds_no not_restorable w = true ->
  forall at', validate py MxlimsReference (to_json py w) (TRef name) i at' = Ok w.
Proof.
  intros Hkvs Hval Hno at'.
  destruct (find_enum name) as [e | ] eqn:He.
  { simpl in Hval. rewrite He in Hval. discriminate Hval. }
  destruct (find_class MxlimsReference name) as [c | ] eqn:Hc.
  2:{ simpl in Hval. rewrite He, Hc in Hval. discriminate Hval. }
  rewrite (validate_model py MxlimsReference kvs name c i at_ He Hc) in Hval.
  destruct (validate_fields py (entries_of py MxlimsReference kvs) at_ (model_fields c))
    as [attrs | ] eqn:Hattrs; [ | discriminate Hval ].
  simpl in Hval. injection Hval as <-.
  simpl in Hno. apply andb_true_iff in Hno. destruct Hno as [Hcls Hno].
  apply negb_true_iff in Hcls.
  pose proof (found_restorable name c Hc Hcls) as Hrest.
  rewrite to_json_obj.
  rewrite (validate_model py MxlimsReference _ name c i at' He Hc).
  rewrite (fields_again _ _ at_ at' _ attrs Hattrs); [ reflexivity | ].
  intros f x Hf Hx.
  destruct (restorable_field c f Hrest Hf) as [Hfits Htagged].
  destruct (validate_fields_attrs py _ _ _ _ _ _ Hattrs (In_find_field c f Hf))
    as [x' [Hx' Hl] ].
  rewrite Hx in Hx'. injection Hx' as Hxx. subst x'.
  unfold validate_field. rewrite lookup_entries_of, lookup_json, Hl. simpl.
  assert (Hnox : holds_no not_restorable x = true).
  { rewrite forallb_forall in Hno.
    apply (lookup_Forall (fun y => holds_no not_restorable y = true)
                         (fname f) attrs x); [ | exact Hl ].
    apply Forall_forall. exact Hno. }
  unfold validate_field in Hx. rewrite lookup_entries_of in Hx.
  destruct (lookup (fname f) kvs) as [v | ] eqn:Hv; simpl in Hx.
  - pose proof (lookup_Forall (restores py MxlimsReference) _ _ _ Hkvs Hv) as Hres.
    exact (Hres _ _ _ _ Htagged Hx Hnox _).
  - apply (default_restored f at_); [ exact Hfits | ].
    destruct (the_default (info f)); [ discriminate Hx | | ];
      now injection Hx as <-.
Qed.

(** The union case: the tag of the payload is the tag of the instance, so
    the JSON of the instance selects the same member. *)
Lemma union_again kvs ms i at_ w :
  Forall (fun kv => restores py MxlimsReference (snd kv)) kvs ->
  unions_tagged (TUnion ms) i = true ->
  validate py MxlimsReference (VDict kvs) (TUnion ms) i at_ = Ok w ->
  holds_no not_restorable w = true ->
  forall at', validate py MxlimsReference (to_json py w) (TUnion ms) i at' = Ok w.
Proof.
  intros Hkvs Hu Hval Hno at'.
  rewrite validate_union in Hval. rewrite validate_union.
  simpl in Hu. destruct (the_discriminator i) as [d | ]; [ | discriminate Hu ].
  unfold read_tag in Hval.
  destruct (lookup d kvs) as [tag | ] eqn:Htag; [ | discriminate Hval ].
  destruct (pick_chosen _ _ _ _ _ _ Hval) as [m [Hin [Ht [Hv Hpick] ] ] ].
  rewrite forallb_forall in Hu. specialize (Hu m Hin).
  destruct m as [ | | | | | | | | cn | | | | | ]; try discriminate Hu.
  pose proof (model_again kvs cn _ _ w Hkvs Hv Hno) as Hagain.
  assert (Hsame : read_tag d (to_json py w) = Some tag).
  { destruct (find_enum cn) as [e | ] eqn:He.
    { simpl in Hv. rewrite He in Hv. discriminate Hv. }
    destruct (find_class MxlimsReference cn) as [c | ] eqn:Hc.
    2:{ simpl in Hv. rewrite He, Hc in Hv. discriminate Hv. }
    rewrite (validate_model py MxlimsReference kvs cn c _ _ He Hc) in Hv.
    destruct (validate_fields py (entries_of py MxlimsReference kvs) _ (model_fields c))
      as [attrs | ] eqn:Hattrs; [ | discriminate Hv ].
    simpl in Hv. injection Hv as <-.
    unfold has_tag, member_tags in Ht. rewrite Hc in Ht.
    destruct tag as [ | | | | s | | | | | | | ]; try discriminate Ht.
    destruct (find_field d (model_fields c)) as [fd | ] eqn:Hfd; [ | discriminate Ht ].
    destruct (annotation fd) as [ | | | | | | | lit | | | | | | ] eqn:Hann;
      try discriminate Ht.
    simpl in Ht. rewrite orb_false_r in Ht.
    destruct (validate_fields_attrs py _ _ _ _ _ _ Hattrs Hfd) as [x [Hx Hl] ].
    destruct (find_field_In _ _ _ Hfd) as [_ Hname].
    unfold validate_field in Hx.
    rewrite lookup_entries_of, Hname, Htag, Hann in Hx. simpl in Hx.
    rewrite Ht in Hx. injection Hx as <-.
    apply String.eqb_eq in Ht. subst s.
    rewrite to_json_obj. simpl. now rewrite lookup_json, Hl. }
  rewrite Hsame, Hpick. apply Hagain.
Qed.

Lemma optional_again w t i :
  (forall at', validate py MxlimsReference (to_json py w) t i at' = Ok w) ->
  forall at', validate py MxlimsReference (to_json py w) (TOptional t) i at' = Ok w.
Proof.
  intros H at'. rewrite validate_optional. specialize (H at').
  destruct w; try exact H. reflexivity.
Qed.

Lemma validate_any v i at_ : validate py MxlimsReference v TAny i at_ = Ok v.
Proof. destruct v; reflexivity. Qed.

Lemma json_items vs (P : value -> Prop) :
  Forall (fun v => is_json v = true -> P v) vs ->
  forallb is_json vs = true -> Forall P vs.
Proof.
  intros Hall Hj. rewrite forallb_forall in Hj. rewrite Forall_forall in *.
  intros v Hv. apply Hall; auto.
Qed.

Lemma json_entries (kvs : list (string * value)) (P : value -> Prop) :
  Forall (fun kv => is_json (snd kv) = true -> P (snd kv)) kvs ->
  forallb (fun kv => is_json (snd kv)) kvs = true ->
  Forall (fun kv => P (snd kv)) kvs.
Proof.
  intros Hall Hj. rewrite forallb_forall in Hj. rewrite Forall_forall in *.
  intros kv Hkv. apply Hall; auto.
Qed.

Ltac number_again H at' :=
  let E := fresh in
  destruct (check_bounds_again _ _ _ at' _ _ H) as [-> E]; exact E.

(** A scalar that was accepted: what it became is accepted again from its
    JSON. *)
Ltac scalar_again H at' :=
  repeat match type of H with
         | context [ match ?x with _ => _ end ] =>
             let E := fresh "E" in destruct x eqn:E; try discriminate H
         end;
  first
    [ number_again H at'
    | injection H as <-; simpl;
      repeat match goal with
             | E : ?x = _ |- context [ ?x ] => rewrite E
             end;
      first
        [ reflexivity
        | rewrite String.eqb_refl; reflexivity
        | match goal with
          | E : uuid_of_str py _ = Some _ |- _ =>
              rewrite (proj1 Hprints _ _ E); reflexivity
          | E : datetime_of_str py _ = Some _ |- _ =>
              rewrite (proj1 (proj2 Hprints) _ _ E); reflexivity
          | E : datetime_of_timestamp py _ = Some _ |- _ =>
              rewrite (proj2 (proj2 Hprints) _ _ E); reflexivity
          end ] ].

(** What validation builds from a JSON document, it builds again from
    the JSON of what it built. *)
Lemma validate_restores (v : value) :
  is_json v = true -> restores py MxlimsReference v.
Proof.
  induction v as [ | b | n | x | s | vs IHvs | vs IHvs | kvs IHkvs | e s | u | d | c kvs IHkvs ]
    using value_ind'; intros Hj; try discriminate Hj;
    intros t;
    induction t as [ | | | | | | | lit | name | t' IHt | t' IHt | t' IHt | ts IHts | ms IHms ]
      using ftype_ind';
    intros i at_ w Hu Hval Hno at'.
  (* Optional *)
  all: try (apply optional_again; rewrite validate_optional in Hval;
            first [ injection Hval as <-; reflexivity
                  | intros at''; exact (IHt i at_ w Hu Hval Hno at'') ]).
  (* Any *)
  all: try (rewrite validate_any in Hval; injection Hval as <-;
            rewrite (to_json_json py _ Hj); apply validate_any).
  (* unions *)
  all: try (apply (union_again kvs ms i at_ w); try assumption;
            apply json_entries; assumption).
  all: try (exfalso; rewrite validate_union in Hval; simpl in Hu;
            destruct (the_discriminator i); [ | discriminate Hu ];
            simpl in Hval; discriminate Hval).
  (* models *)
  all: try (apply (model_again kvs name i at_ w); try assumption;
            apply json_entries; assumption).
  all: simpl in Hval; try discriminate Hval.
  (* lists, tuples and dicts *)
  all: try (destruct (validate_items _ t' (item_info i) at_ 0) as [ws | ] eqn:Hws;
            [ | discriminate Hval ];
            simpl in Hval; injection Hval as <-; rewrite to_json_list; simpl;
            rewrite (items_again vs (json_items vs _ IHvs Hj) t' (item_info i)
                                 at_ 0 ws Hu Hws Hno at' 0);
            reflexivity).
  all: try (destruct (validate_positions _ ts at_ 0) as [ws | ] eqn:Hws;
            [ | discriminate Hval ];
            simpl in Hval; injection Hval as <-; rewrite to_json_tuple; simpl;
            rewrite (positions_again vs (json_items vs _ IHvs Hj) ts at_ 0 ws
                                     Hu Hws Hno at' 0);
            reflexivity).
  all: try (destruct (validate_entries _ t' at_) as [ys | ] eqn:Hys;
            [ | discriminate Hval ];
            simpl in Hval; injection Hval as <-; rewrite to_json_dict;
            pose proof (entries_again kvs (json_entries kvs _ IHkvs Hj) t' at_ ys
                                      Hu Hys Hno at') as Hagain;
            unfold entries_of in Hagain; simpl; rewrite Hagain; reflexivity).
  all: scalar_again Hval at'.
Qed.

End Restores.

(** X8: the round trip through JSON gives back every entity that was
    built from a JSON document and holds no [MXExperiment], no
    [MXProcessing] and no [MXSample]: its dump is a JSON document, and
    validating the dump at the class of the entity builds the entity
    again, attribute for attribute.  It is assumed of the runtime that the
    text it prints for a UUID or a timestamp it has read parses to the
    same, and of the class put for [MxlimsReference] that its defaults fit
    its annotations and that it has no plain union.  The three classes are
    set apart for [experiment_strategy] and [macromolecule], whose default
    [None] their annotations do not admit, and for their lists of unions,
    which are plain unions: what a plain union makes of a dump depends on
    the preference of smart mode.  Numbers are the finite ones. *)
Theorem round_trip_restores_built_entities :
  map (fun c => (class_name c, unfit_fields c))
      (filter (fun c => negb (restorable c)) classes)
  = [ ("MXExperiment",
       ["templates"; "reference_data"; "results"; "experiment_strategy"]);
      ("MXProcessing", ["templates"; "input_data"; "reference_data"; "results"]);
      ("MXSample", ["jobs"; "macromolecule"]) ]
  /\ forall (py : Runtime) (MxlimsReference c : model_class)
            (kwargs : list (string * value)) (obj : value),
      prints_parse_back py ->
      restorable MxlimsReference = true ->
      In c classes ->
      is_json (VDict kwargs) = true ->
      construct py MxlimsReference (class_name c) kwargs = Ok obj ->
      holds_no ["MXExperiment"; "MXProcessing"; "MXSample"] obj = true ->
      is_json (model_dump_json py obj) = true
      /\ round_trip py MxlimsReference obj = Ok obj.
Proof.
  split; [ reflexivity | ].
  intros py MxlimsReference c kwargs obj Hprints Href Hc Hj Hobj Hno.
  split; [ apply to_json_is_json | ].
  destruct (class_resolves MxlimsReference c Hc) as [He Hr].
  pose proof Hobj as Hshape.
  rewrite (construct_fields py MxlimsReference _ _ _ He Hr) in Hshape.
  destruct (validate_fields py _ [] (model_fields c)) as [attrs | ];
    [ | discriminate Hshape ].
  simpl in Hshape. injection Hshape as Hshape. subst obj.
  unfold round_trip, model_validate_json, model_dump_json.
  apply (validate_restores py MxlimsReference Hprints Href (VDict kwargs) Hj
                           (TRef (class_name c)) (Field []) []);
    [ reflexivity | exact Hobj | exact Hno ].
Qed.

(** [round_trip_restores_built_entities] on the [Job] of
    [job_arguments], with its start time given as a number. *)
Lemma round_trip_restores_built_entities_witness :
  exists job,
    construct fixed_runtime CollectionSweepRef "Job"
              (("end_time", VInt 0) :: job_arguments) = Ok job
    /\ round_trip fixed_runtime CollectionSweepRef job = Ok job.
Proof.
  eexists. split; [ vm_compute; reflexivity | ].
  apply (proj2 round_trip_restores_built_entities fixed_runtime
               CollectionSweepRef Job (("end_time", VInt 0) :: job_arguments)).
  - split; [ | split ]; intros s x; simpl.
    + destruct (String.eqb s _); [ | discriminate ].
      intros H. now injection H as <-.
    + destruct (String.eqb s _); [ | discriminate ].
      intros H. now injection H as <-.
    + destruct (Qeq_bool s 0); [ | discriminate ].
      intros H. now injection H as <-.
  - reflexivity.
  - simpl. tauto.
  - reflexivity.
  - vm_compute. reflexivity.
  - reflexivity.
Defined.

(** ** Runs of assignments *)

Lemma setattr_step (MxlimsReference c : model_class) attrs name v :
  In c classes ->
  is_private name = false ->
  snd (setattr MxlimsReference (VObj (class_name c) attrs) name v)
  = VObj (class_name c)
         (if assignable c name then assign name v attrs else attrs).
Proof.
  intros Hc Hpublic. destruct (class_resolves MxlimsReference c Hc) as [_ Hr].
  unfold setattr, assignable. rewrite Hr, Hpublic.
  destruct (find_field name (model_fields c)) as [f | ] eqn:Hf.
  - destruct (find_field_In _ _ _ Hf) as [Hin Hname].
    destruct (fields_are_plain_names c f Hc Hin) as [_ Hplain].
    rewrite Hname in Hplain. rewrite Hplain.
    destruct (is_frozen (info f)); reflexivity.
  - destruct (existsb (String.eqb name) properties_of_BaseModel); reflexivity.
Qed.

Lemma assignable_named (c : model_class) (name : string) :
  assignable c name = true -> In name (map fname (model_fields c)).
Proof.
  unfold assignable.
  destruct (find_field name (model_fields c)) as [f | ] eqn:Hf; [ | discriminate ].
  intros _. destruct (find_field_In _ _ _ Hf) as [Hin <-]. now apply in_map.
Qed.

(** X9: the object after any run of assignments to names that do not
    start with an underscore.  It is of the class it was; an attribute
    that is frozen, or that the class does not declare, is what it was
    before the run, however often the run assigned to it; any other
    attribute holds the value of the last assignment to it; and an object
    that had one attribute per field still has exactly those, in the same
    order.  Names that start with an underscore are not under this
    protection: an assignment of a dict to [__dict__] replaces all
    attributes, frozen ones with the others, and an assignment to a name
    such as [_note] binds it. *)
Theorem assignments_keep_frozen_attributes :
  forall (MxlimsReference c : model_class) (attrs : list (string * value)),
    In c classes ->
    (forall ops : list (string * value),
        Forall (fun op => is_private (fst op) = false) ops ->
        exists attrs',
          assignments MxlimsReference (VObj (class_name c) attrs) ops
          = VObj (class_name c) attrs'
          /\ (forall name,
                 lookup name attrs'
                 = if assignable c name
                   then match lookup name (rev ops) with
                        | Some v => Some v
                        | None => lookup name attrs
                        end
                   else lookup name attrs)
          /\ (map fst attrs = map fname (model_fields c) ->
              map fst attrs' = map fst attrs))
    /\ (forall d,
           setattr MxlimsReference (VObj (class_name c) attrs) "__dict__" (VDict d)
           = (Ok tt, VObj (class_name c) d))
    /\ (forall v,
           setattr MxlimsReference (VObj (class_name c) attrs) "_note" v
           = (Ok tt, VObj (class_name c) (assign "_note" v attrs))).
Proof.
  intros MxlimsReference c attrs Hc.
  destruct (class_resolves MxlimsReference c Hc) as [_ Hr].
  split; [ | split; intros x; unfold setattr; rewrite Hr; reflexivity ].
  intros ops Hops. revert attrs.
  induction Hops as [ | [k v] ops Hk _ IH ]; intros attrs.
  - exists attrs. split; [ reflexivity | ]. split; [ | reflexivity ].
    intros name. now destruct (assignable c name).
  - change (assignments MxlimsReference (VObj (class_name c) attrs) ((k, v) :: ops))
      with (assignments MxlimsReference
              (snd (setattr MxlimsReference (VObj (class_name c) attrs) k v)) ops).
    rewrite (setattr_step MxlimsReference c attrs k v Hc Hk).
    set (attrs1 := if assignable c k then assign k v attrs else attrs).
    destruct (IH attrs1) as [attrs' [Hrun [Hlook Hnames] ] ].
    exists attrs'. split; [ exact Hrun | ]. split.
    + intros name. rewrite Hlook.
      change (rev ((k, v) :: ops)) with (rev ops ++ [(k, v)]).
      rewrite lookup_app. simpl. subst attrs1.
      destruct (assignable c name) eqn:Hn.
      * destruct (lookup name (rev ops)); [ reflexivity | ].
        destruct (String.eqb_spec name k) as [-> | Hne].
        -- rewrite Hn. apply lookup_assign.
        -- destruct (assignable c k); [ | reflexivity ].
           now apply lookup_assign_other.
      * destruct (assignable c k) eqn:Hk'; [ | reflexivity ].
        apply lookup_assign_other. intros ->. congruence.
    + intros Hfields.
      assert (Hsame : map fst attrs1 = map fst attrs).
      { subst attrs1. destruct (assignable c k) eqn:Hk'; [ | reflexivity ].
        rewrite assign_keys.
        apply assignable_named in Hk'. rewrite <- Hfields in Hk'.
        apply existsb_In in Hk'. now rewrite Hk'. }
      rewrite <- Hsame. apply Hnames. now rewrite Hsame.
Qed.

(** [assignments_keep_frozen_attributes] on a [Job]: after
    [job.uuid = "b2"] (which raises), [job.job_status = "Ready"] and
    [job.job_status = "Running"], the identifier is the one the job had
    and the status is the last one assigned; and
    [job.__dict__ = {"uuid": "b2"}] gives the job another identifier. *)
Lemma assignments_keep_frozen_attributes_witness :
  getattr (assignments CollectionSweepRef
             (VObj "Job" [("uuid", VStr "a1"); ("job_status", VNone)])
             [ ("uuid", VStr "b2"); ("job_status", VStr "Ready");
               ("job_status", VStr "Running") ]) "uuid"
  = Some (VStr "a1")
  /\ getattr (assignments CollectionSweepRef
                (VObj "Job" [("uuid", VStr "a1"); ("job_status", VNone)])
                [ ("uuid", VStr "b2"); ("job_status", VStr "Ready");
                  ("job_status", VStr "Running") ]) "job_status"
     = Some (VStr "Running")
  /\ getattr (snd (setattr CollectionSweepRef
                           (VObj "Job" [("uuid", VStr "a1"); ("job_status", VNone)])
                           "__dict__" (VDict [("uuid", VStr "b2")]))) "uuid"
     = Some (VStr "b2").
Proof.
  assert (Hc : In Job classes) by (simpl; tauto).
  destruct (assignments_keep_frozen_attributes CollectionSweepRef Job
              [("uuid", VStr "a1"); ("job_status", VNone)] Hc)
    as [Hruns [Hdict _] ].
  destruct (Hruns [ ("uuid", VStr "b2"); ("job_status", VStr "Ready");
                    ("job_status", VStr "Running") ])
    as [attrs' [Hrun [Hlook _] ] ].
  - repeat constructor.
  - change (class_name Job) with "Job" in Hrun, Hdict. rewrite Hrun, Hdict. simpl.
    repeat split; try reflexivity; rewrite Hlook; reflexivity.
Defined.

(** ** The fields every entity has *)

Section BaseFields.

Context (py : Runtime) (MxlimsReference : model_class).

(** A valid argument for a field, added to arguments that are accepted:
    the instance holds what validation made of the argument. *)
Lemma construct_argument_value c kwargs f v w :
  In c classes -> In f (model_fields c) ->
  is_ok (construct py MxlimsReference (class_name c) kwargs) = true ->
  validate py MxlimsReference v (annotation f) (info f) [Key (fname f)] = Ok w ->
  exists obj,
    construct py MxlimsReference (class_name c) ((fname f, v) :: kwargs) = Ok obj
    /\ getattr obj (fname f) = Some w.
Proof.
  intros Hc Hf Hbase Hv.
  destruct (class_resolves MxlimsReference c Hc) as [He Hr].
  destruct (construct_with_argument py MxlimsReference _ c kwargs f v He Hr Hf Hbase)
    as [Hok _].
  rewrite Hv in Hok. apply is_ok_true in Hok. destruct Hok as [obj Hobj].
  exists obj. split; [ exact Hobj | ].
  destruct (construct_attribute py MxlimsReference c _ obj f Hc Hf Hobj)
    as [x [Hx Hget] ].
  rewrite field_outcome_this, Hv in Hx. now injection Hx as <-.
Qed.

Lemma entries_any (kvs : list (string * value)) at_ :
  validate_entries (entries_of py MxlimsReference kvs) TAny at_ = Ok kvs.
Proof.
  induction kvs as [ | [k v] kvs IH ]; simpl; [ reflexivity | ].
  fold (entries_of py MxlimsReference kvs).
  now rewrite validate_any, IH.
Qed.

End BaseFields.

(** The classes that derive from [MxlimsObject] have its three fields,
    as it declares them. *)
Lemma inherited_base_fields (c : model_class) (name : string) :
  In c classes -> issubclass c "MxlimsObject" = true ->
  In name ["uuid"; "extensions"; "namespace_extensions"] ->
  find_field name (model_fields c) = find_field name (model_fields MxlimsObject).
Proof.
  intros Hc Hsub Hname.
  assert (Hall : Forall (fun c => issubclass c "MxlimsObject" = true ->
                   Forall (fun name => find_field name (model_fields c)
                                       = find_field name (model_fields MxlimsObject))
                          ["uuid"; "extensions"; "namespace_extensions"]) classes).
  { repeat (constructor; [ first [ discriminate | intros _; repeat constructor ] | ]).
    constructor. }
  rewrite Forall_forall in Hall. specialize (Hall c Hc Hsub).
  rewrite Forall_forall in Hall. now apply Hall.
Qed.

(** X10: the three fields of [MxlimsObject], on every class that derives
    from it.  Any string is taken for [uuid], as it is: the field is a
    [str], and no format is asked of it; without one the identifier is the
    one drawn from the random source.  [extensions] keeps any dict
    whatever its values.  A namespace extension given as a JSON object is
    built as a bare [BaseModel]: whatever the object contained is gone. *)
Theorem identifier_and_extensions :
  forall (py : Runtime) (MxlimsReference c : model_class)
         (kwargs : list (string * value)),
    In c classes -> issubclass c "MxlimsObject" = true ->
    is_ok (construct py MxlimsReference (class_name c) kwargs) = true ->
    let build extra :=
      construct py MxlimsReference (class_name c) (extra :: kwargs) in
    (forall s, exists obj,
        build ("uuid", VStr s) = Ok obj
        /\ getattr obj "uuid" = Some (VStr s))
    /\ (lookup "uuid" kwargs = None ->
        exists obj,
          construct py MxlimsReference (class_name c) kwargs = Ok obj
          /\ getattr obj "uuid" = Some (VStr (uuid4_hex py [])))
    /\ (forall ext, exists obj,
           build ("extensions", VDict ext) = Ok obj
           /\ getattr obj "extensions" = Some (VDict ext))
    /\ (forall organisation payload, exists obj,
           build ("namespace_extensions", VDict [(organisation, VDict payload)])
           = Ok obj
           /\ getattr obj "namespace_extensions"
              = Some (VDict [(organisation, VObj "BaseModel" [])])).
Proof.
  intros py MxlimsReference c kwargs Hc Hsub Hbase build.
  assert (Hfield : forall name f,
             In name ["uuid"; "extensions"; "namespace_extensions"] ->
             find_field name (model_fields MxlimsObject) = Some f ->
             In f (model_fields c) /\ fname f = name).
  { intros name f Hname Hf. apply find_field_In.
    now rewrite (inherited_base_fields c name Hc Hsub Hname). }
  split; [ | split; [ | split ] ].
  - intros s.
    destruct (Hfield "uuid" _ (or_introl eq_refl) eq_refl) as [Hin Hname].
    exact (construct_argument_value py MxlimsReference c kwargs _ (VStr s) (VStr s)
             Hc Hin Hbase eq_refl).
  - intros Hnone. apply is_ok_true in Hbase. destruct Hbase as [obj Hobj].
    exists obj. split; [ exact Hobj | ].
    destruct (Hfield "uuid" _ (or_introl eq_refl) eq_refl) as [Hin Hname].
    destruct (construct_attribute py MxlimsReference c _ obj _ Hc Hin Hobj)
      as [x [Hx Hget] ].
    rewrite field_outcome_omitted in Hx by exact Hnone.
    simpl in Hx. injection Hx as <-. exact Hget.
  - intros ext.
    destruct (Hfield "extensions" _ (or_intror (or_introl eq_refl)) eq_refl)
      as [Hin Hname].
    apply (construct_argument_value py MxlimsReference c kwargs _ (VDict ext) (VDict ext)
             Hc Hin Hbase).
    simpl. fold (entries_of py MxlimsReference ext).
    now rewrite entries_any.
  - intros organisation payload.
    destruct (Hfield "namespace_extensions" _
                (or_intror (or_intror (or_introl eq_refl))) eq_refl)
      as [Hin Hname].
    apply (construct_argument_value py MxlimsReference c kwargs _
             (VDict [(organisation, VDict payload)])
             (VDict [(organisation, VObj "BaseModel" [])]) Hc Hin Hbase).
    reflexivity.
Qed.

(** [identifier_and_extensions] on a [Dataset]: the identifier
    ["not a uuid"] is taken as it is. *)
Lemma identifier_and_extensions_witness :
  exists dataset,
    construct fixed_runtime CollectionSweepRef "Dataset"
              [("uuid", VStr "not a uuid"); ("role", VStr "Result")]
    = Ok dataset
    /\ getattr dataset "uuid" = Some (VStr "not a uuid").
Proof.
  assert (Hc : In Dataset classes) by (simpl; tauto).
  exact (proj1 (identifier_and_extensions fixed_runtime CollectionSweepRef Dataset
                  [("role", VStr "Result")] Hc eq_refl eq_refl) "not a uuid").
Defined.

(** ** The schema of a class and what construction asks for *)

Lemma same_strings_eq (a b : list string) :
  same_strings a b = true -> a = b.
Proof.
  unfold same_strings. destruct (list_eq_dec string_dec a b); [ auto | discriminate ].
Qed.

Lemma same_text_eq (a b : option value) : same_text a b = true -> a = b.
Proof.
  destruct a as [ [ | | | | s | | | | | | | ] | ];
    destruct b as [ [ | | | | s' | | | | | | | ] | ]; simpl;
    try discriminate; [ | reflexivity ].
  intros H. apply String.eqb_eq in H. now subst.
Qed.

Lemma documents_checked (doc : value) (c : model_class) :
  documents_check doc c = true -> documents doc c.
Proof.
  unfold documents_check, documents.
  destruct (lookup "properties" (own_schema doc c))
    as [ [ | | | | | | | props | | | | ] | ]; try discriminate.
  intros H. apply andb_true_iff in H. destruct H as [Hnames Hall].
  exists props. split; [ reflexivity | ].
  split; [ now apply same_strings_eq | ].
  rewrite forallb_forall in Hall. apply Forall_forall. intros f Hf.
  specialize (Hall f Hf).
  destruct (lookup (fname f) props) as [ [ | | | | | | | p | | | | ] | ];
    try discriminate.
  exists p. split; [ reflexivity | now apply same_text_eq ].
Qed.

(** The schemas of all classes of the two modules, with any of them for
    [MxlimsReference], pass the check. *)
Lemma schemas_checked (py : Runtime) (MxlimsReference c : model_class) :
  In MxlimsReference classes -> In c classes ->
  schema_check py MxlimsReference c = true.
Proof.
  intros Href Hc.
  assert (Hall : forallb (fun ref => forallb (schema_check py ref) classes)
                         classes = true).
  { destruct py as [draw parse_uuid print_uuid parse_time print_time of_stamp
                    parse_int parse_float parse_bool prefer wraps].
    destruct wraps; vm_compute; reflexivity. }
  rewrite forallb_forall in Hall. specialize (Hall _ Href).
  rewrite forallb_forall in Hall. exact (Hall _ Hc).
Qed.

(** X11: every class of the two modules has a schema, with any class of
    the two modules for [MxlimsReference].  The schema of the class
    stands at the top of the document or, for a class that refers to
    itself, under ["$defs"]; its title is the name of the class; it has a
    [required] key exactly when the class has a field without default, and
    the key lists those fields.  They are the fields that construction
    asks for: a name is among them exactly when every construction that
    leaves the name out reports it missing.  The core classes ask for
    nothing; the value classes and the crystallographic entities ask for
    the fields listed. *)
Theorem schema_required_is_what_construction_requires :
  map (fun c => (class_name c, required_fields c)) classes
  = [ ("BaseModel", []); ("MxlimsObject", []); ("Dataset", []); ("Job", []);
      ("LogisticalSample", []); ("PreparedSample", []);
      ("UnitCell", ["a"; "b"; "c"; "alpha"; "beta"; "gamma"]);
      ("Tensor", ["eigenvalues"; "eigenvectors"]);
      ("QualityFactor", ["type"; "value"]);
      ("Macromolecule", ["acronym"]); ("Component", ["acronym"]);
      ("MXExperiment", ["mxlims_type"]); ("MXExperimentRef", ["target_type"]);
      ("CollectionSweep", ["mxlims_type"; "scan_axis"]);
      ("CollectionSweepRef", ["target_type"]);
      ("Scan", ["scan_position_start"; "first_image_no"; "num_images"; "ordinal"]);
      ("MXProcessing", ["mxlims_type"]); ("MXProcessingRef", ["target_type"]);
      ("ReflectionStatistics",
       ["resolution_limits"; "number_observations"; "number_unique_observations";
        "completeness"; "redundancy"; "redundancy_anomalous"]);
      ("ReflectionSet",
       ["mxlims_type"; "h_index_range"; "k_index_range"; "l_index_range";
        "num_reflections"; "num_unique_reflections"]);
      ("ReflectionSetRef", ["target_type"]); ("MXSample", ["mxlims_type"]);
      ("MXSampleRef", ["target_type"]) ]
  /\ forall (py : Runtime) (MxlimsReference c : model_class),
      In MxlimsReference classes ->
      In c classes ->
      (exists doc,
          model_json_schema py MxlimsReference c = Ok doc
          /\ lookup "title" (own_schema doc c) = Some (VStr (class_name c))
          /\ required_of (own_schema doc c) = required_fields c
          /\ (lookup "required" (own_schema doc c) = None
              <-> required_fields c = []))
      /\ (forall name,
             In name (required_fields c)
             <-> forall kwargs,
                   lookup name kwargs = None ->
                   In {| eloc := [Key name]; etype := missing |}
                      (errors (construct py MxlimsReference (class_name c) kwargs))).
Proof.
  split; [ reflexivity | ].
  intros py MxlimsReference c Href Hc.
  destruct (class_resolves MxlimsReference c Hc) as [He Hr].
  split.
  - pose proof (schemas_checked py MxlimsReference c Href Hc) as Hcheck.
    unfold schema_check in Hcheck.
    destruct (model_json_schema py MxlimsReference c) as [doc | ];
      [ | discriminate Hcheck ].
    repeat (apply andb_true_iff in Hcheck;
            let H := fresh "Hcheck" in destruct Hcheck as [Hcheck H]).
    exists doc. split; [ reflexivity | ].
    split; [ now apply same_text_eq | ].
    split; [ now apply same_strings_eq | ].
    destruct (lookup "required" (own_schema doc c));
      destruct (required_fields c); try discriminate;
      split; intros; congruence.
  - intros name. unfold required_fields. rewrite in_map_iff. split.
    + intros [f [Hname Hf] ] kwargs Hnone.
      apply filter_In in Hf. destruct Hf as [Hf Hreq].
      rewrite (construct_errors py MxlimsReference _ _ _ He Hr).
      apply in_flat_map. exists f. split; [ exact Hf | ].
      rewrite field_outcome_omitted by now rewrite Hname.
      unfold is_required in Hreq.
      destruct (the_default (info f)); try discriminate Hreq.
      rewrite Hname. now left.
    + intros Hall. specialize (Hall [] eq_refl).
      rewrite (construct_errors py MxlimsReference _ _ _ He Hr) in Hall.
      apply in_flat_map in Hall. destruct Hall as [f [Hf Herr] ].
      rewrite field_outcome_omitted in Herr by reflexivity.
      exists f. destruct (the_default (info f)) eqn:Hd; simpl in Herr;
        try contradiction.
      destruct Herr as [Herr | [] ]. injection Herr as Hname.
      split; [ exact Hname | ].
      apply filter_In. split; [ exact Hf | ]. unfold is_required. now rewrite Hd.
Qed.

(** [schema_required_is_what_construction_requires] on [Scan]: a scan
    built without [ordinal] is reported to miss it. *)
Lemma schema_required_is_what_construction_requires_witness :
  In {| eloc := [Key "ordinal"]; etype := missing |}
     (errors (construct fixed_runtime CollectionSweepRef "Scan"
                        [ ("scan_position_start", VFloat 0);
                          ("first_image_no", VInt 1); ("num_images", VInt 900) ])).
Proof.
  assert (Hc : In Scan classes) by (simpl; tauto).
  assert (Href : In CollectionSweepRef classes) by (simpl; tauto).
  apply (proj1 (proj2 (proj2 schema_required_is_what_construction_requires
                             fixed_runtime CollectionSweepRef Scan Href Hc)
                      "ordinal")).
  - simpl. tauto.
  - reflexivity.
Defined.

(** ** Fields without a description *)

(** X12: the fields of the two modules that declare no description are
    the bare literal tags ([mxlims_type], [target_type]) and [UnitCell.a],
    whose text stands in [json_schema_extra] under the empty key.  In the
    schema of [UnitCell] the property [a] therefore has no description and
    carries its text under the empty key, where [b] has a description. *)
Theorem fields_without_description :
  flat_map (fun c => map (fun f => (class_name c, fname f))
                         (filter undescribed (model_fields c))) classes
  = [ ("UnitCell", "a");
      ("MXExperiment", "mxlims_type"); ("MXExperimentRef", "target_type");
      ("CollectionSweep", "mxlims_type"); ("CollectionSweepRef", "target_type");
      ("MXProcessing", "mxlims_type"); ("MXProcessingRef", "target_type");
      ("ReflectionSet", "mxlims_type"); ("ReflectionSetRef", "target_type");
      ("MXSample", "mxlims_type"); ("MXSampleRef", "target_type") ]
  /\ forall (py : Runtime) (MxlimsReference : model_class),
      exists doc props a b,
        model_json_schema py MxlimsReference UnitCell = Ok doc
        /\ lookup "properties" (object_items doc) = Some (VDict props)
        /\ lookup "a" props = Some (VDict a)
        /\ lookup "description" a = None
        /\ lookup EmptyString a = Some (VStr "A axis length (A)")
        /\ lookup "b" props = Some (VDict b)
        /\ lookup "description" b = Some (VStr "B axis length (A)").
Proof.
  split; [ reflexivity | ].
  intros py MxlimsReference. do 4 eexists.
  split; [ vm_compute; reflexivity | ].
  repeat split; reflexivity.
Qed.

(** ** The jobs of a sample: a union without discriminator *)

Section JobsOfSample.

Context (py : Runtime) (MxlimsReference : model_class).

(** Whether a value is accepted does not depend on where it stands. *)
Lemma is_ok_anywhere v t i at_ at' :
  is_ok (validate py MxlimsReference v t i at_)
  = is_ok (validate py MxlimsReference v t i at').
Proof.
  pose proof (validate_accepts py MxlimsReference v t i at_) as H1.
  pose proof (validate_accepts py MxlimsReference v t i at') as H2.
  destruct (is_ok (validate py MxlimsReference v t i at_));
    destruct (is_ok (validate py MxlimsReference v t i at')); try reflexivity.
  - symmetry. apply H2, H1. reflexivity.
  - apply H1, H2. reflexivity.
Qed.

Lemma one_literal v a b i at_ at' :
  is_ok (validate py MxlimsReference v (TLiteral a) i at_) = true ->
  is_ok (validate py MxlimsReference v (TLiteral b) i at') = true ->
  a = b.
Proof.
  destruct v; simpl; try discriminate.
  - destruct (String.eqb_spec s a) as [<- | ]; [ | discriminate ].
    destruct (String.eqb_spec s b) as [<- | ]; [ reflexivity | discriminate ].
  - destruct (String.eqb_spec member_value a) as [<- | ]; [ | discriminate ].
    destruct (String.eqb_spec member_value b) as [<- | ]; [ reflexivity | discriminate ].
Qed.

(** A class whose [mxlims_type] is a bare literal is built only from
    arguments that give that literal. *)
Lemma built_with_literal c f lit kwargs :
  In c classes -> In f (model_fields c) ->
  annotation f = TLiteral lit -> the_default (info f) = PydanticUndefined ->
  is_ok (construct py MxlimsReference (class_name c) kwargs) = true ->
  exists v, lookup (fname f) kwargs = Some v
            /\ is_ok (validate py MxlimsReference v (TLiteral lit) (info f)
                               [Key (fname f)]) = true.
Proof.
  intros Hc Hf Hann Hreq Hok.
  destruct (class_resolves MxlimsReference c Hc) as [He Hr].
  rewrite (construct_ok py MxlimsReference _ _ _ He Hr), forallb_forall in Hok.
  specialize (Hok f Hf).
  destruct (lookup (fname f) kwargs) as [v | ] eqn:Hl.
  - exists v. split; [ reflexivity | ].
    now rewrite (field_outcome_supplied py MxlimsReference kwargs f v Hl), Hann in Hok.
  - rewrite (field_outcome_omitted py MxlimsReference kwargs f Hl), Hreq in Hok.
    discriminate Hok.
Qed.

End JobsOfSample.

(** X13: [MXSample.jobs] is a list of [Union[MXExperiment, MXProcessing]]
    and declares no discriminator.  A job given as a JSON object is taken
    exactly when it is a valid [MXExperiment] or a valid [MXProcessing];
    it is never both, since each class asks for its own literal under
    [mxlims_type]; and the job that the sample then holds is an instance of
    the class that accepted it. *)
Theorem sample_jobs_are_told_apart_by_their_literal :
  option_map (fun f => (annotation f, the_discriminator (info f)))
             (find_field "jobs" (model_fields MXSample))
  = Some (TList (TUnion [TRef "MXExperiment"; TRef "MXProcessing"]), None)
  /\ forall (py : Runtime) (MxlimsReference : model_class)
            (kwargs job : list (string * value)),
      is_ok (construct py MxlimsReference "MXSample" kwargs) = true ->
      let built :=
        construct py MxlimsReference "MXSample"
                  (("jobs", VList [VDict job]) :: kwargs) in
      let experiment := is_ok (construct py MxlimsReference "MXExperiment" job) in
      let processing := is_ok (construct py MxlimsReference "MXProcessing" job) in
      is_ok built = experiment || processing
      /\ experiment && processing = false
      /\ forall sample,
           built = Ok sample ->
           exists attrs,
             getattr sample "jobs"
             = Some (VList [ VObj (if experiment then "MXExperiment"
                                   else "MXProcessing") attrs ]).
Proof.
  split; [ reflexivity | ].
  intros py MxlimsReference kwargs job Hbase built experiment processing.
  assert (Hc : In MXSample classes) by (simpl; tauto).
  assert (Hf : exists f, find_field "jobs" (model_fields MXSample) = Some f
                         /\ annotation f
                            = TList (TUnion [TRef "MXExperiment"; TRef "MXProcessing"])
                         /\ the_discriminator (info f) = None)
    by (eexists; repeat split).
  destruct Hf as [f [Hf [Hann Hdisc] ] ].
  destruct (find_field_In _ _ _ Hf) as [Hin Hname].
  set (at_ := [Key "jobs"; Idx 0]).
  set (as_experiment :=
         validate py MxlimsReference (VDict job) (TRef "MXExperiment") (Field [])
                  (at_ ++ [Key "MXExperiment"])).
  set (as_processing :=
         validate py MxlimsReference (VDict job) (TRef "MXProcessing") (Field [])
                  (at_ ++ [Key "MXProcessing"])).
  set (as_either :=
         try_each MxlimsReference (smart py (VDict job))
                  (validate py MxlimsReference (VDict job)) at_
                  [TRef "MXExperiment"; TRef "MXProcessing"]).
  assert (Hv : validate py MxlimsReference (VList [VDict job]) (annotation f) (info f)
                        [Key "jobs"]
               = map_result VList (both cons as_either (Ok []))).
  { rewrite Hann. rewrite validate_list.
    cbn [map validate_items]. rewrite validate_union. reflexivity. }
  assert (Hexp : is_ok as_experiment = experiment)
    by (unfold as_experiment, experiment, construct; apply is_ok_anywhere).
  assert (Hpro : is_ok as_processing = processing)
    by (unfold as_processing, processing, construct; apply is_ok_anywhere).
  assert (Hnot_both : experiment && processing = false).
  { destruct experiment eqn:He; [ | reflexivity ].
    destruct processing eqn:Hp; [ | reflexivity ]. exfalso.
    assert (H1 : In MXExperiment classes) by (simpl; tauto).
    assert (H2 : In MXProcessing classes) by (simpl; tauto).
    destruct (built_with_literal py MxlimsReference MXExperiment
                (bare "mxlims_type" (TLiteral "MXExperiment")) "MXExperiment" job
                H1 ltac:(simpl; tauto) eq_refl eq_refl He) as [v [Hl Hv1] ].
    destruct (built_with_literal py MxlimsReference MXProcessing
                (bare "mxlims_type" (TLiteral "MXProcessing")) "MXProcessing" job
                H2 ltac:(simpl; tauto) eq_refl eq_refl Hp) as [v' [Hl' Hv2] ].
    simpl in Hl, Hl'. rewrite Hl in Hl'. injection Hl' as <-.
    pose proof (one_literal py MxlimsReference _ _ _ _ _ _ Hv1 Hv2) as E.
    discriminate E. }
  assert (Heither : is_ok as_either = experiment || processing).
  { unfold as_either. rewrite try_each_is_ok. cbn [existsb].
    change (label MxlimsReference (TRef "MXExperiment")) with "MXExperiment".
    change (label MxlimsReference (TRef "MXProcessing")) with "MXProcessing".
    fold as_experiment as_processing. now rewrite Hexp, Hpro, orb_false_r. }
  assert (Hmember : forall x,
             as_either = Ok x ->
             (if experiment then as_experiment else as_processing) = Ok x).
  { intros x Hx. unfold as_either in Hx.
    destruct (try_each_ok _ _ _ _ _ _ Hx) as [m [Hm Hmx] ].
    destruct Hm as [<- | [<- | [] ] ].
    - change (label MxlimsReference (TRef "MXExperiment")) with "MXExperiment" in Hmx.
      fold as_experiment in Hmx.
      rewrite <- Hexp, Hmx. reflexivity.
    - change (label MxlimsReference (TRef "MXProcessing")) with "MXProcessing" in Hmx.
      fold as_processing in Hmx.
      assert (Hp : processing = true) by (rewrite <- Hpro, Hmx; reflexivity).
      rewrite Hp, andb_true_r in Hnot_both. rewrite Hnot_both. exact Hmx. }
  destruct (construct_with_argument py MxlimsReference "MXSample" MXSample kwargs f
              (VList [VDict job]) eq_refl eq_refl Hin Hbase) as [Hok _].
  rewrite Hname in Hok. fold built in Hok.
  split; [ | split; [ exact Hnot_both | ] ].
  - now rewrite Hok, Hv, map_result_ok, both_ok, andb_true_r.
  - intros sample Hsample.
    destruct (construct_attribute py MxlimsReference MXSample
                (("jobs", VList [VDict job]) :: kwargs) sample f Hc Hin Hsample)
      as [w [Hw Hget] ].
    rewrite Hname in Hget.
    pose proof (field_outcome_this py MxlimsReference kwargs f (VList [VDict job]))
      as Hthis.
    rewrite Hname in Hthis. rewrite Hthis, Hv in Hw.
    rewrite Hget.
    assert (Hobj : forall name c r x,
               find_enum name = None -> find_class MxlimsReference name = Some c ->
               validate py MxlimsReference (VDict job) (TRef name) (Field []) r = Ok x ->
               exists attrs, x = VObj (class_name c) attrs).
    { intros name c r x He Hr.
      rewrite (validate_model py MxlimsReference job name c _ r He Hr).
      destruct (validate_fields _ _ _ _) as [attrs | ]; [ | discriminate ].
      simpl. intros E. injection E as <-. eauto. }
    destruct as_either as [x | es] eqn:Hx; [ | discriminate Hw ].
    simpl in Hw. injection Hw as <-.
    specialize (Hmember x eq_refl).
    destruct experiment.
    + destruct (Hobj "MXExperiment" MXExperiment _ x eq_refl eq_refl Hmember)
        as [attrs ->].
      now exists attrs.
    + destruct (Hobj "MXProcessing" MXProcessing _ x eq_refl eq_refl Hmember)
        as [attrs ->].
      now exists attrs.
Qed.

(** [sample_jobs_are_told_apart_by_their_literal] on a sample with one
    job tagged [MXProcessing]. *)
Lemma sample_jobs_are_told_apart_by_their_literal_witness :
  is_ok (construct fixed_runtime CollectionSweepRef "MXSample"
                   [ ("jobs", VList [VDict [("mxlims_type", VStr "MXProcessing")]]);
                     ("mxlims_type", VStr "MXSample") ]) = true.
Proof.
  destruct (proj2 sample_jobs_are_told_apart_by_their_literal
                  fixed_runtime CollectionSweepRef
                  [("mxlims_type", VStr "MXSample")]
                  [("mxlims_type", VStr "MXProcessing")] eq_refl) as [H _].
  rewrite H. reflexivity.
Defined.

(** ** Return links *)

Section Members.

Context (py : Runtime) (MxlimsReference : model_class).

(** Whether the fields of a model are accepted does not depend on where
    the model stands. *)
Lemma fields_ok_anywhere kvs fs at_ at' :
  is_ok (validate_fields py (entries_of py MxlimsReference kvs) at_ fs)
  = is_ok (validate_fields py (entries_of py MxlimsReference kvs) at' fs).
Proof.
  induction fs as [ | g fs IH ]; simpl; [ reflexivity | ].
  rewrite !both_ok, IH. f_equal.
  unfold validate_field. rewrite lookup_entries_of.
  destruct (lookup (fname g) kvs) as [v | ]; simpl.
  - apply is_ok_anywhere.
  - now destruct (the_default (info g)).
Qed.

(** One member, given as a JSON object, in a list field of classes. *)
Lemma list_member_built c f m mc kwargs item :
  In c classes -> In f (model_fields c) ->
  annotation f = TList (TRef m) ->
  find_enum m = None -> find_class MxlimsReference m = Some mc ->
  is_ok (construct py MxlimsReference (class_name c) kwargs) = true ->
  is_ok (construct py MxlimsReference m item) = true ->
  exists obj attrs,
    construct py MxlimsReference (class_name c)
              ((fname f, VList [VDict item]) :: kwargs) = Ok obj
    /\ getattr obj (fname f) = Some (VList [VObj (class_name mc) attrs])
    /\ validate_fields py (entries_of py MxlimsReference item)
                       [Key (fname f); Idx 0] (model_fields mc) = Ok attrs.
Proof.
  intros Hc Hf Hann He Hm Hbase Hitem.
  unfold construct in Hitem.
  rewrite (validate_model py MxlimsReference item m mc _ _ He Hm),
    map_result_ok, validate_fields_ok in Hitem.
  destruct (validate_fields py (entries_of py MxlimsReference item)
                            [Key (fname f); Idx 0] (model_fields mc))
    as [attrs | es] eqn:Hattrs.
  - destruct (construct_argument_value py MxlimsReference c kwargs f
                (VList [VDict item]) (VList [VObj (class_name mc) attrs])
                Hc Hf Hbase) as [obj [Hobj Hget] ].
    + rewrite Hann, validate_list. cbn [map validate_items].
      rewrite (validate_model py MxlimsReference item m mc _ _ He Hm).
      cbn [app]. now rewrite Hattrs.
    + exists obj, attrs. auto.
  - exfalso.
    assert (Hno : is_ok (validate_fields py (entries_of py MxlimsReference item)
                                         [Key (fname f); Idx 0] (model_fields mc))
                  = true)
      by (rewrite (fields_ok_anywhere _ _ _ []), validate_fields_ok; exact Hitem).
    rewrite Hattrs in Hno. discriminate Hno.
Qed.

End Members.

(** X14: return links are not filled in.  The descriptions of [core.py]
    pair six list fields with a field of their members that points back
    ([Job.results] with [Dataset.source], and so on).  A member given as a
    JSON object that does not set its back field is built inside its owner
    with that field [None]: being listed by the owner does not make the
    member point to it. *)
Theorem return_links_are_not_filled_in :
  forall (py : Runtime) (MxlimsReference : model_class)
         (owner field member back : string)
         (kwargs item : list (string * value)),
    In (owner, field, member, back) return_links ->
    is_ok (construct py MxlimsReference owner kwargs) = true ->
    is_ok (construct py MxlimsReference member item) = true ->
    lookup back item = None ->
    exists obj attrs,
      construct py MxlimsReference owner ((field, VList [VDict item]) :: kwargs)
      = Ok obj
      /\ getattr obj field = Some (VList [VObj member attrs])
      /\ getattr (VObj member attrs) back = Some VNone.
Proof.
  intros py MxlimsReference owner field member back kwargs item Hlink Hbase Hitem Hback.
  assert (Hdecl : exists c f mc fb,
             In c classes /\ class_name c = owner
             /\ find_field field (model_fields c) = Some f
             /\ annotation f = TList (TRef member)
             /\ find_enum member = None
             /\ find_class MxlimsReference member = Some mc
             /\ class_name mc = member
             /\ find_field back (model_fields mc) = Some fb
             /\ the_default (info fb) = Default VNone).
  { simpl in Hlink.
    destruct Hlink as [Hlink | [Hlink | [Hlink | [Hlink | [Hlink | [Hlink | [] ] ] ] ] ] ];
      injection Hlink as <- <- <- <-.
    - exists Job; eexists; exists Dataset; eexists;
        repeat split; try reflexivity; simpl; tauto.
    - exists LogisticalSample; eexists; exists Dataset; eexists;
        repeat split; try reflexivity; simpl; tauto.
    - exists PreparedSample; eexists; exists Job; eexists;
        repeat split; try reflexivity; simpl; tauto.
    - exists LogisticalSample; eexists; exists Job; eexists;
        repeat split; try reflexivity; simpl; tauto.
    - exists LogisticalSample; eexists; exists LogisticalSample; eexists;
        repeat split; try reflexivity; simpl; tauto.
    - exists PreparedSample; eexists; exists LogisticalSample; eexists;
        repeat split; try reflexivity; simpl; tauto. }
  destruct Hdecl as [c [f [mc [fb [Hc [Hcn [Hf [Hann [He [Hm [Hmn [Hfb Hdef] ] ] ] ] ] ] ] ] ] ] ].
  destruct (find_field_In _ _ _ Hf) as [Hin Hname].
  destruct (find_field_In _ _ _ Hfb) as [_ Hbname].
  rewrite <- Hcn in Hbase.
  destruct (list_member_built py MxlimsReference c f member mc kwargs item
              Hc Hin Hann He Hm Hbase Hitem) as [obj [attrs [Hobj [Hget Hattrs] ] ] ].
  rewrite Hcn, Hname in Hobj. rewrite Hname, Hmn in Hget.
  exists obj, attrs. split; [ exact Hobj | ]. split; [ exact Hget | ].
  destruct (validate_fields_attrs py _ _ _ _ _ _ Hattrs Hfb) as [x [Hx Hl] ].
  unfold validate_field in Hx.
  rewrite lookup_entries_of, Hbname, Hback, Hdef in Hx. simpl in Hx.
  injection Hx as <-. exact Hl.
Qed.

(** [return_links_are_not_filled_in] on a [Job] with one result: the
    dataset among the results has no source. *)
Lemma return_links_are_not_filled_in_witness :
  exists job attrs,
    construct fixed_runtime CollectionSweepRef "Job"
              [ ("results", VList [VDict [("role", VStr "Result")]]);
                ("job_status", VStr "Completed") ]
    = Ok job
    /\ getattr job "results" = Some (VList [VObj "Dataset" attrs])
    /\ getattr (VObj "Dataset" attrs) "source" = Some VNone.
Proof.
  apply (return_links_are_not_filled_in fixed_runtime CollectionSweepRef
           "Job" "results" "Dataset" "source"
           [("job_status", VStr "Completed")] [("role", VStr "Result")]).
  - simpl. tauto.
  - reflexivity.
  - reflexivity.
  - reflexivity.
Defined.

(** ** Assignment is not validated *)

(** X15: what assignment to a field that is not frozen lets through.  A
    value that the declaration of the field does not admit is assigned all
    the same; the instance that holds it is taken as it is wherever an
    instance of its class, or of a class it derives from, is asked for;
    and when the value is a JSON value, the JSON of the instance no longer
    validates: the round trip fails. *)
Theorem assigned_values_are_not_validated :
  forall (py : Runtime) (MxlimsReference c : model_class) (f : field)
         (kwargs : list (string * value)) (obj v : value),
    In c classes -> In f (model_fields c) ->
    is_frozen (info f) = false ->
    construct py MxlimsReference (class_name c) kwargs = Ok obj ->
    is_ok (validate py MxlimsReference v (annotation f) (info f) [Key (fname f)])
    = false ->
    exists obj',
      setattr MxlimsReference obj (fname f) v = (Ok tt, obj')
      /\ getattr obj' (fname f) = Some v
      /\ (forall d i at_,
             In d classes -> issubclass c (class_name d) = true ->
             validate py MxlimsReference obj' (TRef (class_name d)) i at_ = Ok obj')
      /\ (is_json v = true -> is_ok (round_trip py MxlimsReference obj') = false).
Proof.
  intros py MxlimsReference c f kwargs obj v Hc Hf Hfrozen Hobj Hbad.
  destruct (class_resolves MxlimsReference c Hc) as [He Hr].
  destruct (construct_shape py MxlimsReference c kwargs obj Hc Hobj)
    as [attrs [-> _] ].
  exists (VObj (class_name c) (assign (fname f) v attrs)).
  split; [ | split; [ | split ] ].
  - destruct (fields_are_plain_names c f Hc Hf) as [Hpublic Hplain].
    unfold setattr.
    now rewrite Hr, Hpublic, (In_find_field c f Hf), Hfrozen, Hplain.
  - simpl. apply lookup_assign.
  - intros d i at_ Hd Hsub.
    destruct (class_resolves MxlimsReference d Hd) as [Hed Hrd].
    simpl. rewrite Hed, Hrd. unfold isinstance. now rewrite Hr, Hsub.
  - intros Hj. unfold round_trip, model_validate_json, model_dump_json.
    rewrite to_json_obj.
    rewrite (validate_model py MxlimsReference _ _ c _ _ He Hr),
      map_result_ok, validate_fields_ok.
    apply not_true_is_false. intros Hall. rewrite forallb_forall in Hall.
    specialize (Hall f Hf). unfold validate_field in Hall.
    rewrite lookup_entries_of, lookup_json, lookup_assign in Hall.
    simpl in Hall. rewrite (to_json_json py v Hj) in Hall. congruence.
Qed.

(** [assigned_values_are_not_validated] on a [Job]:
    [job.job_status = "Failed"] is carried out although ["Failed"] is not
    the value of a member of [JobStatus], and the job then fails the round
    trip. *)
Lemma assigned_values_are_not_validated_witness :
  exists job job',
    construct fixed_runtime CollectionSweepRef "Job" [] = Ok job
    /\ setattr CollectionSweepRef job "job_status" (VStr "Failed") = (Ok tt, job')
    /\ is_ok (round_trip fixed_runtime CollectionSweepRef job') = false.
Proof.
  assert (Hc : In Job classes) by (simpl; tauto).
  assert (Hf : exists f, find_field "job_status" (model_fields Job) = Some f
                         /\ is_frozen (info f) = false
                         /\ annotation f = TOptional (TRef "JobStatus"))
    by (eexists; repeat split).
  destruct Hf as [f [Hf [Hfrozen Hann] ] ].
  destruct (find_field_In _ _ _ Hf) as [Hin Hname].
  eexists.
  destruct (assigned_values_are_not_validated fixed_runtime CollectionSweepRef
              Job f [] _ (VStr "Failed") Hc Hin Hfrozen eq_refl)
    as [job' [Hset [_ [_ Hfails] ] ] ].
  - rewrite Hann. reflexivity.
  - exists job'. rewrite Hname in Hset.
    split; [ reflexivity | ]. split; [ exact Hset | now apply Hfails ].
Defined.

(** ** Errors inside list and dict fields *)

Section ItemErrors.

Context (py : Runtime) (MxlimsReference : model_class).

Lemma accepted_no_errors v t i at_ :
  accepts py MxlimsReference v t i ->
  errors (validate py MxlimsReference v t i at_) = [].
Proof.
  intros H. destruct (accepted_ok py MxlimsReference v t i at_ H) as [w ->].
  reflexivity.
Qed.

Lemma items_all_accepted vs t i at_ k :
  Forall (fun v => accepts py MxlimsReference v t i) vs ->
  errors (validate_items (map (validate py MxlimsReference) vs) t i at_ k) = [].
Proof.
  intros Hall. revert k. induction Hall as [ | v vs Hv _ IH ]; intros k; simpl.
  - reflexivity.
  - now rewrite both_errors, IH, accepted_no_errors.
Qed.

(** One item among accepted ones: the errors of the list are the errors
    of that item, at its index. *)
Lemma items_one_error pre bad post t i at_ k :
  Forall (fun v => accepts py MxlimsReference v t i) (pre ++ post) ->
  errors (validate_items (map (validate py MxlimsReference) (pre ++ bad :: post))
                         t i at_ k)
  = errors (validate py MxlimsReference bad t i (at_ ++ [Idx (k + length pre)])).
Proof.
  revert k. induction pre as [ | v pre IH ]; intros k Hall; simpl.
  - rewrite both_errors, items_all_accepted by exact Hall.
    now rewrite app_nil_r, Nat.add_0_r.
  - simpl in Hall. inversion Hall as [ | ? ? Hv Hrest ]; subst.
    rewrite both_errors, accepted_no_errors by exact Hv.
    rewrite IH by exact Hrest. simpl. now rewrite Nat.add_succ_r.
Qed.

Lemma entries_all_accepted (kvs : list (string * value)) t at_ :
  Forall (fun kv => accepts py MxlimsReference (snd kv) t (Field [])) kvs ->
  errors (validate_entries (entries_of py MxlimsReference kvs) t at_) = [].
Proof.
  induction 1 as [ | [k v] kvs Hv _ IH ]; simpl.
  - reflexivity.
  - fold (entries_of py MxlimsReference kvs).
    now rewrite both_errors, IH, accepted_no_errors.
Qed.

Lemma entries_one_error pre key bad post t at_ :
  Forall (fun kv => accepts py MxlimsReference (snd kv) t (Field [])) (pre ++ post) ->
  errors (validate_entries
            (entries_of py MxlimsReference (pre ++ (key, bad) :: post)) t at_)
  = errors (validate py MxlimsReference bad t (Field []) (at_ ++ [Key key])).
Proof.
  induction pre as [ | [k v] pre IH ]; intros Hall; simpl.
  - fold (entries_of py MxlimsReference post).
    rewrite both_errors, entries_all_accepted by exact Hall.
    now rewrite app_nil_r.
  - simpl in Hall. inversion Hall as [ | ? ? Hv Hrest ]; subst.
    fold (entries_of py MxlimsReference (pre ++ (key, bad) :: post)).
    rewrite both_errors, accepted_no_errors by exact Hv.
    now rewrite IH by exact Hrest.
Qed.

End ItemErrors.

(** X16: an error inside a list field or a dict field is reported at the
    item.  When all items of a list but one are items the field admits,
    the errors of the construction are the errors of that one item, under
    the name of the field and the index of the item; in a dict field they
    are the errors of the one value, under the name of the field and the
    key of the value.  Keyword arguments that are valid without the field
    are assumed. *)
Theorem collection_errors_are_reported_at_the_item :
  forall (py : Runtime) (MxlimsReference c : model_class) (f : field)
         (t : ftype) (kwargs : list (string * value)),
    In c classes -> In f (model_fields c) ->
    is_ok (construct py MxlimsReference (class_name c) kwargs) = true ->
    let build v :=
      construct py MxlimsReference (class_name c) ((fname f, v) :: kwargs) in
    (annotation f = TList t ->
     forall pre bad post,
       Forall (fun v => accepts py MxlimsReference v t (item_info (info f)))
              (pre ++ post) ->
       errors (build (VList (pre ++ bad :: post)))
       = errors (validate py MxlimsReference bad t (item_info (info f))
                          [Key (fname f); Idx (length pre)]))
    /\ (annotation f = TDict t ->
        forall pre key bad post,
          Forall (fun kv => accepts py MxlimsReference (snd kv) t (Field []))
                 (pre ++ post) ->
          errors (build (VDict (pre ++ (key, bad) :: post)))
          = errors (validate py MxlimsReference bad t (Field [])
                             [Key (fname f); Key key])).
Proof.
  intros py MxlimsReference c f t kwargs Hc Hf Hbase build.
  destruct (class_resolves MxlimsReference c Hc) as [He Hr].
  assert (Hbuild : forall v,
             errors (build v)
             = errors (validate py MxlimsReference v (annotation f) (info f)
                                [Key (fname f)]))
    by (intros v; exact (proj2 (construct_with_argument py MxlimsReference _ c kwargs
                                  f v He Hr Hf Hbase))).
  split; intros Hann.
  - intros pre bad post Hall.
    rewrite Hbuild, Hann, validate_list, map_result_errors.
    now rewrite items_one_error by exact Hall.
  - intros pre key bad post Hall. rewrite Hbuild, Hann.
    change (validate py MxlimsReference (VDict (pre ++ (key, bad) :: post))
                     (TDict t) (info f) [Key (fname f)])
      with (map_result VDict
              (validate_entries
                 (entries_of py MxlimsReference (pre ++ (key, bad) :: post)) t
                 [Key (fname f)])).
    rewrite map_result_errors. now apply entries_one_error.
Qed.

(** [collection_errors_are_reported_at_the_item] on the scans of a
    sweep: the second scan lacks all its fields, and the four errors are
    reported under [scans] and the index [1]. *)
Lemma collection_errors_are_reported_at_the_item_witness :
  errors (construct fixed_runtime CollectionSweepRef "CollectionSweep"
            [ ("scans",
               VList ([ VDict [ ("scan_position_start", VFloat 0);
                                ("first_image_no", VInt 1);
                                ("num_images", VInt 900); ("ordinal", VInt 1) ] ]
                        ++ VDict [] :: []));
              ("mxlims_type", VStr "CollectionSweep"); ("scan_axis", VStr "Omega") ])
  = [ {| eloc := [Key "scans"; Idx 1; Key "scan_position_start"]; etype := missing |};
      {| eloc := [Key "scans"; Idx 1; Key "first_image_no"]; etype := missing |};
      {| eloc := [Key "scans"; Idx 1; Key "num_images"]; etype := missing |};
      {| eloc := [Key "scans"; Idx 1; Key "ordinal"]; etype := missing |} ].
Proof.
  assert (Hc : In CollectionSweep classes) by (simpl; tauto).
  assert (Hf : exists f, find_field "scans" (model_fields CollectionSweep) = Some f
                         /\ annotation f = TList (TRef "Scan")
                         /\ the_discriminator (info f) = None)
    by (eexists; repeat split).
  destruct Hf as [f [Hf [Hann Hdisc] ] ].
  destruct (find_field_In _ _ _ Hf) as [Hin Hname].
  pose proof (proj1 (collection_errors_are_reported_at_the_item
                       fixed_runtime CollectionSweepRef CollectionSweep f (TRef "Scan")
                       [ ("mxlims_type", VStr "CollectionSweep");
                         ("scan_axis", VStr "Omega") ] Hc Hin eq_refl) Hann) as H.
  rewrite Hname in H. cbv zeta in H. rewrite H.
  - reflexivity.
  - apply Forall_cons; [ | apply Forall_nil ].
    apply (validate_accepts fixed_runtime CollectionSweepRef _ _ _ []).
    reflexivity.
Defined.

(** ** The schema documents *)

(** X17: the schema documents, with any class of the two modules for
    [MxlimsReference].  Every class has one, and the schema of the class
    in it has one property for each field of the class, in field order,
    with the description the field declares.  The document of a class
    that refers to itself, directly or through the classes it refers to,
    holds ["$defs"] and a reference to the entry of the class there, and
    nothing else; the document of any other class has the schema of the
    class at its top.  Seven classes refer to themselves: the four
    entities of [core.py] and the three tagged entities with jobs or
    samples. *)
Theorem schema_documents_every_field :
  forall (py : Runtime) (MxlimsReference c : model_class),
    In MxlimsReference classes ->
    In c classes ->
    map class_name (filter (refers_to_itself MxlimsReference) classes)
    = [ "Dataset"; "Job"; "LogisticalSample"; "PreparedSample";
        "MXExperiment"; "MXProcessing"; "MXSample" ]
    /\ exists doc,
        model_json_schema py MxlimsReference c = Ok doc
        /\ documents doc c
        /\ reference_at_top doc = refers_to_itself MxlimsReference c
        /\ (reference_at_top doc = true ->
            map fst (object_items doc)
            = ["$defs"; if all_of_references py then "allOf" else "$ref"]).
Proof.
  intros py MxlimsReference c Href Hc. split.
  - simpl in Href.
    repeat (destruct Href as [<- | Href]; [ vm_compute; reflexivity | ]).
    contradiction.
  - pose proof (schemas_checked py MxlimsReference c Href Hc) as Hcheck.
    unfold schema_check in Hcheck.
    destruct (model_json_schema py MxlimsReference c) as [doc | ];
      [ | discriminate Hcheck ].
    repeat (apply andb_true_iff in Hcheck;
            let H := fresh "Hcheck" in destruct Hcheck as [Hcheck H]).
    exists doc. split; [ reflexivity | ].
    split; [ now apply documents_checked | ].
    split; [ now apply eqb_prop | ].
    intros Htop.
    match goal with
    | H : negb (reference_at_top doc) || _ = true |- _ =>
        rewrite Htop in H; simpl in H; now apply same_strings_eq
    end.
Qed.

(** [schema_documents_every_field] on [LogisticalSample], which holds
    samples: its document is a reference into its definitions, where the
    schema of the class describes every field. *)
Lemma schema_documents_every_field_witness :
  exists doc,
    model_json_schema fixed_runtime CollectionSweepRef LogisticalSample = Ok doc
    /\ documents doc LogisticalSample
    /\ map fst (object_items doc) = ["$defs"; "allOf"].
Proof.
  assert (Href : In CollectionSweepRef classes) by (simpl; tauto).
  assert (Hc : In LogisticalSample classes) by (simpl; tauto).
  destruct (schema_documents_every_field fixed_runtime CollectionSweepRef
              LogisticalSample Href Hc)
    as [_ [doc [Hdoc [Hcovers [Htop Hkeys] ] ] ] ].
  exists doc. split; [ exact Hdoc | ]. split; [ exact Hcovers | ].
  apply Hkeys. rewrite Htop. reflexivity.
Defined.

(** ** Scalars are converted *)

(** X18: construction is lax about scalars.  A [Scan] takes a numeral
    for a float or an int, a whole float for an int and a bool for an int,
    and holds the number; a float with a fraction is no int, and a whole
    float of 2^63 or more is too large.  A string field takes a member of
    a string enum and holds the member's value as a plain string.  A
    timestamp field takes a number and holds the time the number stands
    for.  A bool field takes the floats 0 and 1, and no other number. *)
Theorem scalars_are_converted_on_construction :
  forall (py : Runtime) (MxlimsReference : model_class),
    (forall s t x n,
        float_of_str py s = Some x ->
        (String.length t <= max_int_digits)%nat ->
        int_of_str py t = Some n ->
        construct py MxlimsReference "Scan"
                  [ ("scan_position_start", VStr s); ("first_image_no", VStr t);
                    ("num_images", VFloat 900); ("ordinal", VBool true) ]
        = Ok (VObj "Scan"
                   [ ("scan_position_start", VFloat x); ("first_image_no", VInt n);
                     ("num_images", VInt 900); ("ordinal", VInt 1) ]))
    /\ (forall s,
           errors (construct py MxlimsReference "Scan"
                             [ ("scan_position_start", VStr s);
                               ("first_image_no", VFloat (9 # 2));
                               ("num_images", VFloat (inject_Z (2 ^ 63)));
                               ("ordinal", VInt (2 ^ 63)) ])
           = errors (validate py MxlimsReference (VStr s) TFloat (Field [])
                              [Key "scan_position_start"])
             ++ [ {| eloc := [Key "first_image_no"]; etype := int_from_float |};
                  {| eloc := [Key "num_images"]; etype := int_parsing_size |} ])
    /\ (forall e member,
           exists sweep,
             construct py MxlimsReference "CollectionSweep"
                       [ ("mxlims_type", VStr "CollectionSweep");
                         ("scan_axis", VEnum e member) ]
             = Ok sweep
             /\ getattr sweep "scan_axis" = Some (VStr member))
    /\ (forall x d,
           datetime_of_timestamp py x = Some d ->
           exists job,
             construct py MxlimsReference "Job" [("start_time", VFloat x)] = Ok job
             /\ getattr job "start_time" = Some (VDatetime d))
    /\ (forall i at_,
           validate py MxlimsReference (VFloat 1) TBool i at_ = Ok (VBool true)
           /\ validate py MxlimsReference (VFloat 0) TBool i at_ = Ok (VBool false)
           /\ validate py MxlimsReference (VFloat (1 # 2)) TBool i at_
              = fail at_ bool_type
           /\ validate py MxlimsReference (VInt 2) TBool i at_
              = fail at_ bool_parsing).
Proof.
  intros py MxlimsReference. split; [ | split; [ | split; [ | split ] ] ].
  - intros s t x n Hs Ht Hn.
    apply Nat.ltb_ge in Ht.
    unfold construct. simpl. unfold field_outcome, check_bounds. simpl.
    now rewrite Hs, Ht, Hn.
  - intros s. unfold construct. simpl.
    destruct (float_of_str py s); reflexivity.
  - intros e member. eexists. split; reflexivity.
  - intros x d Hx. eexists. unfold construct. simpl. rewrite Hx.
    split; reflexivity.
  - intros i at_. repeat split.
Qed.

(** [scalars_are_converted_on_construction] on a [Scan] given by
    numerals: the position ["0.5"] and the image number ["1"]. *)
Lemma scalars_are_converted_on_construction_witness :
  construct fixed_runtime CollectionSweepRef "Scan"
            [ ("scan_position_start", VStr "0.5"); ("first_image_no", VStr "1");
              ("num_images", VFloat 900); ("ordinal", VBool true) ]
  = Ok (VObj "Scan"
             [ ("scan_position_start", VFloat (5 # 10)); ("first_image_no", VInt 1);
               ("num_images", VInt 900); ("ordinal", VInt 1) ]).
Proof.
  apply (proj1 (scalars_are_converted_on_construction fixed_runtime
                  CollectionSweepRef) "0.5" "1" (5 # 10) 1%Z).
  - reflexivity.
  - unfold max_int_digits. simpl. lia.
  - reflexivity.
Defined.
